(** * dbman: connection registry, tunnels, metadata and result typing

    A shallow embedding of the Go package [dbman] (SwitchConnection, Close,
    Query, DescribeTable, NewTunnel, the UUID scanner) and the properties its
    specification states about it. *)

From Stdlib Require Import NArith ZArith List String Ascii Lia.
From Stdlib.Strings Require Import Byte.
From stdpp Require Import gmap strings list fin_maps pretty.

Local Open Scope string_scope.
Local Open Scope list_scope.

(** ** Go values shared by the package *)

(** A Go [error] value.  [errors_New] stands for [errors.New] and for
    [fmt.Errorf] without [%w]; [fmt_Errorf_w] for [fmt.Errorf("...: %w", err)];
    [ext_error] for any error produced by the operating system, a driver or a
    library whose text the package never inspects. *)
Inductive error : Type :=
| errors_New (msg : string)
| fmt_Errorf_w (prefix : string) (err : error)
| hex_InvalidByteError (b : byte)
| hex_ErrLength
| ssh_PassphraseMissingError
| ext_error (code : nat).

(** A run-time panic of the Go runtime. *)
Inductive panic : Type :=
| index_out_of_range (index len : nat)
| nil_dereference.

(** ** encoding/hex *)

Module hex.

Definition hextable : list byte := list_byte_of_string "0123456789abcdef".

(** [v >> 4] and [v & 0x0f] on a byte. *)
Definition hi_nibble (v : byte) : N := N.shiftr (Byte.to_N v) 4.
Definition lo_nibble (v : byte) : N := N.land (Byte.to_N v) 15.

(** Conversion of a number to a byte, wrapping as Go's [byte] arithmetic. *)
Definition byte_of_N (n : N) : byte :=
  match Byte.of_N (n mod 256) with
  | Some b => b
  | None => x00
  end.

(** [hex.Encode]: two lower-case digits of [hextable] for every byte. *)
Fixpoint Encode (src : list byte) : list byte :=
  match src with
  | [] => []
  | v :: rest =>
      nth (N.to_nat (hi_nibble v)) hextable x00
        :: nth (N.to_nat (lo_nibble v)) hextable x00
        :: Encode rest
  end.

(** [fromHexChar]: the value of a hexadecimal digit, and whether the
    character is one. *)
Definition fromHexChar (c : byte) : N * bool :=
  let n := Byte.to_N c in
  if (48 <=? n)%N && (n <=? 57)%N then ((n - 48)%N, true)
  else if (97 <=? n)%N && (n <=? 102)%N then ((n - 97 + 10)%N, true)
  else if (65 <=? n)%N && (n <=? 70)%N then ((n - 65 + 10)%N, true)
  else (0%N, false).

(** [hex.Decode]: the bytes written to the destination, in order, and the
    error.  On an invalid digit the bytes decoded so far have been written;
    an odd-length source reports the invalid last character before the
    bad length. *)
Fixpoint Decode (src : list byte) : list byte * option error :=
  match src with
  | [] => ([], None)
  | [p] =>
      if snd (fromHexChar p) then ([], Some hex_ErrLength)
      else ([], Some (hex_InvalidByteError p))
  | p :: q :: rest =>
      let '(a, oka) := fromHexChar p in
      let '(b, okb) := fromHexChar q in
      if negb oka then ([], Some (hex_InvalidByteError p))
      else if negb okb then ([], Some (hex_InvalidByteError q))
      else
        let '(written, err) := Decode rest in
        (byte_of_N (N.lor (N.shiftl a 4) b) :: written, err)
  end.

End hex.

(** ** sql_types.go: the UUID scanner *)

(** [dst[lo:hi]] receiving [written] from its first index on: the bytes of
    [dst] outside the written range keep their value. *)
Definition write_at (dst : list byte) (lo : nat) (written : list byte)
  : list byte :=
  take lo dst ++ written ++ drop (lo + length written) dst.

(** [in[lo:hi]]. *)
Definition slice (l : list byte) (lo hi : nat) : list byte :=
  take (hi - lo) (drop lo l).

(** [uuidParse(dst, in)]: the destination after the call and the error. *)
Definition uuidParse (dst inp : list byte) : list byte * option error :=
  match length inp with
  | 16 => (* raw *)
      (write_at dst 0 inp, None)
  | 32 => (* textual *)
      let '(w, err) := hex.Decode inp in
      (write_at dst 0 w, err)
  | 36 => (* textual with hyphens *)
      let '(w1, err) := hex.Decode (slice inp 0 8) in
      let dst := write_at dst 0 w1 in
      match err with Some e => (dst, Some e) | None =>
      let '(w2, err) := hex.Decode (slice inp 9 13) in
      let dst := write_at dst 4 w2 in
      match err with Some e => (dst, Some e) | None =>
      let '(w3, err) := hex.Decode (slice inp 14 18) in
      let dst := write_at dst 6 w3 in
      match err with Some e => (dst, Some e) | None =>
      let '(w4, err) := hex.Decode (slice inp 19 23) in
      let dst := write_at dst 8 w4 in
      match err with Some e => (dst, Some e) | None =>
      let '(w5, err) := hex.Decode (slice inp 24 36) in
      let dst := write_at dst 10 w5 in
      match err with Some e => (dst, Some e) | None =>
      (dst, None)
      end end end end end
  | n =>
      (dst, Some (errors_New ("unexpected number of bytes: " +:+ pretty n)))
  end.

(** Floating-point numbers and instants are carried as opaque values: the
    package only moves them around and prints them. *)
Inductive float64 : Type := float64_bits (bits : N).
Inductive float32 : Type := float32_bits (bits : N).
Inductive Time : Type := time_instant (nanos : Z).

(** A value handed to a [Scan] method by database/sql ([driver.Value]). *)
Inductive driverValue : Type :=
| dv_nil
| dv_int64 (i : Z)
| dv_float64 (f : float64)
| dv_bool (b : bool)
| dv_bytes (bs : list byte)
| dv_string (s : string)
| dv_time (t : Time).

Record uuidVal : Type := mk_uuidVal { UUID : list byte; Valid : bool }.

(** The zero value that [new(uuidVal)] allocates. *)
Definition uuidVal_zero : uuidVal := mk_uuidVal (replicate 16 x00) false.

(** [uuidVal.Scan] (pointer receiver): the scanner after the call and the
    error. *)
Definition uuidVal_Scan (v : uuidVal) (raw : driverValue)
  : uuidVal * option error :=
  match raw with
  | dv_string rv =>
      match uuidParse (UUID v) (list_byte_of_string rv) with
      | (dst, Some err) => (mk_uuidVal dst (Valid v), Some err)
      | (dst, None) => (mk_uuidVal dst true, None)
      end
  | dv_bytes rv =>
      match uuidParse (UUID v) rv with
      | (dst, Some err) => (mk_uuidVal dst (Valid v), Some err)
      | (dst, None) => (mk_uuidVal dst true, None)
      end
  | dv_nil => (mk_uuidVal (UUID v) false, None)
  | _ => (v, Some (errors_New "unexpected type"))
  end.

Definition hyphen : byte := "-"%byte.

(** [uuidVal.String]: the string builder receives, through a hex encoder,
    the five groups of the array separated by hyphens. *)
Definition uuidVal_String (v : uuidVal) : string :=
  if negb (Valid v) then "NULL"
  else
    let sb : list byte := [] in
    let sb := sb ++ hex.Encode (slice (UUID v) 0 4) in
    let sb := sb ++ [hyphen] in
    let sb := sb ++ hex.Encode (slice (UUID v) 4 6) in
    let sb := sb ++ [hyphen] in
    let sb := sb ++ hex.Encode (slice (UUID v) 6 8) in
    let sb := sb ++ [hyphen] in
    let sb := sb ++ hex.Encode (slice (UUID v) 8 10) in
    let sb := sb ++ [hyphen] in
    let sb := sb ++ hex.Encode (slice (UUID v) 10 16) in
    string_of_list_byte sb.

(** ** Configuration (src/unnamed/part_008) *)

Module Connection.
Record t : Type := mk {
  Host : string;
  Port : Z;
  Database : string;
  Username : string;
  Password : string;
  Driver : string;
  DriverOpts : gmap string string;
  Tunnel : string;
  ConnectTimeoutSec : Z;
  MaxOpenConns : Z
}.

Definition set_Host (h : string) (c : t) : t :=
  mk h (Port c) (Database c) (Username c) (Password c) (Driver c)
     (DriverOpts c) (Tunnel c) (ConnectTimeoutSec c) (MaxOpenConns c).
Definition set_Port (p : Z) (c : t) : t :=
  mk (Host c) p (Database c) (Username c) (Password c) (Driver c)
     (DriverOpts c) (Tunnel c) (ConnectTimeoutSec c) (MaxOpenConns c).
Definition set_Password (pw : string) (c : t) : t :=
  mk (Host c) (Port c) (Database c) (Username c) pw (Driver c)
     (DriverOpts c) (Tunnel c) (ConnectTimeoutSec c) (MaxOpenConns c).
End Connection.

Definition AuthMethod : Type := string.
Definition PasswordAuth : AuthMethod := "password".
Definition PublicKeyAuth : AuthMethod := "public_key".
Definition AgentAuth : AuthMethod := "agent".

Module SSHTunnel.
Record t : Type := mk {
  Host : string;
  Port : Z;
  User : string;
  AuthMethod : string;
  Password : string;
  PrivateKeyFile : string;
  PrivateKeyPassphrase : string;
  ConnectTimeoutSec : Z;
  DisableVerifyKnownHost : bool;
  HostPublicKeyFile : string
}.

(** The zero value, which a Go map lookup yields for an absent key. *)
Definition zero : t := mk "" 0 "" "" "" "" "" 0 false "".
End SSHTunnel.

Record Config : Type := mk_Config {
  Connections : gmap string Connection.t;
  Tunnels : gmap string SSHTunnel.t
}.

(** ** Handles of live objects *)

(** A [*sql.DB]. *)
Inductive sqlDB : Type := sqlDB_handle (id : nat).
(** A [*ssh.Client]. *)
Inductive sshClient : Type := sshClient_handle (id : nat).
(** A [net.Listener], with the text of its [Addr()]. *)
Record Listener : Type := mk_Listener { listener_id : nat; listener_Addr : string }.
(** An accepted local connection, kept as an [io.Closer]. *)
Inductive Closer : Type := closer_handle (id : nat).
(** Results of parsing keys, the agent connection and the pq connector. *)
Inductive PublicKey : Type := PublicKey_of (id : nat).
Inductive Signer : Type := Signer_of (id : nat).
Inductive agentConn : Type := agentConn_handle (id : nat).
Inductive Connector : Type := Connector_of (dsn : string).

(** [ssh.HostKeyCallback], by the constructor that built it. *)
Inductive HostKeyCallback : Type :=
| ssh_FixedHostKey (key : PublicKey)
| knownHostsCallback (path : string)
| ssh_InsecureIgnoreHostKey.

(** [ssh.AuthMethod], by the constructor that built it; a callback is
    represented by what its closure captured. *)
Inductive sshAuthMethod : Type :=
| auth_nil
| ssh_Password (secret : string)
| ssh_RetryableKeyboardInteractive (maxTries : nat)
| ssh_PublicKeysCallback_privateKey (tunnel : SSHTunnel.t) (buf : list byte)
| ssh_PublicKeysCallback_agent (conn : agentConn).

Record ClientConfig : Type := mk_ClientConfig {
  cc_User : string;
  cc_Auth : list sshAuthMethod;
  cc_HostKeyCallback : HostKeyCallback;
  cc_TimeoutSec : Z
}.

(** src/unnamed/part_004: [Tunnel].  The mutex is not represented: the operations below
    run one at a time. *)
Record Tunnel : Type := mk_Tunnel {
  config : ClientConfig;
  tunnelHost : string;
  remoteHost : string;
  localConn : Listener;
  client : sshClient;
  connections : list Closer
}.

(** [sql.DBStats]. *)
Record DBStats : Type := mk_DBStats {
  MaxOpenConnections : Z;
  OpenConnections : Z;
  InUse : Z;
  Idle : Z;
  WaitCount : Z;
  WaitDuration : Z;
  MaxIdleClosed : Z;
  MaxIdleTimeClosed : Z;
  MaxLifetimeClosed : Z
}.

Definition DBStats_zero : DBStats := mk_DBStats 0 0 0 0 0 0 0 0 0.

(** meta.go: the only implementation of [metaQuerier] is [dbMeta], a wrapper
    of the database handle; a nil interface value is [None]. *)
Inductive metaQuerier : Type := dbMeta (querier : sqlDB).

(** src/unnamed/part_007: [DBMan].  [activeTunnels] holds pointers: a tunnel lives in the
    heap of the state below. *)
Record DBMan : Type := mk_DBMan {
  current : option metaQuerier;
  cfg : Config;
  activeQueriers : gmap string metaQuerier;
  activeTunnels : gmap string nat;
  currentName : string
}.

Definition New (cfg : Config) : DBMan :=
  mk_DBMan None cfg ∅ ∅ "".

(** ** Result sets (database/sql) *)

(** A [reflect.Type] reported by the driver as the scan type of a column. *)
Inductive ScanType : Type := ScanType_of (name : string).

Record ColumnType : Type := mk_ColumnType {
  ct_Name : string;
  ct_DatabaseTypeName : string;
  ct_ScanType : ScanType
}.

(** A [*sql.Rows]: what [ColumnTypes] answers, the rows that [Next] steps
    through, and the error that [Err] reports once [Next] has returned
    false. *)
Record Rows : Type := mk_Rows {
  rows_ColumnTypes : list ColumnType * option error;
  rows_data : list (list driverValue);
  rows_Err : option error
}.

(** The value behind a pointer handed to [Rows.Scan]; a row of a
    [QueryResult] holds copies of such values. *)
Inductive scanTarget : Type :=
| t_nullString (String : string) (Valid : bool)
| t_nullBool (Bool : bool) (Valid : bool)
| t_nullInt64 (Int64 : Z) (Valid : bool)
| t_nullInt32 (Int32 : Z) (Valid : bool)
| t_nullInt16 (Int16 : Z) (Valid : bool)
| t_nullFloat64 (Float64 : float64) (Valid : bool)
| t_nullFloat32 (Float32 : float32) (Valid : bool)
| t_nullTime (T : Time) (Valid : bool)
| t_uuidVal (v : uuidVal)
| t_array (elems : list driverValue)
| t_reflect (ty : ScanType) (val : driverValue).

(** An element of a result row: [nullValue{}] or the scanned value. *)
Inductive rowValue : Type :=
| nullValue
| rowValue_of (v : scanTarget).

Record QueryResult : Type := mk_QueryResult {
  Columns : list string;
  Rows_ : list (list rowValue)
}.

Record ColumnSchema : Type := mk_ColumnSchema {
  cs_Name : string;
  cs_Type : string;
  cs_Attrs : list string
}.

Record TableSchema : Type := mk_TableSchema {
  ts_Name : string;
  ts_Columns : list ColumnSchema
}.

(** [int16(rv)]: the low 16 bits, read as a signed number. *)
Definition int16_of_int64 (rv : Z) : Z :=
  ((rv + 32768) mod 65536 - 32768)%Z.

(** sql_types.go: [nullInt16.Scan], on the fields [(Int16, Valid)]. *)
Definition nullInt16_Scan (i : Z * bool) (v : driverValue)
  : (Z * bool) * option error :=
  match v with
  | dv_nil => ((0%Z, false), None)
  | dv_int64 rv => ((int16_of_int64 rv, true), None)
  | _ => (i, Some (errors_New "unexpected type"))
  end.

(** meta.go: [parseYesOrNo] and [yesOrNo.Scan]. *)
Definition parseYesOrNo (s : string) : bool * option error :=
  if decide (s = "YES" ∨ s = "yes") then (true, None)
  else if decide (s = "NO" ∨ s = "no") then (false, None)
  else (false, Some (errors_New "yesOrNo: invalid value")).

Definition yesOrNo_Scan (v : bool) (src : driverValue) : bool * option error :=
  match src with
  | dv_string srcVal => parseYesOrNo srcVal
  | dv_bytes srcVal => parseYesOrNo (string_of_list_byte srcVal)
  | _ => (v, Some (errors_New "yesOrNo: incompatible type"))
  end.

(** ** strings *)

(** [strings.Split(s, sep)] for a separator of one byte: the pieces of [s]
    between the occurrences of [sep]; never an empty list. *)
Fixpoint strings_Split (s : string) (sep : ascii) : list string :=
  match s with
  | EmptyString => [EmptyString]
  | String c rest =>
      if decide (c = sep) then EmptyString :: strings_Split rest sep
      else
        match strings_Split rest sep with
        | piece :: pieces => String c piece :: pieces
        | [] => [String c EmptyString]
        end
  end.

(** [strings.ReplaceAll(s, old, new)] for an [old] of one byte. *)
Fixpoint strings_ReplaceAll (s : string) (old : ascii) (new : string) : string :=
  match s with
  | EmptyString => EmptyString
  | String c rest =>
      if decide (c = old) then new +:+ strings_ReplaceAll rest old new
      else String c (strings_ReplaceAll rest old new)
  end.

(** [strings.ToUpper] on the ASCII letters. *)
Definition ascii_ToUpper (c : ascii) : ascii :=
  let n := N_of_ascii c in
  if (97 <=? n)%N && (n <=? 122)%N then ascii_of_N (n - 32) else c.

Fixpoint strings_ToUpper (s : string) : string :=
  match s with
  | EmptyString => EmptyString
  | String c rest => String (ascii_ToUpper c) (strings_ToUpper rest)
  end.

(** ** The world outside the package *)

(** The result of a Go call that may panic. *)
Inductive Outcome (A : Type) : Type :=
| Ret (a : A)
| Panicked (p : panic).
Arguments Ret {A} a.
Arguments Panicked {A} p.

(** What [net.Listener.Accept] answers. *)
Inductive AcceptResult : Type :=
| accepted (conn : Closer)
| accept_failed (err : error) (isOpError temporary : bool).

(** One entry per call that leaves the package, in the order of the calls. *)
Inductive Event : Type :=
| ev_UserHomeDir
| ev_Getenv (key : string)
| ev_ExpandEnv (s : string)
| ev_ReadFile (path : string)
| ev_prompt (user instruction : string) (questions : list string)
            (echos : list bool)
| ev_net_Dial_unix (socket : string) (err : option error)
| ev_net_Listen (l : Listener) (err : option error)
| ev_ssh_Dial (addr : string) (r : Outcome (sshClient * option error))
| ev_Accept (l : Listener) (r : AcceptResult)
| ev_client_Dial (c : sshClient) (addr : string) (err : option error)
| ev_logCopy (dst src : Closer)
| ev_NewConnector (dsn : string)
| ev_OpenDB (c : Connector) (db : sqlDB)
| ev_SetMaxOpenConns (db : sqlDB) (n : Z)
| ev_SetConnMaxIdleTime (db : sqlDB) (seconds : Z)
| ev_PingContext (db : sqlDB) (timeoutSec : option Z) (err : option error)
| ev_Query (db : sqlDB) (query : string) (args : list string)
           (err : option error)
| ev_Rows_Close
| ev_Stats (db : sqlDB)
| ev_DB_Close (db : sqlDB) (err : option error)
| ev_Closer_Close (c : Closer) (err : option error)
| ev_Listener_Close (l : Listener) (err : option error).

Section World.

(** The state of everything outside the package: the operating system, the
    network, the database servers, the user at the terminal. *)
Variable W : Type.

(** [ssh.KeyboardInteractiveChallenge]. *)
Definition Prompter : Type :=
  string -> string -> list string -> list bool ->
  W -> (list string * option error) * W.

(** The operations of the operating system and of the libraries, as the
    package calls them.  An operation that only reads takes the world; one
    that acts on it also returns the next world. *)
Record Sys : Type := mk_Sys {
  os_UserHomeDir : W -> string * option error;
  os_Getenv : string -> W -> string;
  os_ExpandEnv : string -> W -> string;
  ioutil_ReadFile : string -> W -> list byte * option error;
  filepath_Join : string -> string -> string;
  ssh_ParsePublicKey : list byte -> PublicKey * option error;
  ssh_ParsePrivateKey : list byte -> Signer * option error;
  ssh_ParsePrivateKeyWithPassphrase :
    list byte -> list byte -> Signer * option error;
  net_Dial_unix : string -> W -> (agentConn * option error) * W;
  net_Listen : W -> (Listener * option error) * W;
  ssh_Dial : string -> ClientConfig -> Prompter ->
             W -> Outcome (sshClient * option error) * W;
  listener_Accept : Listener -> W -> AcceptResult * W;
  client_Dial : sshClient -> string -> W -> (Closer * option error) * W;
  net_SplitHostPort : string -> string * string * option error;
  strconv_Atoi : string -> Z * option error;
  pq_NewConnector : string -> W -> Connector * option error;
  sql_OpenDB : Connector -> W -> sqlDB * W;
  db_SetMaxOpenConns : sqlDB -> Z -> W -> W;
  db_SetConnMaxIdleTime : sqlDB -> Z -> W -> W;
  db_PingContext : sqlDB -> option Z -> W -> option error * W;
  db_Query : sqlDB -> string -> list string -> W -> (Rows * option error) * W;
  db_Stats : sqlDB -> W -> DBStats;
  db_Close : sqlDB -> W -> option error * W;
  closer_Close : Closer -> W -> option error * W;
  listener_Close : Listener -> W -> option error * W;
  (** [convertAssign] of database/sql into a destination of each type
      that the package scans into: the value stored, or the error. *)
  conv_string : driverValue -> string * option error;
  conv_stringPtr : driverValue -> option string * option error;
  conv_bool : driverValue -> bool * option error;
  conv_int64 : driverValue -> Z * option error;
  conv_int32 : driverValue -> Z * option error;
  conv_float64 : driverValue -> float64 * option error;
  conv_time : driverValue -> Time * option error;
  conv_array : driverValue -> list driverValue * option error;
  conv_reflect : ScanType -> driverValue -> driverValue * option error;
  (** [float32(rv)]. *)
  float32_of_float64 : float64 -> float32;
  (** The order in which a [range] over a map visits its entries. *)
  map_range : forall A : Type, gmap string A -> W -> list (string * A)
}.

Variable sys : Sys.

(** The registry, the tunnels its pointers refer to, the world, and the
    calls made so far. *)
Record State : Type := mk_State {
  reg : DBMan;
  heap : gmap nat Tunnel;
  world : W;
  trace : list Event
}.

(** A computation of the package: it may panic, and what it did to the
    state before the panic stays done. *)
Definition M (A : Type) : Type := State -> Outcome A * State.

Definition ret {A} (a : A) : M A := fun st => (Ret a, st).

Definition bind {A B} (m : M A) (k : A -> M B) : M B :=
  fun st =>
    match m st with
    | (Ret a, st') => k a st'
    | (Panicked p, st') => (Panicked p, st')
    end.

Definition raise {A} (p : panic) : M A := fun st => (Panicked p, st).

Definition get_reg : M DBMan := fun st => (Ret (reg st), st).

Definition put_reg (d : DBMan) : M unit :=
  fun st => (Ret tt, mk_State d (heap st) (world st) (trace st)).

Definition get_heap : M (gmap nat Tunnel) := fun st => (Ret (heap st), st).

Definition put_heap (h : gmap nat Tunnel) : M unit :=
  fun st => (Ret tt, mk_State (reg st) h (world st) (trace st)).

Definition log (e : Event) : M unit :=
  fun st => (Ret tt, mk_State (reg st) (heap st) (world st) (trace st ++ [e])).

(** The order of a [range] over a map, chosen by the runtime. *)
Definition range_over {A} (m : gmap string A) : M (list (string * A)) :=
  fun st => (Ret (map_range sys A m (world st)), st).

(** [defer d] around [body]: [d] runs when [body] returns and when it
    panics. *)
Definition defer_ {A} (d : M unit) (body : M A) : M A :=
  fun st =>
    match body st with
    | (Ret a, st') =>
        match d st' with
        | (Ret _, st'') => (Ret a, st'')
        | (Panicked p, st'') => (Panicked p, st'')
        end
    | (Panicked p, st') => (Panicked p, snd (d st'))
    end.

(** A call that only reads the world. *)
Definition peek {A} (f : W -> A) (ev : A -> Event) : M A :=
  fun st =>
    let a := f (world st) in
    (Ret a, mk_State (reg st) (heap st) (world st) (trace st ++ [ev a])).

(** A call that acts on the world. *)
Definition call {A} (f : W -> A * W) (ev : A -> Event) : M A :=
  fun st =>
    let '(a, w) := f (world st) in
    (Ret a, mk_State (reg st) (heap st) w (trace st ++ [ev a])).

(** A call that acts on the world and may panic. *)
Definition call_outcome {A} (f : W -> Outcome A * W) (ev : Outcome A -> Event)
  : M A :=
  fun st =>
    let '(r, w) := f (world st) in
    (r, mk_State (reg st) (heap st) w (trace st ++ [ev r])).

End World.

Arguments ret {W A} a.
Arguments bind {W A B} m k.
Arguments raise {W A} p.
Arguments get_reg {W}.
Arguments put_reg {W} d.
Arguments get_heap {W}.
Arguments put_heap {W} h.
Arguments log {W} e.
Arguments range_over {W} sys {A} m.
Arguments defer_ {W A} d body.
Arguments peek {W A} f ev.
Arguments call {W A} f ev.
Arguments call_outcome {W A} f ev.
Arguments mk_State {W}.
Arguments reg {W}.
Arguments heap {W}.
Arguments world {W}.
Arguments trace {W}.

Declare Scope go_scope.
Delimit Scope go_scope with go.

Notation "x <- c1 ;; c2" := (bind c1 (fun x => c2))
  (at level 100, c1 at next level, right associativity) : go_scope.
Notation "c1 ;; c2" := (bind c1 (fun _ => c2))
  (at level 100, right associativity) : go_scope.

(** ** Tunnels (src/unnamed/part_004) *)

Section Package.

Variable W : Type.
Variable sys : Sys W.

Local Open Scope go_scope.

Definition promptNumRetries : nat := 3.

(** [answers[0]]. *)
Definition index0 (answers : list string) : M W string :=
  match answers with
  | a :: _ => ret a
  | [] => raise (index_out_of_range 0 0)
  end.

Definition run_prompter (prompter : Prompter W) (user instruction : string)
    (questions : list string) (echos : list bool)
  : M W (list string * option error) :=
  call (prompter user instruction questions echos)
       (fun _ => ev_prompt user instruction questions echos).

(** [errors.As(err, &needPass)] for [*ssh.PassphraseMissingError]. *)
Fixpoint errors_As_PassphraseMissing (err : error) : bool :=
  match err with
  | ssh_PassphraseMissingError => true
  | fmt_Errorf_w _ inner => errors_As_PassphraseMissing inner
  | _ => false
  end.

(** The [for i := 0; i < promptNumRetries; i++] loop of the private-key
    callback, with [n] iterations left; [signer] and [err] are the
    variables of the enclosing closure. *)
Fixpoint passphrase_loop (prompter : Prompter W) (tunnel : SSHTunnel.t)
    (buf : list byte) (n : nat) (signer : Signer) (err : option error)
  : M W (Signer * option error) :=
  match n with
  | 0 => ret (signer, err)
  | S n' =>
      r <- run_prompter prompter (SSHTunnel.Host tunnel)
             "private key is encrypted" ["private key passphrase: "] [false] ;;
      let '(answers, err) := r in
      match err with
      | Some e =>
          (* log.Print(err); continue *)
          passphrase_loop prompter tunnel buf n' signer (Some e)
      | None =>
          a <- index0 answers ;;
          let '(signer, err) :=
            ssh_ParsePrivateKeyWithPassphrase W sys buf (list_byte_of_string a) in
          match err with
          | None => ret (signer, None) (* break *)
          | Some e => passphrase_loop prompter tunnel buf n' signer (Some e)
          end
      end
  end.

(** The closure given to [ssh.PublicKeysCallback] for [PublicKeyAuth]. *)
Definition privateKeySigners (prompter : Prompter W) (tunnel : SSHTunnel.t)
    (buf : list byte) : M W (list Signer * option error) :=
  let '(signer, err) := ssh_ParsePrivateKey W sys buf in
  match err with
  | None => ret ([signer], None)
  | Some e =>
      if negb (errors_As_PassphraseMissing e)
      then ret ([], Some (fmt_Errorf_w "could not parse private key" e))
      else
        r <- (if decide (SSHTunnel.PrivateKeyPassphrase tunnel <> "")
              then ret (ssh_ParsePrivateKeyWithPassphrase W sys buf
                          (list_byte_of_string
                             (SSHTunnel.PrivateKeyPassphrase tunnel)))
              else passphrase_loop prompter tunnel buf promptNumRetries
                     signer (Some e)) ;;
        let '(signer, err) := r in
        match err with
        | Some e' =>
            ret ([], Some (fmt_Errorf_w "could not decrypt private key" e'))
        | None => ret ([signer], None)
        end
  end.

(** The [switch] that chooses the host key callback. *)
Definition NewTunnel_hostKeyCB (tunnel : SSHTunnel.t) (homedir : string)
  : M W (HostKeyCallback + error) :=
  if decide (SSHTunnel.HostPublicKeyFile tunnel <> "") then
    r <- peek (ioutil_ReadFile W sys (SSHTunnel.HostPublicKeyFile tunnel))
           (fun _ => ev_ReadFile (SSHTunnel.HostPublicKeyFile tunnel)) ;;
    let '(buf, err) := r in
    match err with
    | Some e =>
        ret (inr (fmt_Errorf_w "could not read expected host public key" e))
    | None =>
        let '(hostKey, err) := ssh_ParsePublicKey W sys buf in
        match err with
        | Some e => ret (inr (fmt_Errorf_w "invalid host public key" e))
        | None => ret (inl (ssh_FixedHostKey hostKey))
        end
    end
  else if negb (SSHTunnel.DisableVerifyKnownHost tunnel) then
    ret (inl (knownHostsCallback
                (filepath_Join W sys homedir ".ssh/known_hosts")))
  else ret (inl ssh_InsecureIgnoreHostKey).

(** The [switch tunnel.AuthMethod]. *)
Definition NewTunnel_auth (tunnel : SSHTunnel.t) (homedir : string)
  : M W (sshAuthMethod + error) :=
  if decide (SSHTunnel.AuthMethod tunnel = PasswordAuth) then
    if decide (SSHTunnel.Password tunnel <> "")
    then ret (inl (ssh_Password (SSHTunnel.Password tunnel)))
    else ret (inl (ssh_RetryableKeyboardInteractive promptNumRetries))
  else if decide (SSHTunnel.AuthMethod tunnel = PublicKeyAuth) then
    expanded <- peek (os_ExpandEnv W sys (SSHTunnel.PrivateKeyFile tunnel))
                  (fun _ => ev_ExpandEnv (SSHTunnel.PrivateKeyFile tunnel)) ;;
    let privateKeyFile := strings_ReplaceAll expanded "~"%char homedir in
    r <- peek (ioutil_ReadFile W sys privateKeyFile)
           (fun _ => ev_ReadFile privateKeyFile) ;;
    let '(buf, err) := r in
    match err with
    | Some e => ret (inr (fmt_Errorf_w "could not read private key file" e))
    | None => ret (inl (ssh_PublicKeysCallback_privateKey tunnel buf))
    end
  else if decide (SSHTunnel.AuthMethod tunnel = AgentAuth) then
    socket <- peek (os_Getenv W sys "SSH_AUTH_SOCK")
                (fun _ => ev_Getenv "SSH_AUTH_SOCK") ;;
    r <- call (net_Dial_unix W sys socket)
           (fun r => ev_net_Dial_unix socket (snd r)) ;;
    let '(agentConn, err) := r in
    match err with
    | Some e => ret (inr (fmt_Errorf_w "could not open SSH_AUTH_SOCK" e))
    | None => ret (inl (ssh_PublicKeysCallback_agent agentConn))
    end
  else ret (inl auth_nil).

(** [t := &Tunnel{...}] once it is returned: a fresh pointer. *)
Definition alloc (t : Tunnel) : M W nat :=
  h <- get_heap ;;
  let p := fresh (dom h) in
  put_heap (<[p := t]> h) ;;
  ret p.

(** [NewTunnel]: every [return] of the function gives either a tunnel and
    a nil error, or nil and an error.  The goroutine that it starts is
    [Tunnel_acceptLoop] below. *)
Definition NewTunnel (prompter : Prompter W) (tunnel : SSHTunnel.t)
    (host : string) (port : Z) : M W (nat + error) :=
  r <- peek (os_UserHomeDir W sys) (fun _ => ev_UserHomeDir) ;;
  let '(homedir, err) := r in
  match err with
  | Some e => ret (inr (fmt_Errorf_w "could not locate known_hosts" e))
  | None =>
  r <- NewTunnel_hostKeyCB tunnel homedir ;;
  match r with
  | inr e => ret (inr e)
  | inl hostKeyCB =>
  r <- NewTunnel_auth tunnel homedir ;;
  match r with
  | inr e => ret (inr e)
  | inl auth =>
  r <- call (net_Listen W sys) (fun r => ev_net_Listen (fst r) (snd r)) ;;
  let '(localConn, err) := r in
  match err with
  | Some e => ret (inr (fmt_Errorf_w "could not open local port" e))
  | None =>
  let config :=
    mk_ClientConfig (SSHTunnel.User tunnel) [auth] hostKeyCB
      (SSHTunnel.ConnectTimeoutSec tunnel) in
  let tunnelHost :=
    SSHTunnel.Host tunnel +:+ ":" +:+ pretty (SSHTunnel.Port tunnel) in
  let remoteHost := host +:+ ":" +:+ pretty port in
  r <- call_outcome (ssh_Dial W sys tunnelHost config prompter)
         (fun r => ev_ssh_Dial tunnelHost r) ;;
  let '(client, err) := r in
  match err with
  | Some e => ret (inr (fmt_Errorf_w "failed to connect to tunnel" e))
  | None =>
  t <- alloc (mk_Tunnel config tunnelHost remoteHost localConn client []) ;;
  ret (inl t)
  end end end end end.

(** [*t] for a tunnel pointer. *)
Definition deref (t : nat) : M W Tunnel :=
  h <- get_heap ;;
  match h !! t with
  | Some tun => ret tun
  | None => raise nil_dereference
  end.

(** [Tunnel.forward]. *)
Definition Tunnel_forward (t : nat) (localConn : Closer) : M W unit :=
  tun <- deref t ;;
  r <- call (client_Dial W sys (client tun) (remoteHost tun))
         (fun r => ev_client_Dial (client tun) (remoteHost tun) (snd r)) ;;
  let '(remoteConn, err) := r in
  match err with
  | Some _ => ret tt
  | None =>
      log (ev_logCopy localConn remoteConn) ;;
      log (ev_logCopy remoteConn localConn)
  end.

(** The accept loop that [NewTunnel] starts, for at most [n] rounds. *)
Fixpoint Tunnel_acceptLoop (n : nat) (t : nat) : M W unit :=
  match n with
  | 0 => ret tt
  | S n' =>
      tun <- deref t ;;
      r <- call (listener_Accept W sys (localConn tun))
             (fun r => ev_Accept (localConn tun) r) ;;
      match r with
      | accept_failed err isOpError temporary =>
          if isOpError && negb temporary then ret tt
          else Tunnel_acceptLoop n' t
      | accepted conn =>
          h <- get_heap ;;
          put_heap (<[t := mk_Tunnel (config tun) (tunnelHost tun)
                            (remoteHost tun) (localConn tun) (client tun)
                            (connections tun ++ [conn])]> h) ;;
          Tunnel_forward t conn ;;
          Tunnel_acceptLoop n' t
      end
  end.

(** The [for _, cl := range t.connections { cl.Close() }] loop. *)
Fixpoint close_connections (cls : list Closer) : M W unit :=
  match cls with
  | [] => ret tt
  | cl :: rest =>
      _ <- call (closer_Close W sys cl) (fun err => ev_Closer_Close cl err) ;;
      close_connections rest
  end.

(** [Tunnel.Close]. *)
Definition Tunnel_Close (t : nat) : M W (option error) :=
  tun <- deref t ;;
  close_connections (connections tun) ;;
  call (listener_Close W sys (localConn tun))
       (fun err => ev_Listener_Close (localConn tun) err).

(** ** Scanning (database/sql and sql_types.go) *)

(** [convertAssign(&dest, src)]: on an error the destination keeps its
    value. *)
Definition assign {A} (conv : driverValue -> A * option error) (old : A)
    (src : driverValue) : A * option error :=
  match conv src with
  | (_, Some e) => (old, Some e)
  | (new, None) => (new, None)
  end.

(** The [Scan] of [sql.NullString], [sql.NullInt64] and the like: nil
    clears the value; anything else sets [Valid] and converts. *)
Definition Null_Scan {A} (zero : A) (conv : driverValue -> A * option error)
    (old : A) (src : driverValue) : (A * bool) * option error :=
  match src with
  | dv_nil => ((zero, false), None)
  | _ => let '(new, err) := assign conv old src in ((new, true), err)
  end.

(** sql_types.go: [nullFloat32.Scan]. *)
Definition nullFloat32_Scan (f : float32 * bool) (v : driverValue)
  : (float32 * bool) * option error :=
  match v with
  | dv_nil => ((float32_bits 0, false), None)
  | dv_float64 rv => ((float32_of_float64 W sys rv, true), None)
  | _ => (f, Some (errors_New "unexpected type"))
  end.

(** [convertAssign] on a destination of [DBMan.Query]: a destination with
    a [Scan] method runs it, the others are converted by database/sql. *)
Definition convertAssign (dest : scanTarget) (src : driverValue)
  : scanTarget * option error :=
  match dest with
  | t_nullString s _ =>
      let '((s', valid), err) := Null_Scan "" (conv_string W sys) s src in
      (t_nullString s' valid, err)
  | t_nullBool b _ =>
      let '((b', valid), err) := Null_Scan false (conv_bool W sys) b src in
      (t_nullBool b' valid, err)
  | t_nullInt64 i _ =>
      let '((i', valid), err) := Null_Scan 0%Z (conv_int64 W sys) i src in
      (t_nullInt64 i' valid, err)
  | t_nullInt32 i _ =>
      let '((i', valid), err) := Null_Scan 0%Z (conv_int32 W sys) i src in
      (t_nullInt32 i' valid, err)
  | t_nullInt16 i valid =>
      let '((i', valid'), err) := nullInt16_Scan (i, valid) src in
      (t_nullInt16 i' valid', err)
  | t_nullFloat64 f _ =>
      let '((f', valid), err) :=
        Null_Scan (float64_bits 0) (conv_float64 W sys) f src in
      (t_nullFloat64 f' valid, err)
  | t_nullFloat32 f valid =>
      let '((f', valid'), err) := nullFloat32_Scan (f, valid) src in
      (t_nullFloat32 f' valid', err)
  | t_nullTime t _ =>
      let '((t', valid), err) :=
        Null_Scan (time_instant 0) (conv_time W sys) t src in
      (t_nullTime t' valid, err)
  | t_uuidVal v =>
      let '(v', err) := uuidVal_Scan v src in (t_uuidVal v', err)
  | t_array elems =>
      let '(elems', err) := assign (conv_array W sys) elems src in
      (t_array elems', err)
  | t_reflect ty val =>
      let '(val', err) := assign (conv_reflect W sys ty) val src in
      (t_reflect ty val', err)
  end.

(** The destinations of [Rows.Scan] one after the other, up to the first
    that fails.  A nil interface among the destinations is [None]. *)
Fixpoint scan_columns (row : list driverValue) (dest : list (option scanTarget))
  : list (option scanTarget) * option error :=
  match row, dest with
  | src :: row', Some d :: dest' =>
      let '(d', err) := convertAssign d src in
      match err with
      | Some e => (Some d' :: dest', Some (fmt_Errorf_w "sql: Scan error" e))
      | None =>
          let '(dest'', err) := scan_columns row' dest' in
          (Some d' :: dest'', err)
      end
  | _ :: _, None :: _ =>
      (dest, Some (fmt_Errorf_w "sql: Scan error"
                     (errors_New "destination pointer is nil")))
  | _, _ => (dest, None)
  end.

Definition errScanArgs : error :=
  errors_New "sql: wrong number of destination arguments in Scan".

(** [Rows.Scan(dest...)] on the current row. *)
Definition Rows_Scan (row : list driverValue) (dest : list (option scanTarget))
  : list (option scanTarget) * option error :=
  if decide (length row <> length dest) then (dest, Some errScanArgs)
  else scan_columns row dest.

Definition scan_error (e : error) : error := fmt_Errorf_w "sql: Scan error" e.

(** ** meta.go *)

(** [m.Query(query, args...)] on the embedded querier. *)
Definition dbMeta_Query (m : metaQuerier) (query : string) (args : list string)
  : M W (Rows * option error) :=
  let 'dbMeta db := m in
  call (db_Query W sys db query args)
       (fun r => ev_Query db query args (snd r)).

Definition Rows_Close : M W unit := log ev_Rows_Close.

(** The loop [for rows.Next() { var name string; rows.Scan(&name); ... }]
    shared by the listings; on an error the function returns nil. *)
Fixpoint scan_names (data : list (list driverValue)) (acc : list string)
  : list string * option error :=
  match data with
  | [] => (acc, None)
  | [src] :: data' =>
      match conv_string W sys src with
      | (_, Some e) => ([], Some (scan_error e))
      | (name, None) => scan_names data' (acc ++ [name])
      end
  | _ :: _ => ([], Some errScanArgs)
  end.

(** The text of the queries, with the white space of the source reduced. *)
Definition ListTables_query : string :=
  "SELECT format('%s.%s', table_schema, table_name) FROM information_schema.tables WHERE table_schema NOT LIKE 'pg_%' AND table_schema <> 'information_schema' ORDER BY table_schema, table_name".

Definition ListTablesInSchema_query : string :=
  "SELECT table_name FROM information_schema.tables WHERE table_schema = $1 ORDER BY table_name".

Definition ListSchemas_query : string :=
  "SELECT schema_name FROM information_schema.schemata WHERE schema_name NOT LIKE 'pg_%' AND schema_name <> 'information_schema'".

Definition DescribeTable_query : string :=
  "SELECT column_name, column_default, is_nullable, data_type, udt_schema, udt_name FROM information_schema.columns WHERE table_schema = $1 AND table_name = $2 ORDER BY ordinal_position".

(** [dbMeta.ListTables]: [rows.Err()] is not looked at. *)
Definition dbMeta_ListTables (m : metaQuerier) : M W (list string * option error) :=
  r <- dbMeta_Query m ListTables_query [] ;;
  let '(rows, err) := r in
  match err with
  | Some e => ret ([], Some e)
  | None =>
      defer_ Rows_Close
        (match scan_names (rows_data rows) [] with
         | (_, Some e) => ret ([], Some e)
         | (tables, None) => ret (tables, None)
         end)
  end.

(** [dbMeta.ListTablesInSchema]. *)
Definition dbMeta_ListTablesInSchema (m : metaQuerier) (schema : string)
  : M W (list string * option error) :=
  r <- dbMeta_Query m ListTablesInSchema_query [schema] ;;
  let '(rows, err) := r in
  match err with
  | Some e => ret ([], Some e)
  | None =>
      defer_ Rows_Close
        (match scan_names (rows_data rows) [] with
         | (_, Some e) => ret ([], Some e)
         | (tables, None) => ret (tables, rows_Err rows)
         end)
  end.

(** [dbMeta.ListSchemas]. *)
Definition dbMeta_ListSchemas (m : metaQuerier) : M W (list string * option error) :=
  r <- dbMeta_Query m ListSchemas_query [] ;;
  let '(rows, err) := r in
  match err with
  | Some e => ret ([], Some e)
  | None =>
      defer_ Rows_Close
        (match scan_names (rows_data rows) [] with
         | (_, Some e) => ret ([], Some e)
         | (schemas, None) => ret (schemas, None)
         end)
  end.

(** The [switch len(parts)] at the head of [DescribeTable]: the schema and
    the table, or [None] in the [default] case. *)
Definition DescribeTable_names (tablename : string) : option (string * string) :=
  let parts := strings_Split tablename "."%char in
  match length parts with
  | 2 => Some (nth 0 parts "", nth 1 parts "")
  | 1 => Some ("public", nth 0 parts "")
  | _ => None
  end.

(** The body of the [for rows.Next()] loop of [DescribeTable] on one row:
    [rows.Scan(&col.Name, &defaultVal, &nullable, &col.Type,
    &userTypeSchema, &userType)] and the column it builds. *)
Definition DescribeTable_row (row : list driverValue) : ColumnSchema * option error :=
  let failed e := (mk_ColumnSchema "" "" [], Some e) in
  match row with
  | [c1; c2; c3; c4; c5; c6] =>
      match conv_string W sys c1 with
      | (_, Some e) => failed (scan_error e)
      | (colName, None) =>
      match Null_Scan "" (conv_string W sys) "" c2 with
      | (_, Some e) => failed (scan_error e)
      | ((defaultVal, defaultValid), None) =>
      match yesOrNo_Scan false c3 with
      | (_, Some e) => failed (scan_error e)
      | (nullable, None) =>
      match conv_string W sys c4 with
      | (_, Some e) => failed (scan_error e)
      | (colType, None) =>
      match Null_Scan "" (conv_string W sys) "" c5 with
      | (_, Some e) => failed (scan_error e)
      | ((userTypeSchema, _), None) =>
      match Null_Scan "" (conv_string W sys) "" c6 with
      | (_, Some e) => failed (scan_error e)
      | ((userType, _), None) =>
          let colType :=
            if decide (colType = "USER-DEFINED")
            then userTypeSchema +:+ "." +:+ userType
            else colType in
          let attrs : list string := [] in
          let attrs :=
            if defaultValid then attrs ++ ["DEFAULT " +:+ defaultVal]
            else attrs in
          let attrs :=
            if nullable then attrs ++ ["NULL"] else attrs ++ ["NOT NULL"] in
          (mk_ColumnSchema colName colType attrs, None)
      end end end end end end
  | _ => failed errScanArgs
  end.

Fixpoint DescribeTable_rows (data : list (list driverValue))
    (cols : list ColumnSchema) : list ColumnSchema * option error :=
  match data with
  | [] => (cols, None)
  | row :: data' =>
      match DescribeTable_row row with
      | (_, Some e) => (cols, Some e)
      | (col, None) => DescribeTable_rows data' (cols ++ [col])
      end
  end.

(** [dbMeta.DescribeTable]: a nil [*TableSchema] is [None]. *)
Definition dbMeta_DescribeTable (m : metaQuerier) (tablename : string)
  : M W (option TableSchema * option error) :=
  match DescribeTable_names tablename with
  | None =>
      ret (None,
           Some (errors_New ("invalid table name: '" +:+ tablename +:+ "'")))
  | Some (schema, table) =>
      r <- dbMeta_Query m DescribeTable_query [schema; table] ;;
      let '(rows, err) := r in
      match err with
      | Some e => ret (None, Some e)
      | None =>
          defer_ Rows_Close
            (match DescribeTable_rows (rows_data rows) [] with
             | (_, Some e) => ret (None, Some e)
             | (cols, None) =>
                 ret (Some (mk_TableSchema table cols), rows_Err rows)
             end)
      end
  end.

(** The other revision of meta.go in the repository (src/unnamed/part_005) has the
    same [switch]; it scans five columns. *)
Definition DescribeTable_query_rev : string :=
  "SELECT column_name, data_type, column_default, is_nullable, udt_name FROM information_schema.columns WHERE table_schema = $1 AND table_name = $2 ORDER BY ordinal_position".

Definition DescribeTable_row_rev (row : list driverValue)
  : ColumnSchema * option error :=
  let failed e := (mk_ColumnSchema "" "" [], Some e) in
  match row with
  | [c1; c2; c3; c4; c5] =>
      match conv_string W sys c1 with
      | (_, Some e) => failed (scan_error e)
      | (colName, None) =>
      match conv_string W sys c2 with
      | (_, Some e) => failed (scan_error e)
      | (colType, None) =>
      match conv_stringPtr W sys c3 with
      | (_, Some e) => failed (scan_error e)
      | (defaultVal, None) =>
      match conv_string W sys c4 with
      | (_, Some e) => failed (scan_error e)
      | (nullable, None) =>
      match conv_string W sys c5 with
      | (_, Some e) => failed (scan_error e)
      | (userType, None) =>
          let colType :=
            if decide (colType = "USER-DEFINED") then userType else colType in
          let attrs : list string := [] in
          let attrs :=
            match defaultVal with
            | Some d => attrs ++ ["DEFAULT " +:+ d]
            | None => attrs
            end in
          let attrs :=
            if decide (nullable = "YES") then attrs ++ ["NULL"]
            else attrs ++ ["NOT NULL"] in
          (mk_ColumnSchema colName colType attrs, None)
      end end end end end
  | _ => failed errScanArgs
  end.

Fixpoint DescribeTable_rows_rev (data : list (list driverValue))
    (cols : list ColumnSchema) : list ColumnSchema * option error :=
  match data with
  | [] => (cols, None)
  | row :: data' =>
      match DescribeTable_row_rev row with
      | (_, Some e) => (cols, Some e)
      | (col, None) => DescribeTable_rows_rev data' (cols ++ [col])
      end
  end.

Definition dbMeta_DescribeTable_rev (m : metaQuerier) (tablename : string)
  : M W (option TableSchema * option error) :=
  match DescribeTable_names tablename with
  | None =>
      ret (None,
           Some (errors_New ("invalid table name: '" +:+ tablename +:+ "'")))
  | Some (schema, table) =>
      r <- dbMeta_Query m DescribeTable_query_rev [schema; table] ;;
      let '(rows, err) := r in
      match err with
      | Some e => ret (None, Some e)
      | None =>
          defer_ Rows_Close
            (match DescribeTable_rows_rev (rows_data rows) [] with
             | (_, Some e) => ret (None, Some e)
             | (cols, None) =>
                 ret (Some (mk_TableSchema table cols), rows_Err rows)
             end)
      end
  end.

(** [postgresOpen]: either a database handle and a nil error, or nil and
    an error. *)
Definition postgresOpen (conn : Connection.t) : M W (sqlDB + error) :=
  let sslmode :=
    match Connection.DriverOpts conn !! "sslmode" with
    | Some mode => mode
    | None => "require"
    end in
  let dsn :=
    "host=" +:+ Connection.Host conn +:+
    " port=" +:+ pretty (Connection.Port conn) +:+
    " dbname=" +:+ Connection.Database conn +:+
    " user=" +:+ Connection.Username conn +:+
    " password=" +:+ Connection.Password conn +:+
    " sslmode=" +:+ sslmode in
  r <- peek (pq_NewConnector W sys dsn) (fun _ => ev_NewConnector dsn) ;;
  let '(connector, err) := r in
  match err with
  | Some e => ret (inr e)
  | None =>
      db <- call (sql_OpenDB W sys connector) (fun db => ev_OpenDB connector db) ;;
      ret (inl db)
  end.

(** ** The registry (src/unnamed/part_007) *)

Definition set_current (q : option metaQuerier) (d : DBMan) : DBMan :=
  mk_DBMan q (cfg d) (activeQueriers d) (activeTunnels d) (currentName d).
Definition set_currentName (n : string) (d : DBMan) : DBMan :=
  mk_DBMan (current d) (cfg d) (activeQueriers d) (activeTunnels d) n.
Definition set_activeQueriers (m : gmap string metaQuerier) (d : DBMan) : DBMan :=
  mk_DBMan (current d) (cfg d) m (activeTunnels d) (currentName d).
Definition set_activeTunnels (m : gmap string nat) (d : DBMan) : DBMan :=
  mk_DBMan (current d) (cfg d) (activeQueriers d) m (currentName d).

(** [d.f = v] on the registry. *)
Definition update_reg (f : DBMan -> DBMan) : M W unit :=
  d <- get_reg ;; put_reg (f d).

Definition errNoActiveConnection : error :=
  errors_New "an active connection is required".

(** The [for _, q := range d.activeQueriers { q.Close() }] loop. *)
Fixpoint close_queriers (qs : list (string * metaQuerier)) : M W unit :=
  match qs with
  | [] => ret tt
  | (_, dbMeta db) :: rest =>
      _ <- call (db_Close W sys db) (fun err => ev_DB_Close db err) ;;
      close_queriers rest
  end.

(** The [for _, t := range d.activeTunnels { t.Close() }] loop. *)
Fixpoint close_tunnels (ts : list (string * nat)) : M W unit :=
  match ts with
  | [] => ret tt
  | (_, t) :: rest =>
      _ <- Tunnel_Close t ;;
      close_tunnels rest
  end.

(** [DBMan.Close]. *)
Definition DBMan_Close : M W (option error) :=
  d <- get_reg ;;
  qs <- range_over sys (activeQueriers d) ;;
  close_queriers qs ;;
  ts <- range_over sys (activeTunnels d) ;;
  close_tunnels ts ;;
  ret None.

Definition DBMan_CurrentName : M W string :=
  d <- get_reg ;; ret (currentName d).

(** [DBMan.ListConnections]. *)
Definition DBMan_ListConnections : M W (list string * list bool) :=
  d <- get_reg ;;
  ks <- range_over sys (Connections (cfg d)) ;;
  ret (map fst ks,
       map (fun k => bool_decide (is_Some (activeQueriers d !! fst k))) ks).

(** The part of [SwitchConnection] under [if conn.Tunnel != ""]: the
    connection that points at the local end of the tunnel, or the error
    that the function returns. *)
Definition SwitchConnection_tunnel (conn : Connection.t) (prompter : Prompter W)
  : M W (Connection.t + error) :=
  d <- get_reg ;;
  r <- match activeTunnels d !! Connection.Tunnel conn with
       | Some tunnel => ret (inl tunnel)
       | None =>
           let tunnelCfg :=
             default SSHTunnel.zero
               (Tunnels (cfg d) !! Connection.Tunnel conn) in
           r <- NewTunnel prompter tunnelCfg (Connection.Host conn)
                  (Connection.Port conn) ;;
           match r with
           | inr err =>
               ret (inr (fmt_Errorf_w "could not establish tunnel" err))
           | inl tunnel =>
               update_reg (fun d =>
                 set_activeTunnels
                   (<[Connection.Tunnel conn := tunnel]> (activeTunnels d)) d) ;;
               ret (inl tunnel)
           end
       end ;;
  match r with
  | inr err => ret (inr err)
  | inl tunnel =>
      (* change connection to point at the local end of the tunnel *)
      tun <- deref tunnel ;;
      let '(localHost, localPort, _) :=
        net_SplitHostPort W sys (listener_Addr (localConn tun)) in
      let conn := Connection.set_Host localHost conn in
      let conn := Connection.set_Port (fst (strconv_Atoi W sys localPort)) conn in
      ret (inl conn)
  end.

(** The part of [SwitchConnection] under [if conn.Password == ""]. *)
Definition SwitchConnection_password (conn : Connection.t)
    (prompter : Prompter W) : M W (Connection.t + error) :=
  pgpassword <- peek (os_Getenv W sys "PGPASSWORD")
                  (fun _ => ev_Getenv "PGPASSWORD") ;;
  if decide (pgpassword <> "") then
    ret (inl (Connection.set_Password pgpassword conn))
  else
    r <- run_prompter prompter "" "" ["database password: "] [false] ;;
    let '(answers, err) := r in
    match err with
    | Some e => ret (inr e)
    | None =>
        a <- index0 answers ;;
        ret (inl (Connection.set_Password a conn))
    end.

(** The last part of [SwitchConnection], from [switch conn.Driver] on: open,
    ping, and only then the registration and the new current connection.
    The context of the ping carries the timeout; its [cancel] has no effect
    that the package observes. *)
Definition SwitchConnection_connect (connName : string) (conn : Connection.t)
  : M W (option error) :=
  if decide (Connection.Driver conn = "postgres") then
    r <- postgresOpen conn ;;
    match r with
    | inr err =>
        ret (Some (fmt_Errorf_w "failed to open database connection" err))
    | inl db =>
        _ <- call (fun w => (tt, db_SetMaxOpenConns W sys db
                                    (Connection.MaxOpenConns conn) w))
               (fun _ => ev_SetMaxOpenConns db (Connection.MaxOpenConns conn)) ;;
        _ <- call (fun w => (tt, db_SetConnMaxIdleTime W sys db 3600 w))
               (fun _ => ev_SetConnMaxIdleTime db 3600) ;;
        let querier := dbMeta db in
        let timeout :=
          if decide (Connection.ConnectTimeoutSec conn <> 0%Z)
          then Some (Connection.ConnectTimeoutSec conn) else None in
        err <- call (db_PingContext W sys db timeout)
                 (fun err => ev_PingContext db timeout err) ;;
        match err with
        | Some e =>
            ret (Some (fmt_Errorf_w "failed to connect to database instance" e))
        | None =>
            update_reg (fun d =>
              set_activeQueriers (<[connName := querier]> (activeQueriers d)) d) ;;
            update_reg (set_current (Some querier)) ;;
            update_reg (set_currentName connName) ;;
            ret None
        end
    end
  else ret (Some (errors_New "unsupported database driver")).

(** The first part of [SwitchConnection] for a connection that is not
    cached: the tunnel, then the password, each on the local copy [conn] of
    the configured connection. *)
Definition SwitchConnection_resolve (conn : Connection.t) (prompter : Prompter W)
  : M W (Connection.t + error) :=
  r <- (if decide (Connection.Tunnel conn <> "")
        then SwitchConnection_tunnel conn prompter
        else ret (inl conn)) ;;
  match r with
  | inr err => ret (inr err)
  | inl conn =>
      if decide (Connection.Password conn = "")
      then SwitchConnection_password conn prompter
      else ret (inl conn)
  end.

(** [DBMan.SwitchConnection]: the error it returns, nil being [None]. *)
Definition DBMan_SwitchConnection (connName : string) (prompter : Prompter W)
  : M W (option error) :=
  d <- get_reg ;;
  match Connections (cfg d) !! connName with
  | None =>
      ret (Some (errors_New
                   ("'" +:+ connName +:+ "' is not a configured connection")))
  | Some conn =>
      match activeQueriers d !! connName with
      | Some querier =>
          update_reg (set_current (Some querier)) ;;
          update_reg (set_currentName connName) ;;
          ret None
      | None =>
          r <- SwitchConnection_resolve conn prompter ;;
          match r with
          | inr err => ret (Some err)
          | inl conn => SwitchConnection_connect connName conn
          end
      end
  end.

(** [DBMan.ListTables]. *)
Definition DBMan_ListTables (schema : string) : M W (list string * option error) :=
  d <- get_reg ;;
  match current d with
  | None => ret ([], Some errNoActiveConnection)
  | Some cur =>
      if decide (schema <> "") then dbMeta_ListTablesInSchema cur schema
      else dbMeta_ListTables cur
  end.

(** [DBMan.ListSchemas]. *)
Definition DBMan_ListSchemas : M W (list string * option error) :=
  d <- get_reg ;;
  match current d with
  | None => ret ([], Some errNoActiveConnection)
  | Some cur => dbMeta_ListSchemas cur
  end.

(** [DBMan.DescribeTable]. *)
Definition DBMan_DescribeTable (name : string)
  : M W (option TableSchema * option error) :=
  d <- get_reg ;;
  match current d with
  | None => ret (None, Some errNoActiveConnection)
  | Some cur => dbMeta_DescribeTable cur name
  end.

(** [DBMan.Stats]: the function has no error result. *)
Definition DBMan_Stats : M W DBStats :=
  d <- get_reg ;;
  match current d with
  | None => ret DBStats_zero
  | Some (dbMeta db) => peek (db_Stats W sys db) (fun _ => ev_Stats db)
  end.

(** The [switch strings.ToUpper(col.DatabaseTypeName())] of [Query]: the
    scanner allocated for a column, as the interface value holding it. *)
Definition newScanner (col : ColumnType) : option scanTarget :=
  let name := strings_ToUpper (ct_DatabaseTypeName col) in
  if bool_decide (name ∈ ["CHARACTER"; "CHAR"; "CHARACTER VARYING"; "VARCHAR";
                          "NVARCHAR"; "TEXT"])
  then Some (t_nullString "" false)
  else if bool_decide (name ∈ ["BOOL"; "BOOLEAN"])
  then Some (t_nullBool false false)
  else if bool_decide (name ∈ ["BIGINT"; "INT8"; "BIGSERIAL"; "SERIAL8"; "INTERVAL"])
  then Some (t_nullInt64 0 false)
  else if bool_decide (name ∈ ["INTEGER"; "INT"; "INT4"; "SERIAL"; "SERIAL4"])
  then Some (t_nullInt32 0 false)
  else if bool_decide (name ∈ ["SMALLINT"; "INT2"; "SMALLSERIAL"; "SERIAL2"])
  then Some (t_nullInt16 0 false)
  else if bool_decide (name ∈ ["DOUBLE"; "FLOAT8"; "NUMERIC"; "DECIMAL"])
  then Some (t_nullFloat64 (float64_bits 0) false)
  else if bool_decide (name ∈ ["REAL"; "FLOAT4"])
  then Some (t_nullFloat32 (float32_bits 0) false)
  else if bool_decide (name ∈ ["TIMESTAMP"; "TIMESTAMPTZ"; "TIME"; "TIMETZ"; "DATE"])
  then Some (t_nullTime (time_instant 0) false)
  else if bool_decide (name = "UUID")
  then Some (t_uuidVal uuidVal_zero)
  else if bool_decide (name = "ARRAY")
  then Some (t_array [])
  else Some (t_reflect (ct_ScanType col) dv_nil).

(** The copy of a scanner's value that goes into a row. *)
Definition row_of_scanners (scanners : list (option scanTarget)) : list rowValue :=
  map (fun val =>
         match val with
         | None => nullValue
         | Some v => rowValue_of v
         end) scanners.

(** The [for rows.Next()] loop of [Query]: the rows appended, or the error
    of a [Scan]. *)
Fixpoint Query_rows (data : list (list driverValue))
    (scanners : list (option scanTarget)) (acc : list (list rowValue))
  : list (list rowValue) + error :=
  match data with
  | [] => inl acc
  | row :: data' =>
      match Rows_Scan row scanners with
      | (_, Some e) => inr e
      | (scanners', None) =>
          Query_rows data' scanners' (acc ++ [row_of_scanners scanners'])
      end
  end.

(** [DBMan.Query]: a nil [*QueryResult] is [None]. *)
Definition DBMan_Query (script : string)
  : M W (option QueryResult * option error) :=
  d <- get_reg ;;
  match current d with
  | None => ret (None, Some errNoActiveConnection)
  | Some cur =>
      r <- dbMeta_Query cur script [] ;;
      let '(rows, err) := r in
      match err with
      | Some e => ret (None, Some e)
      | None =>
          defer_ Rows_Close
            (let '(columns, err) := rows_ColumnTypes rows in
             match err with
             | Some e => ret (None, Some e)
             | None =>
                 if decide (length columns = 0) then ret (None, None)
                 else
                   let resultColumns := map ct_Name columns in
                   let scanners := map newScanner columns in
                   match Query_rows (rows_data rows) scanners [] with
                   | inr e => ret (None, Some e)
                   | inl resultRows =>
                       ret (Some (mk_QueryResult resultColumns resultRows),
                            rows_Err rows)
                   end
             end)
      end
  end.

End Package.

Arguments DBMan_SwitchConnection {W} sys connName prompter.
Arguments DBMan_Close {W} sys.
Arguments DBMan_ListTables {W} sys schema.
Arguments DBMan_ListSchemas {W} sys.
Arguments DBMan_DescribeTable {W} sys name.
Arguments DBMan_Stats {W} sys.
Arguments DBMan_Query {W} sys script.
Arguments NewTunnel {W} sys prompter tunnel host port.
Arguments Tunnel_Close {W} sys t.

(** ** Reading a trace *)

Definition is_ssh_Dial (e : Event) : bool :=
  match e with ev_ssh_Dial _ _ => true | _ => false end.

(** A dial of the bastion that returned a session. *)
Definition is_ssh_Dial_ok (e : Event) : bool :=
  match e with ev_ssh_Dial _ (Ret (_, None)) => true | _ => false end.

Definition is_net_Listen (e : Event) : bool :=
  match e with ev_net_Listen _ _ => true | _ => false end.

Definition is_OpenDB (e : Event) : bool :=
  match e with ev_OpenDB _ _ => true | _ => false end.

Definition is_PingContext (e : Event) : bool :=
  match e with ev_PingContext _ _ _ => true | _ => false end.

(** The number of events of a kind. *)
Definition count (kind : Event -> bool) (evs : list Event) : nat :=
  length (List.filter kind evs).

(** [e1] occurs in [evs] before [e2]. *)
Definition occurs_before (e1 e2 : Event) (evs : list Event) : Prop :=
  exists l1 l2 l3, evs = l1 ++ e1 :: l2 ++ e2 :: l3.

Section Runs.

Variable W : Type.
Variable sys : Sys W.

(** What a call appended to the trace. *)
Definition events_of {A} (m : M W A) (st : State W) : list Event :=
  drop (length (trace st)) (trace (snd (m st))).

(** A sequence of [SwitchConnection] calls on one registry: the state after
    the last one, and the events of each call next to the name it was
    given. *)
Fixpoint switch_all (calls : list (string * Prompter W)) (st : State W)
  : State W :=
  match calls with
  | [] => st
  | (name, prompter) :: rest =>
      switch_all rest (snd (DBMan_SwitchConnection sys name prompter st))
  end.

Fixpoint switch_log (calls : list (string * Prompter W)) (st : State W)
  : list (string * list Event) :=
  match calls with
  | [] => []
  | (name, prompter) :: rest =>
      (name, events_of (DBMan_SwitchConnection sys name prompter) st)
        :: switch_log rest (snd (DBMan_SwitchConnection sys name prompter st))
  end.

(** The connection [name] is configured with the tunnel [tunnel]. *)
Definition references (c : Config) (name tunnel : string) : bool :=
  match Connections c !! name with
  | Some conn => bool_decide (Connection.Tunnel conn = tunnel)
  | None => false
  end.

(** The calls of a log that name a connection of tunnel [tunnel] and in
    which a dial of the bastion returned a session. *)
Definition establishments (c : Config) (tunnel : string)
    (entries : list (string * list Event)) : list (string * list Event) :=
  List.filter
    (fun entry => references c (fst entry) tunnel
                  && Nat.ltb 0 (count is_ssh_Dial_ok (snd entry)))
    entries.

(** Every pointer of the tunnel cache refers to a tunnel. *)
Definition tunnels_allocated (st : State W) : Prop :=
  forall name t, activeTunnels (reg st) !! name = Some t -> is_Some (heap st !! t).

End Runs.

Arguments events_of {W A} m st.
Arguments switch_all {W} sys calls st.
Arguments switch_log {W} sys calls st.
Arguments tunnels_allocated {W} st.

(** The five counts that the properties speak of: dials of a bastion, those
    that returned a session, local listeners, opened databases and pings;
    a segment is silent when it has none of them. *)
Definition counts (evs : list Event) : nat * nat * nat * nat * nat :=
  (count is_ssh_Dial evs, count is_ssh_Dial_ok evs, count is_net_Listen evs,
   count is_OpenDB evs, count is_PingContext evs).

Definition silent (evs : list Event) : Prop := counts evs = (0, 0, 0, 0, 0).

(** The state after a step that leaves the registry and the heap alone. *)
Definition after {W : Type} (st : State W) (w : W) (seg : list Event) : State W :=
  mk_State (reg st) (heap st) w (trace st ++ seg).

(** A call that names a connection of tunnel [tn] neither dials the bastion
    nor opens a listener. *)
Definition reuses (c : Config) (tn : string) (entry : string * list Event) : Prop :=
  references c (fst entry) tn = true ->
  count is_ssh_Dial (snd entry) = 0 /\ count is_net_Listen (snd entry) = 0.

(** The close events of a tunnel inside a segment: its listener is closed,
    and each of its forwarded connections is closed before the listener. *)
Definition torn_down (tun : Tunnel) (seg : list Event) : Prop :=
  exists err,
    ev_Listener_Close (localConn tun) err ∈ seg /\
    forall c, c ∈ connections tun ->
      exists err',
        occurs_before (ev_Closer_Close c err')
                      (ev_Listener_Close (localConn tun) err) seg.

(** ** A scripted world, for running the package on concrete inputs *)

Module Script.

(** The answers that the outside gives, in the order they are asked for. *)
Record World : Type := mk_World {
  env : list (string * string);
  dials : list (option error);       (* results of the next ssh.Dial calls *)
  pings : list (option error);       (* results of the next pings *)
  prompts : list (list string * option error);
  closes : list (option error);      (* results of the next Close calls *)
  results : list (Rows * option error);
  next_id : nat
}.

Definition lookup_env (key : string) (w : World) : string :=
  match filter (fun kv => bool_decide (fst kv = key)) (env w) with
  | (_, v) :: _ => v
  | [] => ""
  end.

Definition bump (w : World) : World :=
  mk_World (env w) (dials w) (pings w) (prompts w) (closes w) (results w)
           (S (next_id w)).

Definition pop_dial (w : World) : option error * World :=
  match dials w with
  | r :: rest =>
      (r, mk_World (env w) rest (pings w) (prompts w) (closes w) (results w)
                   (next_id w))
  | [] => (None, w)
  end.

Definition pop_ping (w : World) : option error * World :=
  match pings w with
  | r :: rest =>
      (r, mk_World (env w) (dials w) rest (prompts w) (closes w) (results w)
                   (next_id w))
  | [] => (None, w)
  end.

Definition pop_close (w : World) : option error * World :=
  match closes w with
  | r :: rest =>
      (r, mk_World (env w) (dials w) (pings w) (prompts w) rest (results w)
                   (next_id w))
  | [] => (None, w)
  end.

Definition pop_result (w : World) : (Rows * option error) * World :=
  match results w with
  | r :: rest =>
      (r, mk_World (env w) (dials w) (pings w) (prompts w) (closes w) rest
                   (next_id w))
  | [] => ((mk_Rows ([], None) [] None, None), w)
  end.

(** The prompter of the examples: it reads the next scripted answer. *)
Definition prompter : Prompter World :=
  fun _ _ _ _ w =>
    match prompts w with
    | r :: rest =>
        (r, mk_World (env w) (dials w) (pings w) rest (closes w) (results w)
                     (next_id w))
    | [] => (([""], None), w)
    end.

Definition sys : Sys World := {|
  os_UserHomeDir := fun _ => ("/home/user", None);
  os_Getenv := lookup_env;
  os_ExpandEnv := fun s _ => s;
  ioutil_ReadFile := fun _ _ => ([], None);
  filepath_Join := fun a b => a +:+ "/" +:+ b;
  ssh_ParsePublicKey := fun _ => (PublicKey_of 0, None);
  ssh_ParsePrivateKey := fun _ => (Signer_of 0, Some ssh_PassphraseMissingError);
  ssh_ParsePrivateKeyWithPassphrase := fun _ _ => (Signer_of 1, None);
  net_Dial_unix := fun _ w => ((agentConn_handle (next_id w), None), bump w);
  net_Listen := fun w =>
    ((mk_Listener (next_id w) "127.0.0.1:40000", None), bump w);
  ssh_Dial := fun _ _ _ w =>
    let '(err, w') := pop_dial w in
    (Ret (sshClient_handle (next_id w'), err), bump w');
  listener_Accept := fun _ w => (accepted (closer_handle (next_id w)), bump w);
  client_Dial := fun _ _ w => ((closer_handle (next_id w), None), bump w);
  net_SplitHostPort := fun _ => ("127.0.0.1", "40000", None);
  strconv_Atoi := fun _ => (40000%Z, None);
  pq_NewConnector := fun dsn _ => (Connector_of dsn, None);
  sql_OpenDB := fun _ w => (sqlDB_handle (next_id w), bump w);
  db_SetMaxOpenConns := fun _ _ w => w;
  db_SetConnMaxIdleTime := fun _ _ w => w;
  db_PingContext := fun _ _ w => pop_ping w;
  db_Query := fun _ _ _ w => pop_result w;
  db_Stats := fun _ _ => mk_DBStats 4 1 1 0 0 0 0 0 0;
  db_Close := fun _ w => pop_close w;
  closer_Close := fun _ w => pop_close w;
  listener_Close := fun _ w => pop_close w;
  conv_string := fun v =>
    match v with
    | dv_string s => (s, None)
    | dv_bytes b => (string_of_list_byte b, None)
    | _ => ("", Some (errors_New "unsupported Scan"))
    end;
  conv_stringPtr := fun v =>
    match v with
    | dv_nil => (None, None)
    | dv_string s => (Some s, None)
    | _ => (None, Some (errors_New "unsupported Scan"))
    end;
  conv_bool := fun v =>
    match v with
    | dv_bool b => (b, None)
    | _ => (false, Some (errors_New "unsupported Scan"))
    end;
  conv_int64 := fun v =>
    match v with
    | dv_int64 i => (i, None)
    | _ => (0%Z, Some (errors_New "unsupported Scan"))
    end;
  conv_int32 := fun v =>
    match v with
    | dv_int64 i => (i, None)
    | _ => (0%Z, Some (errors_New "unsupported Scan"))
    end;
  conv_float64 := fun v =>
    match v with
    | dv_float64 f => (f, None)
    | _ => (float64_bits 0, Some (errors_New "unsupported Scan"))
    end;
  conv_time := fun v =>
    match v with
    | dv_time t => (t, None)
    | _ => (time_instant 0, Some (errors_New "unsupported Scan"))
    end;
  conv_array := fun v => ([v], None);
  conv_reflect := fun _ v => (v, None);
  float32_of_float64 := fun f => let 'float64_bits b := f in float32_bits b;
  map_range := fun A m _ => map_to_list m
|}.

Definition quiet : World := mk_World [] [] [] [] [] [] 0.

(** Two connections that share the tunnel [bastion], and one without a
    tunnel. *)
Definition conn_a : Connection.t :=
  Connection.mk "db-a.internal" 5432 "app" "alice" "secret" "postgres" ∅
                "bastion" 0 4.
Definition conn_b : Connection.t :=
  Connection.mk "db-b.internal" 5432 "app" "bob" "" "postgres" ∅
                "bastion" 30 4.
Definition conn_c : Connection.t :=
  Connection.mk "localhost" 5432 "app" "carol" "" "postgres" ∅ "" 0 4.

Definition bastion : SSHTunnel.t :=
  SSHTunnel.mk "bastion.example" 22 "ops" PasswordAuth "hunter2" "" "" 10
               true "".

Definition config : Config :=
  mk_Config (<["a" := conn_a]> (<["b" := conn_b]> (<["c" := conn_c]> ∅)))
            (<["bastion" := bastion]> ∅).

Definition init (w : World) : State World := mk_State (New config) ∅ w [].

End Script.

(** ** The wire encodings of a UUID, as the specification words them *)

(** The hexadecimal digit of a value below 16, in lower and in upper case. *)
Definition lower_digit (n : N) : byte :=
  match n with
  | 0 => "0" | 1 => "1" | 2 => "2" | 3 => "3" | 4 => "4" | 5 => "5"
  | 6 => "6" | 7 => "7" | 8 => "8" | 9 => "9" | 10 => "a" | 11 => "b"
  | 12 => "c" | 13 => "d" | 14 => "e" | _ => "f"
  end%N%byte.

Definition upper_digit (n : N) : byte :=
  match n with
  | 0 => "0" | 1 => "1" | 2 => "2" | 3 => "3" | 4 => "4" | 5 => "5"
  | 6 => "6" | 7 => "7" | 8 => "8" | 9 => "9" | 10 => "A" | 11 => "B"
  | 12 => "C" | 13 => "D" | 14 => "E" | _ => "F"
  end%N%byte.

(** [c] is a hexadecimal digit of value [n], in either letter case. *)
Definition hex_digit_of (c : byte) (n : N) : Prop :=
  (n < 16)%N /\ (c = lower_digit n \/ c = upper_digit n).

(** [s] is a hexadecimal text of the bytes [u]: two digits a byte, the high
    half first, every digit in either letter case. *)
Inductive hex_text : list byte -> list byte -> Prop :=
| hex_text_nil : hex_text [] []
| hex_text_cons c1 c2 s b u :
    hex_digit_of c1 (Byte.to_N b / 16) ->
    hex_digit_of c2 (Byte.to_N b mod 16) ->
    hex_text s u ->
    hex_text (c1 :: c2 :: s) (b :: u).

(** The three encodings of the identifier [u] that a driver may deliver. *)
Inductive uuid_encoding (u : list byte) : list byte -> Prop :=
| encoding_raw : uuid_encoding u u
| encoding_hex s : hex_text s u -> uuid_encoding u s
| encoding_hyphenated g1 g2 g3 g4 g5 :
    hex_text g1 (slice u 0 4) ->
    hex_text g2 (slice u 4 6) ->
    hex_text g3 (slice u 6 8) ->
    hex_text g4 (slice u 8 10) ->
    hex_text g5 (slice u 10 16) ->
    uuid_encoding u
      (g1 ++ [hyphen] ++ g2 ++ [hyphen] ++ g3 ++ [hyphen] ++ g4 ++ [hyphen] ++ g5).

(** An encoding arrives as a byte slice or as a string. *)
Definition uuid_wire_form (u : list byte) (raw : driverValue) : Prop :=
  exists s, uuid_encoding u s /\
            (raw = dv_bytes s \/ raw = dv_string (string_of_list_byte s)).

(** The lower-case digits of a byte sequence. *)
Definition lower_hex (u : list byte) : list byte :=
  flat_map (fun b => [lower_digit (Byte.to_N b / 16);
                      lower_digit (Byte.to_N b mod 16)]) u.

(** The canonical text of an identifier: its 32 lower-case digits in groups
    of 8, 4, 4, 4 and 12, separated by hyphens. *)
Definition canonical_uuid (u : list byte) : string :=
  let digits := lower_hex u in
  string_of_list_byte
    (slice digits 0 8 ++ [hyphen] ++ slice digits 8 12 ++ [hyphen] ++
     slice digits 12 16 ++ [hyphen] ++ slice digits 16 20 ++ [hyphen] ++
     slice digits 20 32).

(** ** Concrete runs *)

(** The first ping fails. *)
Definition ex_ping_fails : Script.World :=
  Script.mk_World [] [] [Some (ext_error 1)] [] [] [] 0.

(** The first dial of the bastion fails, the second gets a session. *)
Definition ex_dial_fails_once : Script.World :=
  Script.mk_World [] [Some (ext_error 2); None] [] [] [] [] 0.

(** The prompter returns no error and no answer. *)
Definition ex_no_answer : Script.World :=
  Script.mk_World [] [] [] [([], None)] [] [] 0.

(** Every close call fails. *)
Definition ex_closes_fail : Script.World :=
  Script.mk_World [] [] [] []
    [Some (ext_error 3); Some (ext_error 4); Some (ext_error 5);
     Some (ext_error 6); Some (ext_error 7)] [] 10.

(** A registry with two cached connections and one tunnel that tracks two
    forwarded connections. *)
Definition ex_tunnel : Tunnel :=
  mk_Tunnel
    (mk_ClientConfig "ops" [ssh_Password "hunter2"] ssh_InsecureIgnoreHostKey 10)
    "bastion.example:22" "db-a.internal:5432"
    (mk_Listener 0 "127.0.0.1:40000") (sshClient_handle 1)
    [closer_handle 4; closer_handle 5].

Definition ex_open_registry : State Script.World :=
  mk_State
    (mk_DBMan (Some (dbMeta (sqlDB_handle 3))) Script.config
              (<["a" := dbMeta (sqlDB_handle 2)]>
                 (<["b" := dbMeta (sqlDB_handle 3)]> ∅))
              (<["bastion" := 0]> ∅) "b")
    (<[0 := ex_tunnel]> ∅) ex_closes_fail [].

(** An identifier; what a statement without a result set answers, and what
    a query without rows answers. *)
Definition sample_uuid : list byte :=
  [x6b; xa7; xb8; x10; x9d; xad; x11; xd1; x80; xb4; x00; xc0; x4f; xd4; x30; xc8].

Definition connected (w : Script.World) : State Script.World :=
  mk_State (mk_DBMan (Some (dbMeta (sqlDB_handle 0))) Script.config ∅ ∅ "a")
           ∅ w [].

Definition world_answering (r : Rows) : Script.World :=
  Script.mk_World [] [] [] [] [] [(r, None)] 1.

Definition ddl_rows : Rows := mk_Rows ([], None) [] None.

Definition select_rows : Rows :=
  mk_Rows ([mk_ColumnType "id" "INT4" (ScanType_of "int32");
            mk_ColumnType "name" "TEXT" (ScanType_of "string")], None) [] None.

(** ** sql_types.go: the display strings *)

(** The formatting that the package leaves to strconv and time:
    [strconv.FormatFloat(f, 'g', -1, 64)], the same with 32 bits, and
    [Time.String]. *)
Record Formatter : Type := mk_Formatter {
  FormatFloat64 : float64 -> string;
  FormatFloat32 : float32 -> string;
  Time_String : Time -> string
}.

(** [strconv.FormatBool]. *)
Definition strconv_FormatBool (b : bool) : string :=
  if b then "true" else "false".

(** [strconv.FormatInt(i, 10)]. *)
Definition strconv_FormatInt (i : Z) : string := pretty i.

(** The [String] method of each scanned value that has one; the slice and
    the value built by reflection have none. *)
Definition scanTarget_String (fmt : Formatter) (v : scanTarget) : option string :=
  match v with
  | t_nullString s valid => Some (if valid then s else "NULL")
  | t_nullBool b valid => Some (if valid then strconv_FormatBool b else "NULL")
  | t_nullInt64 i valid => Some (if valid then strconv_FormatInt i else "NULL")
  | t_nullInt32 i valid => Some (if valid then strconv_FormatInt i else "NULL")
  | t_nullInt16 i valid => Some (if valid then strconv_FormatInt i else "NULL")
  | t_nullFloat64 f valid => Some (if valid then FormatFloat64 fmt f else "NULL")
  | t_nullFloat32 f valid => Some (if valid then FormatFloat32 fmt f else "NULL")
  | t_nullTime t valid => Some (if valid then Time_String fmt t else "NULL")
  | t_uuidVal v => Some (uuidVal_String v)
  | t_array _ => None
  | t_reflect _ _ => None
  end.

(** [nullValue.String]. *)
Definition nullValue_String : string := "NULL".

(** The scanners whose type is declared in sql_types.go. *)
Definition is_typed (v : scanTarget) : bool :=
  match v with
  | t_array _ | t_reflect _ _ => false
  | _ => true
  end.

(** ** meta.go: yesOrNo *)

(** [yesOrNo.Value]. *)
Definition yesOrNo_Value (v : bool) : driverValue * option error :=
  if v then (dv_string "YES", None) else (dv_string "NO", None).

(** ** The other revision of meta.go (src/unnamed/part_005): schemas *)

(** [strings.HasPrefix(s, prefix)]. *)
Fixpoint strings_HasPrefix (s prefix : string) : bool :=
  match prefix, s with
  | EmptyString, _ => true
  | String p prefix', String c s' =>
      if decide (p = c) then strings_HasPrefix s' prefix' else false
  | String _ _, EmptyString => false
  end.

(** [strings.HasSuffix(s, suffix)]: the last [len(suffix)] bytes of [s] are
    [suffix]. *)
Definition strings_HasSuffix (s suffix : string) : bool :=
  (String.length suffix <=? String.length s)%nat &&
  bool_decide (substring (String.length s - String.length suffix)
                         (String.length suffix) s = suffix).

Definition ignoreSchemas : list string := ["pg_*"; "information_schema"].

(** The loop of [isIgnoredSchema] over the names still to compare. *)
Fixpoint isIgnoredSchema_loop (igns : list string) (name : string) : bool :=
  match igns with
  | [] => false
  | ign :: rest =>
      if decide (ign = name) then true
      else if strings_HasSuffix ign "*" then
        if strings_HasPrefix name (substring 0 (String.length ign - 1) ign)
        then true
        else isIgnoredSchema_loop rest name
      else isIgnoredSchema_loop rest name
  end.

(** [isIgnoredSchema]. *)
Definition isIgnoredSchema (name : string) : bool :=
  isIgnoredSchema_loop ignoreSchemas name.

Section MetaRev.

Variable W : Type.
Variable sys : Sys W.

Local Open Scope go_scope.

Definition ListSchemas_query_rev : string :=
  "SELECT schema_name FROM information_schema.schemata".

Definition ListTablesInSchema_query_rev : string :=
  "SELECT table_name FROM information_schema.tables WHERE table_schema = $1 AND table_type = 'BASE TABLE' ORDER BY table_name".

(** The loop of [ListSchemas] in this revision: a scanned name is appended
    unless it is ignored. *)
Fixpoint scan_schemas (data : list (list driverValue)) (acc : list string)
  : list string * option error :=
  match data with
  | [] => (acc, None)
  | [src] :: data' =>
      match conv_string W sys src with
      | (_, Some e) => ([], Some (scan_error e))
      | (name, None) =>
          if negb (isIgnoredSchema name) then scan_schemas data' (acc ++ [name])
          else scan_schemas data' acc
      end
  | _ :: _ => ([], Some errScanArgs)
  end.

(** [dbMeta.ListSchemas] of this revision. *)
Definition dbMeta_ListSchemas_rev (m : metaQuerier)
  : M W (list string * option error) :=
  r <- dbMeta_Query W sys m ListSchemas_query_rev [] ;;
  let '(rows, err) := r in
  match err with
  | Some e => ret ([], Some e)
  | None =>
      defer_ (Rows_Close W)
        (match scan_schemas (rows_data rows) [] with
         | (_, Some e) => ret ([], Some e)
         | (schemas, None) => ret (schemas, None)
         end)
  end.

(** [dbMeta.ListTablesInSchema] and [dbMeta.ListTables] of this revision. *)
Definition dbMeta_ListTablesInSchema_rev (m : metaQuerier) (schema : string)
  : M W (list string * option error) :=
  r <- dbMeta_Query W sys m ListTablesInSchema_query_rev [schema] ;;
  let '(rows, err) := r in
  match err with
  | Some e => ret ([], Some e)
  | None =>
      defer_ (Rows_Close W)
        (match scan_names W sys (rows_data rows) [] with
         | (_, Some e) => ret ([], Some e)
         | (tables, None) => ret (tables, rows_Err rows)
         end)
  end.

Definition dbMeta_ListTables_rev (m : metaQuerier)
  : M W (list string * option error) :=
  dbMeta_ListTablesInSchema_rev m "public".

End MetaRev.

(** Every character of a string is a decimal digit. *)
Fixpoint all_digits (s : string) : bool :=
  match s with
  | EmptyString => true
  | String c s' =>
      ((48 <=? N_of_ascii c)%N && (N_of_ascii c <=? 57)%N) && all_digits s'
  end.

(** ** Shapes used by the properties of meta.go *)

(** The attribute list of a column: a nullability tag, after the tag of the
    default when there is one. *)
Definition attrs_shape (attrs : list string) : Prop :=
  exists tag, (tag = "NULL" \/ tag = "NOT NULL") /\
              (attrs = [tag] \/ exists d, attrs = ["DEFAULT " +:+ d; tag]).

(** What information_schema.columns answers for a table with a key and a
    text column that has a default. *)
Definition columns_rows : Rows :=
  mk_Rows ([], None)
    [[dv_string "id"; dv_nil; dv_string "NO"; dv_string "integer";
      dv_string "pg_catalog"; dv_string "int4"];
     [dv_string "state"; dv_string "'new'::text"; dv_bytes (list_byte_of_string "YES");
      dv_string "USER-DEFINED"; dv_string "public"; dv_string "order_state"]]
    None.

Definition kept (names : list string) : list string :=
  List.filter (fun n => negb (isIgnoredSchema n)) names.


(** What information_schema.schemata answers on a small database. *)
Definition schemata_rows : Rows :=
  mk_Rows ([], None)
    [[dv_string "public"]; [dv_string "pg_catalog"];
     [dv_string "information_schema"]; [dv_string "sales"];
     [dv_bytes (list_byte_of_string "pg_toast")]]
    None.

(** A result whose iteration stopped on an error after two rows. *)
Definition interrupted_rows : Rows :=
  mk_Rows ([], None) [[dv_string "orders"]; [dv_string "users"]]
          (Some (errors_New "unexpected EOF")).

(** ** Shapes used by the properties of Query *)

(** The Go type of a scanner, without its value. *)
Inductive Kind : Type :=
| k_nullString | k_nullBool | k_nullInt64 | k_nullInt32 | k_nullInt16
| k_nullFloat64 | k_nullFloat32 | k_nullTime | k_uuidVal | k_array
| k_reflect (ty : ScanType).

Definition kind_of (v : scanTarget) : Kind :=
  match v with
  | t_nullString _ _ => k_nullString
  | t_nullBool _ _ => k_nullBool
  | t_nullInt64 _ _ => k_nullInt64
  | t_nullInt32 _ _ => k_nullInt32
  | t_nullInt16 _ _ => k_nullInt16
  | t_nullFloat64 _ _ => k_nullFloat64
  | t_nullFloat32 _ _ => k_nullFloat32
  | t_nullTime _ _ => k_nullTime
  | t_uuidVal _ => k_uuidVal
  | t_array _ => k_array
  | t_reflect ty _ => k_reflect ty
  end.

(** The value of a row is a scanned value of the type that [Query] chose
    for the column. *)
Definition typed_as (col : ColumnType) (v : rowValue) : Prop :=
  exists t, v = rowValue_of t /\
            Some (kind_of t) = option_map kind_of (newScanner col).

(** A result of two columns and three rows, the last with a NULL. *)
Definition people_rows : Rows :=
  mk_Rows ([mk_ColumnType "id" "int4" (ScanType_of "int32");
            mk_ColumnType "name" "text" (ScanType_of "string")], None)
          [[dv_int64 1; dv_string "ada"];
           [dv_int64 2; dv_string "grace"];
           [dv_int64 3; dv_nil]]
          None.

(** The scanners of a query keep their types over the rows. *)
Definition scanners_for (cols : list ColumnType)
    (dest : list (option scanTarget)) : Prop :=
  Forall2 (fun col d => exists t, d = Some t /\
                        Some (kind_of t) = option_map kind_of (newScanner col))
          cols dest.

(** ** The registry between calls *)

(** The current connection is the cached connection of the current name;
    with no current connection there is no name and nothing cached; every
    cached connection is configured, and every cached tunnel is the tunnel
    of a configured connection. *)
Definition registry_ok (d : DBMan) : Prop :=
  current d = activeQueriers d !! currentName d /\
  (current d = None -> currentName d = "" /\ activeQueriers d = ∅) /\
  (forall n, is_Some (activeQueriers d !! n) ->
             is_Some (Connections (cfg d) !! n)) /\
  (forall tn, is_Some (activeTunnels d !! tn) ->
              tn <> "" /\
              exists n conn, Connections (cfg d) !! n = Some conn /\
                             Connection.Tunnel conn = tn).

(** ** A configuration with a driver that the registry does not know *)

Definition conn_mysql : Connection.t :=
  Connection.mk "db-m.internal" 3306 "app" "mallory" "" "mysql" ∅
                "bastion" 0 4.

Definition config_mysql : Config :=
  mk_Config (<["m" := conn_mysql]> ∅) (<["bastion" := Script.bastion]> ∅).

(** * The command line (src/unnamed/part_000) *)

(** An argument of [fmt.Fprintln]: a string, or an error printed with its
    [Error] text. *)
Inductive printable : Type :=
| p_string (s : string)
| p_error (e : error).

(** What the terminal, the standard library and text/tabwriter do for the
    command line. *)
Record Console (W : Type) : Type := mk_Console {
  (** [c.terminal.ReadLine()]. *)
  term_ReadLine : W -> (string * option error) * W;
  (** [fmt.Fprintln(c.terminal, args...)]. *)
  term_Fprintln : list printable -> W -> W;
  (** [errors.Is(err, io.EOF)] and [err == term.ErrPasteIndicator]. *)
  errors_Is_EOF : error -> bool;
  is_ErrPasteIndicator : error -> bool;
  (** [strings.TrimSpace]. *)
  strings_TrimSpace : string -> string;
  (** The text that the [Fprintf] and [Fprintln] calls of [query] write
      into the tabwriter for a result: the header, the rule and the rows. *)
  query_table : QueryResult -> string;
  (** [writer.Flush()] of a tabwriter that holds a text. *)
  tabwriter_Flush : string -> W -> option error * W
}.

Arguments term_ReadLine {W} c.
Arguments term_Fprintln {W} c.
Arguments errors_Is_EOF {W} c.
Arguments is_ErrPasteIndicator {W} c.
Arguments strings_TrimSpace {W} c.
Arguments query_table {W} c.
Arguments tabwriter_Flush {W} c.

(** The loop of [run] that trims the arguments of a command and deletes the
    empty ones in place: [args] and [i] are its variables, and every round
    either deletes [args[i]] (and steps [i] back and forth) or moves on. *)
Fixpoint cli_args_loop (trim : string -> string) (fuel : nat)
    (args : list string) (i : nat) : list string :=
  match fuel with
  | 0 => args
  | S fuel' =>
      match args !! i with
      | None => args
      | Some a =>
          let arg := trim a in
          if decide (arg = "")
          then cli_args_loop trim fuel' (take i args ++ drop (S i) args) i
          else cli_args_loop trim fuel' (<[i := arg]> args) (S i)
      end
  end.

(** The arguments of the command line [\rest]: a round of the loop for
    every piece is enough. *)
Definition cli_args (trim : string -> string) (rest : string) : list string :=
  let args := strings_Split rest " "%char in
  cli_args_loop trim (length args) args 0.

(** The subcommands behind [command]; each gets [args[1:]]. *)
Record Handlers (W : Type) : Type := mk_Handlers {
  h_activeConnection : list string -> M W (option error);
  h_listConnections : list string -> M W (option error);
  h_switchConnection : list string -> M W (option error);
  h_listTables : list string -> M W (option error);
  h_listSchemas : list string -> M W (option error);
  h_describeTable : list string -> M W (option error);
  h_printStats : list string -> M W (option error);
  h_help : M W unit
}.

Arguments h_activeConnection {W} h.
Arguments h_listConnections {W} h.
Arguments h_switchConnection {W} h.
Arguments h_listTables {W} h.
Arguments h_listSchemas {W} h.
Arguments h_describeTable {W} h.
Arguments h_printStats {W} h.
Arguments h_help {W} h.

(** What an iteration of the loop of [run] leaves: the loop goes on with
    the flag [c.running], or [run] returns. *)
Inductive Ctl : Type :=
| ctl_continue (running : bool)
| ctl_return.

Section CLI.

Variable W : Type.
Variable sys : Sys W.
Variable con : Console W.

Local Open Scope go_scope.

(** A call of the console that acts on the world. *)
Definition console {A} (f : W -> A * W) : M W A :=
  fun st =>
    let '(a, w) := f (world st) in
    (Ret a, mk_State (reg st) (heap st) w (trace st)).

(** [c.println(args...)]. *)
Definition cli_println (args : list printable) : M W unit :=
  console (fun w => (tt, term_Fprintln con args w)).

(** [cli.switchConnection]. *)
Definition cli_switchConnection (prompter : Prompter W) (args : list string)
  : M W (option error) :=
  match args with
  | [name] => DBMan_SwitchConnection sys name prompter
  | _ => ret (Some (errors_New "a single connection name must be specified"))
  end.

(** [cli.query]: [result.Columns] dereferences the result of [Query]. *)
Definition cli_query (line : string) : M W (option error) :=
  r <- DBMan_Query sys line ;;
  let '(result, err) := r in
  match err with
  | Some e => ret (Some e)
  | None =>
      match result with
      | None => raise nil_dereference
      | Some result =>
          console (tabwriter_Flush con (query_table con result))
      end
  end.

(** [cli.command]: the error, and [c.running] after the call. *)
Definition cli_command (hs : Handlers W) (args : list string) (running : bool)
  : M W (option error * bool) :=
  match args with
  | [] => raise (index_out_of_range 0 0)
  | name :: rest =>
      let run_ (h : list string -> M W (option error)) :=
        err <- h rest ;; ret (err, running) in
      if bool_decide (name ∈ ["active"; "a"]) then run_ (h_activeConnection hs)
      else if bool_decide (name ∈ ["connections"; "c"])
      then run_ (h_listConnections hs)
      else if bool_decide (name ∈ ["switch"; "s"])
      then run_ (h_switchConnection hs)
      else if bool_decide (name ∈ ["tables"; "t"]) then run_ (h_listTables hs)
      else if bool_decide (name ∈ ["schemas"; "sn"])
      then run_ (h_listSchemas hs)
      else if bool_decide (name ∈ ["describe"; "d"])
      then run_ (h_describeTable hs)
      else if bool_decide (name = "stats") then run_ (h_printStats hs)
      else if bool_decide (name ∈ ["help"; "h"; "?"])
      then h_help hs ;; ret (None, running)
      else if bool_decide (name ∈ ["quit"; "q"]) then ret (None, false)
      else ret (Some (errors_New "unknown command"), running)
  end.

(** [if err != nil { c.println(err) }]. *)
Definition cli_report (err : option error) : M W unit :=
  match err with
  | Some e => cli_println [p_error e]
  | None => ret tt
  end.

(** The body of the loop of [run] from [line = strings.TrimSpace(line)]
    on. *)
Definition cli_line (hs : Handlers W) (line : string) (running : bool)
  : M W Ctl :=
  let line := strings_TrimSpace con line in
  match line with
  | EmptyString => raise (index_out_of_range 0 0)
  | String c rest =>
      if decide (c = "\"%char) then
        let args := cli_args (strings_TrimSpace con) rest in
        r <- cli_command hs args running ;;
        let '(err, running') := r in
        cli_report err ;;
        ret (ctl_continue running')
      else
        err <- cli_query line ;;
        cli_report err ;;
        ret (ctl_continue running)
  end.

(** One iteration of the loop of [run]. *)
Definition cli_iteration (hs : Handlers W) (running : bool) : M W Ctl :=
  r <- console (term_ReadLine con) ;;
  let '(line, err) := r in
  match err with
  | Some e =>
      if errors_Is_EOF con e then ret ctl_return
      else if negb (is_ErrPasteIndicator con e)
      then cli_println [p_error e] ;; ret (ctl_continue running)
      else cli_line hs line running
  | None => cli_line hs line running
  end.

(** The loop [for c.running { ... }] of [run], for at most [fuel]
    iterations. *)
Fixpoint cli_loop (hs : Handlers W) (fuel : nat) (running : bool) : M W unit :=
  match fuel with
  | 0 => ret tt
  | S fuel' =>
      if running then
        ctl <- cli_iteration hs running ;;
        match ctl with
        | ctl_return => ret tt
        | ctl_continue running' => cli_loop hs fuel' running'
        end
      else ret tt
  end.

End CLI.

(** ** A console for the examples *)

(** [strings.TrimSpace] on ASCII text: the white space of ASCII is removed
    at both ends. *)
Definition ascii_isSpace (c : ascii) : bool :=
  bool_decide (c ∈ [" "%char; "009"%char; "010"%char; "011"%char;
                    "012"%char; "013"%char]).

Fixpoint ascii_TrimLeft (s : string) : string :=
  match s with
  | EmptyString => EmptyString
  | String c rest => if ascii_isSpace c then ascii_TrimLeft rest else s
  end.

Fixpoint ascii_TrimRight (s : string) : string :=
  match s with
  | EmptyString => EmptyString
  | String c rest =>
      match ascii_TrimRight rest with
      | EmptyString => if ascii_isSpace c then EmptyString else String c EmptyString
      | rest' => String c rest'
      end
  end.

Definition ascii_TrimSpace (s : string) : string :=
  ascii_TrimRight (ascii_TrimLeft s).

(** A console whose terminal has nothing more to read and whose output is
    dropped. *)
Definition ex_console : Console Script.World :=
  mk_Console Script.World
    (fun w => (("", Some (errors_New "EOF")), w))
    (fun _ w => w)
    (fun e => match e with
              | errors_New msg => bool_decide (msg = "EOF")
              | _ => false
              end)
    (fun _ => false)
    ascii_TrimSpace
    (fun _ => "")
    (fun _ w => (None, w)).

(** Subcommands that do nothing. *)
Definition ex_handlers : Handlers Script.World :=
  mk_Handlers Script.World
    (fun _ => ret None) (fun _ => ret None) (fun _ => ret None)
    (fun _ => ret None) (fun _ => ret None) (fun _ => ret None)
    (fun _ => ret None) (ret tt).

(** * Validation of the configuration (src/unnamed/part_008) *)

(** util.go: [stringsContains]. *)
Fixpoint stringsContains (list : list string) (str : string) : bool :=
  match list with
  | [] => false
  | s :: rest => if decide (s = str) then true else stringsContains rest str
  end.

(** The errors of the validation: [errors.New] and [fmt.Errorf] with their
    text, and an [errorList]. *)
#[warnings="-register-all"]
Inductive cfg_error : Type :=
| cfg_msg (text : string)
| cfg_list (errs : list cfg_error).

(** [if len(errs) != 0 { return errs }; return nil]. *)
Definition errorList_result (errs : list cfg_error) : option cfg_error :=
  if decide (length errs <> 0) then Some (cfg_list errs) else None.

(** [err.Error()]; for an [errorList] every entry is followed by a new
    line. *)
Fixpoint cfg_error_Error (e : cfg_error) : string :=
  match e with
  | cfg_msg text => text
  | cfg_list errs =>
      (fix go (errs : list cfg_error) : string :=
         match errs with
         | [] => ""
         | err :: rest => cfg_error_Error err +:+ String "010"%char (go rest)
         end) errs
  end.

(** [AuthMethod.validate]. *)
Definition AuthMethod_validate (a : AuthMethod) : option cfg_error :=
  if bool_decide (a ∈ [PasswordAuth; PublicKeyAuth; AgentAuth]) then None
  else if decide (a = "") then Some (cfg_msg "required")
  else Some (cfg_msg "must be one of: password, public_key, agent").

(** [Connection.validate]; [drivers] is [sql.Drivers()]. *)
Definition Connection_validate (drivers : list string) (c : Connection.t)
    (prefix : string) : option cfg_error :=
  let errs : list cfg_error := [] in
  let errs :=
    if decide (Connection.Host c = "")
    then errs ++ [cfg_msg (prefix +:+ ".host: required")] else errs in
  let errs :=
    if decide (Connection.Port c = 0%Z)
    then errs ++ [cfg_msg (prefix +:+ ".port: required")] else errs in
  let errs :=
    if decide (Connection.Database c = "")
    then errs ++ [cfg_msg (prefix +:+ ".database: required")] else errs in
  let errs :=
    if decide (Connection.Username c = "")
    then errs ++ [cfg_msg (prefix +:+ ".username: required")] else errs in
  let errs :=
    if decide (Connection.Driver c = "")
    then errs ++ [cfg_msg (prefix +:+ ".driver: required")]
    else if negb (stringsContains drivers (Connection.Driver c))
    then errs ++ [cfg_msg (prefix +:+ ".driver: not a supported driver")]
    else errs in
  let errs :=
    if decide (Connection.ConnectTimeoutSec c < 0)%Z
    then errs ++ [cfg_msg (prefix +:+
                    ".connect_timeout: must be greater than or equal to 0")]
    else errs in
  errorList_result errs.

(** [SSHTunnel.validate]. *)
Definition SSHTunnel_validate (s : SSHTunnel.t) (prefix : string)
  : option cfg_error :=
  let errs : list cfg_error := [] in
  let errs :=
    if decide (SSHTunnel.Host s = "")
    then errs ++ [cfg_msg (prefix +:+ ".host: required")] else errs in
  let errs :=
    if decide (SSHTunnel.Port s = 0%Z)
    then errs ++ [cfg_msg (prefix +:+ ".port: required")] else errs in
  let errs :=
    if decide (SSHTunnel.User s = "")
    then errs ++ [cfg_msg (prefix +:+ ".user: required")] else errs in
  let errs :=
    match AuthMethod_validate (SSHTunnel.AuthMethod s) with
    | Some err =>
        errs ++ [cfg_msg (prefix +:+ ".auth_method: " +:+ cfg_error_Error err)]
    | None => errs
    end in
  let errs :=
    if decide (SSHTunnel.ConnectTimeoutSec s < 0)%Z
    then errs ++ [cfg_msg (prefix +:+
                    ".connect_timeout: must be greater than or equal to 0")]
    else errs in
  errorList_result errs.

(** The first loop of [Config.validate], over the connections in the order
    of the range. *)
Fixpoint validate_connections (drivers : list string) (c : Config)
    (conns : list (string * Connection.t)) (errs : list cfg_error)
  : list cfg_error :=
  match conns with
  | [] => errs
  | (k, v) :: rest =>
      let errs :=
        match Connection_validate drivers v k with
        | Some err => errs ++ [err]
        | None => errs
        end in
      let errs :=
        if decide (Connection.Tunnel v <> "") then
          match Tunnels c !! Connection.Tunnel v with
          | None =>
              errs ++ [cfg_msg ("tunnel '" +:+ Connection.Tunnel v +:+
                                "' does not exist")]
          | Some _ => errs
          end
        else errs in
      validate_connections drivers c rest errs
  end.

(** The second loop, over the tunnels. *)
Fixpoint validate_tunnels (tunnels : list (string * SSHTunnel.t))
    (errs : list cfg_error) : list cfg_error :=
  match tunnels with
  | [] => errs
  | (k, v) :: rest =>
      let errs :=
        match SSHTunnel_validate v k with
        | Some err => errs ++ [err]
        | None => errs
        end in
      validate_tunnels rest errs
  end.

(** [Config.validate]; [conns] and [tunnels] are the entries of the two
    maps in the order in which the ranges visit them.  A nil map of tunnels
    and an empty one have no entry alike. *)
Definition Config_validate (drivers : list string) (c : Config)
    (conns : list (string * Connection.t))
    (tunnels : list (string * SSHTunnel.t)) : option cfg_error :=
  let errs := validate_connections drivers c conns [] in
  let errs := validate_tunnels tunnels errs in
  errorList_result errs.

(** What the validation asks of a connection and of a tunnel. *)
Definition connection_ok (drivers : list string) (c : Connection.t) : Prop :=
  Connection.Host c <> "" /\ Connection.Port c <> 0%Z /\
  Connection.Database c <> "" /\ Connection.Username c <> "" /\
  Connection.Driver c <> "" /\ Connection.Driver c ∈ drivers /\
  (0 <= Connection.ConnectTimeoutSec c)%Z.

Definition tunnel_ok (s : SSHTunnel.t) : Prop :=
  SSHTunnel.Host s <> "" /\ SSHTunnel.Port s <> 0%Z /\
  SSHTunnel.User s <> "" /\
  SSHTunnel.AuthMethod s ∈ [PasswordAuth; PublicKeyAuth; AgentAuth] /\
  (0 <= SSHTunnel.ConnectTimeoutSec s)%Z.

Definition config_ok (drivers : list string) (c : Config) : Prop :=
  (forall k v, Connections c !! k = Some v ->
     connection_ok drivers v /\
     (Connection.Tunnel v = "" \/ is_Some (Tunnels c !! Connection.Tunnel v))) /\
  (forall k s, Tunnels c !! k = Some s -> tunnel_ok s).

(** * util.go: the check against known_hosts *)



(** A file that [ioutil.WriteFile] wrote into the working directory. *)
Definition written : Type := (string * list byte)%type.




(** ** Shapes used by the properties of the tunnel *)

(** The tunnel with more forwarded connections on its list. *)
Definition add_connections (tun : Tunnel) (conns : list Closer) : Tunnel :=
  mk_Tunnel (config tun) (tunnelHost tun) (remoteHost tun) (localConn tun)
            (client tun) (connections tun ++ conns).

(** The prompt for the passphrase of the private key of a tunnel. *)
Definition passphrase_prompt (tunnel : SSHTunnel.t) : Event :=
  ev_prompt (SSHTunnel.Host tunnel) "private key is encrypted"
            ["private key passphrase: "] [false].

(** A prompter that first fails, then gives a wrong and then the right
    passphrase, for a parser that accepts the passphrase [sesame]. *)
Definition ex_passphrases : Script.World :=
  Script.mk_World [] [] []
    [([], Some (ext_error 9)); (["guess"], None); (["sesame"], None)] [] [] 0.

Definition sys_encrypted_key : Sys Script.World :=
  {| os_UserHomeDir := os_UserHomeDir _ Script.sys;
     os_Getenv := os_Getenv _ Script.sys;
     os_ExpandEnv := os_ExpandEnv _ Script.sys;
     ioutil_ReadFile := ioutil_ReadFile _ Script.sys;
     filepath_Join := filepath_Join _ Script.sys;
     ssh_ParsePublicKey := ssh_ParsePublicKey _ Script.sys;
     ssh_ParsePrivateKey := ssh_ParsePrivateKey _ Script.sys;
     ssh_ParsePrivateKeyWithPassphrase := fun _ pass =>
       if bool_decide (string_of_list_byte pass = "sesame")
       then (Signer_of 1, None)
       else (Signer_of 0, Some (errors_New "x509: decryption password incorrect"));
     net_Dial_unix := net_Dial_unix _ Script.sys;
     net_Listen := net_Listen _ Script.sys;
     ssh_Dial := ssh_Dial _ Script.sys;
     listener_Accept := listener_Accept _ Script.sys;
     client_Dial := client_Dial _ Script.sys;
     net_SplitHostPort := net_SplitHostPort _ Script.sys;
     strconv_Atoi := strconv_Atoi _ Script.sys;
     pq_NewConnector := pq_NewConnector _ Script.sys;
     sql_OpenDB := sql_OpenDB _ Script.sys;
     db_SetMaxOpenConns := db_SetMaxOpenConns _ Script.sys;
     db_SetConnMaxIdleTime := db_SetConnMaxIdleTime _ Script.sys;
     db_PingContext := db_PingContext _ Script.sys;
     db_Query := db_Query _ Script.sys;
     db_Stats := db_Stats _ Script.sys;
     db_Close := db_Close _ Script.sys;
     closer_Close := closer_Close _ Script.sys;
     listener_Close := listener_Close _ Script.sys;
     conv_string := conv_string _ Script.sys;
     conv_stringPtr := conv_stringPtr _ Script.sys;
     conv_bool := conv_bool _ Script.sys;
     conv_int64 := conv_int64 _ Script.sys;
     conv_int32 := conv_int32 _ Script.sys;
     conv_float64 := conv_float64 _ Script.sys;
     conv_time := conv_time _ Script.sys;
     conv_array := conv_array _ Script.sys;
     conv_reflect := conv_reflect _ Script.sys;
     float32_of_float64 := float32_of_float64 _ Script.sys;
     map_range := map_range _ Script.sys |}.

(** ** A configuration with one connection changed *)

Definition with_connection (name : string) (conn : Connection.t) (d : DBMan)
  : DBMan :=
  mk_DBMan (current d)
           (mk_Config (<[name := conn]> (Connections (cfg d))) (Tunnels (cfg d)))
           (activeQueriers d) (activeTunnels d) (currentName d).

(** A registry in which the tunnel of the connections [a] and [b] is
    established and no connection is open. *)
Definition ex_tunnel_cached : State Script.World :=
  mk_State (mk_DBMan None Script.config ∅ (<["bastion" := 0]> ∅) "")
           (<[0 := ex_tunnel]> ∅) Script.quiet [].

(** * util.go: the prompt on the terminal *)

(** What [PasswordPrompt] asks of the terminal. *)
Record PromptTerminal (W : Type) : Type := mk_PromptTerminal {
  pt_SetBracketedPasteMode : bool -> W -> W;
  (** [fmt.Fprintf(terminal, "%s: %s\n", user, instruction)], with the text
      written. *)
  pt_Fprintf : string -> W -> W;
  pt_SetPrompt : string -> W -> W;
  pt_ReadLine : W -> (string * option error) * W;
  pt_ReadPassword : string -> W -> (string * option error) * W;
  (** [err == term.ErrPasteIndicator]. *)
  pt_is_ErrPasteIndicator : error -> bool
}.

Arguments pt_SetBracketedPasteMode {W} p.
Arguments pt_Fprintf {W} p.
Arguments pt_SetPrompt {W} p.
Arguments pt_ReadLine {W} p.
Arguments pt_ReadPassword {W} p.
Arguments pt_is_ErrPasteIndicator {W} p.

Section Prompt.

Variable W : Type.
Variable tty : PromptTerminal W.

(** The loop [for i := 0; i < len(questions); i++] of the prompt, with the
    questions from [i] on still to ask and the answers so far. *)
Fixpoint PasswordPrompt_loop (questions : list string) (i : nat)
    (echos : list bool) (answers : list string) (w : W)
  : Outcome (list string * option error) * W :=
  match questions with
  | [] => (Ret (answers, None), w)
  | q :: rest =>
      match (echos !! i : option bool) with
      | None => (Panicked (index_out_of_range i (length echos)), w)
      | Some echo =>
          let '((a, err), w1) :=
            if echo then pt_ReadLine tty (pt_SetPrompt tty q w)
            else pt_ReadPassword tty q w in
          match err with
          | Some e =>
              if negb (pt_is_ErrPasteIndicator tty e)
              then (Ret ([], Some e), w1)
              else PasswordPrompt_loop rest (S i) echos (answers ++ [a]) w1
          | None => PasswordPrompt_loop rest (S i) echos (answers ++ [a]) w1
          end
      end
  end.

(** The function that [PasswordPrompt(terminal)] returns; the deferred
    [SetBracketedPasteMode(false)] runs on every way out. *)
Definition PasswordPrompt (user instruction : string)
    (questions : list string) (echos : list bool) (w : W)
  : Outcome (list string * option error) * W :=
  let w := pt_SetBracketedPasteMode tty true w in
  let w :=
    if decide (user <> "" \/ instruction <> "")
    then pt_Fprintf tty (user +:+ ": " +:+ instruction +:+ String "010"%char "") w
    else w in
  let '(r, w) := PasswordPrompt_loop questions 0 echos [] w in
  (r, pt_SetBracketedPasteMode tty false w).

(** The prompt as the prompter of the registry, which asks one question
    with one echo flag. *)
Definition PasswordPrompt_prompter : Prompter W :=
  fun user instruction questions echos w =>
    match PasswordPrompt user instruction questions echos w with
    | (Ret r, w') => (r, w')
    | (Panicked _, w') => (([], None), w')
    end.

End Prompt.

(** A terminal on which every read gives the same text. *)
Definition ex_tty : PromptTerminal Script.World :=
  mk_PromptTerminal Script.World
    (fun _ w => w) (fun _ w => w) (fun _ w => w)
    (fun w => (("typed", None), w))
    (fun _ w => (("hunter2", None), w))
    (fun _ => false).

(** ** Close calls in a trace *)

Definition is_close (e : Event) : bool :=
  match e with
  | ev_DB_Close _ _ | ev_Closer_Close _ _ | ev_Listener_Close _ _
  | ev_Rows_Close => true
  | _ => false
  end.

(** ** src/unnamed/part_008: [makeErrorList] *)

(** The loop of [makeErrorList] over the arguments that are left; a nil
    error is [None]. *)
Fixpoint makeErrorList_loop (errs : list (option cfg_error))
    (acc : list cfg_error) : list cfg_error :=
  match errs with
  | [] => acc
  | err :: rest =>
      match err with
      | Some (cfg_list v) => makeErrorList_loop rest (acc ++ v)
      | None => makeErrorList_loop rest acc
      | Some e => makeErrorList_loop rest (acc ++ [e])
      end
  end.

Definition makeErrorList (errs : list (option cfg_error)) : option cfg_error :=
  errorList_result (makeErrorList_loop errs []).

(** The lines that an argument of [makeErrorList] stands for. *)
Definition error_lines (err : option cfg_error) : list cfg_error :=
  match err with
  | Some (cfg_list v) => v
  | None => []
  | Some e => [e]
  end.

(** ** A connection whose tunnel is not configured *)

Definition conn_orphan : Connection.t :=
  Connection.mk "db-o.internal" 5432 "app" "oscar" "secret" "postgres" ∅
                "ghost" 0 4.

Definition config_orphan : Config :=
  mk_Config (<["o" := conn_orphan]> ∅) ∅.

(** * Properties *)

(** ** The UUID scanner *)

Example uuidVal_Scan_raw :
  uuidVal_String
    (fst (uuidVal_Scan uuidVal_zero (dv_bytes (list_byte_of_string "0123456789abcdef"))))
  = "30313233-3435-3637-3839-616263646566".
Proof. reflexivity. Qed.

Example uuidVal_Scan_upper_case :
  uuidVal_String
    (fst (uuidVal_Scan uuidVal_zero (dv_string "6BA7B8109DAD11D180B400C04FD430C8")))
  = "6ba7b810-9dad-11d1-80b4-00c04fd430c8".
Proof. reflexivity. Qed.

Example uuidVal_Scan_too_short :
  snd (uuidVal_Scan uuidVal_zero (dv_string "6ba7b810-9dad-11d1-80b4-00c04fd430c"))
  = Some (errors_New "unexpected number of bytes: 35").
Proof. reflexivity. Qed.

Example uuidVal_Scan_nil :
  uuidVal_String (fst (uuidVal_Scan uuidVal_zero dv_nil)) = "NULL".
Proof. reflexivity. Qed.

Lemma byte_of_nibbles (b : byte) :
  hex.byte_of_N (N.lor (N.shiftl (Byte.to_N b / 16) 4) (Byte.to_N b mod 16)) = b.
Proof. destruct b; vm_compute; reflexivity. Qed.

Lemma nibble_cases (n : N) :
  (n < 16)%N ->
  n ∈ [0; 1; 2; 3; 4; 5; 6; 7; 8; 9; 10; 11; 12; 13; 14; 15]%N.
Proof.
  intros Hn.
  assert (Hk : exists k : nat, n = N.of_nat k /\ (k < 16)%nat).
  { exists (N.to_nat n). lia. }
  destruct Hk as (k & -> & Hk).
  do 16 (destruct k as [|k]; [set_solver |]). lia.
Qed.

Lemma fromHexChar_digit (c : byte) (n : N) :
  hex_digit_of c n -> hex.fromHexChar c = (n, true).
Proof.
  intros [Hn Hc].
  apply nibble_cases in Hn.
  repeat (apply elem_of_cons in Hn; destruct Hn as [-> | Hn]);
    try (destruct Hc as [-> | ->]; vm_compute; reflexivity).
  inversion Hn.
Qed.

Lemma Decode_hex_text (s u : list byte) :
  hex_text s u -> hex.Decode s = (u, None).
Proof.
  induction 1 as [| c1 c2 s b u H1 H2 _ IH]; [reflexivity |].
  cbn [hex.Decode].
  rewrite (fromHexChar_digit _ _ H1), (fromHexChar_digit _ _ H2), IH.
  cbn. now rewrite byte_of_nibbles.
Qed.

Lemma hex_text_length (s u : list byte) :
  hex_text s u -> length s = 2 * length u.
Proof. induction 1; cbn in *; lia. Qed.

Lemma Encode_lower_hex (u : list byte) : hex.Encode u = lower_hex u.
Proof.
  induction u as [| b u IH]; [reflexivity |].
  cbn [hex.Encode]. rewrite IH. unfold lower_hex. cbn [flat_map app].
  f_equal; [| f_equal]; destruct b; vm_compute; reflexivity.
Qed.

Ltac explicit_list l H :=
  repeat (destruct l as [| ? l]; [discriminate H |]; cbn [length] in H);
  try (destruct l; [| discriminate H]).

Lemma length_explicit_16 (u : list byte) :
  length u = 16 ->
  exists b0 b1 b2 b3 b4 b5 b6 b7 b8 b9 b10 b11 b12 b13 b14 b15,
    u = [b0; b1; b2; b3; b4; b5; b6; b7; b8; b9; b10; b11; b12; b13; b14; b15].
Proof.
  intros H.
  do 16 (destruct u as [| ? u]; [discriminate H |]).
  destruct u; [| discriminate H].
  repeat eexists.
Qed.

Lemma write_at_whole (dst u : list byte) :
  length dst = length u -> write_at dst 0 u = u.
Proof.
  intros H. unfold write_at. cbn [take plus].
  rewrite drop_ge by lia. cbn. apply app_nil_r.
Qed.

Lemma hex_text_explicit (s u : list byte) (n : nat) :
  hex_text s u -> length u = n -> length s = 2 * n.
Proof. intros H <-. now apply hex_text_length. Qed.

Lemma uuidParse_encoding (u dst s : list byte) :
  length u = 16 -> length dst = 16 -> uuid_encoding u s ->
  uuidParse dst s = (u, None).
Proof.
  intros Hu Hdst Henc. destruct Henc as [| s Hs | g1 g2 g3 g4 g5 H1 H2 H3 H4 H5].
  - unfold uuidParse. rewrite Hu. cbv iota beta.
    rewrite write_at_whole by congruence. reflexivity.
  - unfold uuidParse. rewrite (hex_text_explicit _ _ 16 Hs Hu).
    change (2 * 16) with 32. cbv iota beta.
    rewrite (Decode_hex_text _ _ Hs).
    rewrite write_at_whole by congruence. reflexivity.
  - destruct (length_explicit_16 u Hu)
      as (b0&b1&b2&b3&b4&b5&b6&b7&b8&b9&b10&b11&b12&b13&b14&b15&->).
    destruct (length_explicit_16 dst Hdst)
      as (d0&d1&d2&d3&d4&d5&d6&d7&d8&d9&d10&d11&d12&d13&d14&d15&->).
    cbn in H1, H2, H3, H4, H5.
    pose proof (hex_text_explicit _ _ 4 H1 eq_refl) as L1.
    pose proof (hex_text_explicit _ _ 2 H2 eq_refl) as L2.
    pose proof (hex_text_explicit _ _ 2 H3 eq_refl) as L3.
    pose proof (hex_text_explicit _ _ 2 H4 eq_refl) as L4.
    pose proof (hex_text_explicit _ _ 6 H5 eq_refl) as L5.
    cbn in L1, L2, L3, L4, L5.
    pose proof (Decode_hex_text _ _ H1) as D1.
    pose proof (Decode_hex_text _ _ H2) as D2.
    pose proof (Decode_hex_text _ _ H3) as D3.
    pose proof (Decode_hex_text _ _ H4) as D4.
    pose proof (Decode_hex_text _ _ H5) as D5.
    clear H1 H2 H3 H4 H5 Hu Hdst.
    explicit_list g1 L1. explicit_list g2 L2. explicit_list g3 L3.
    explicit_list g4 L4. explicit_list g5 L5.
    unfold uuidParse.
    cbn [length app]. cbv iota beta.
    unfold slice. cbn [take drop minus].
    rewrite D1, D2, D3, D4, D5.
    reflexivity.
Qed.

Lemma uuidParse_other_length (dst inp : list byte) :
  length inp <> 16 -> length inp <> 32 -> length inp <> 36 ->
  exists e, uuidParse dst inp = (dst, Some e).
Proof.
  intros H16 H32 H36. unfold uuidParse.
  remember (length inp) as n eqn:Hn. clear Hn.
  do 37 (destruct n as [| n]; [try congruence; eexists; reflexivity |]).
  eexists; reflexivity.
Qed.

Lemma uuidVal_String_canonical (u : list byte) :
  length u = 16 -> uuidVal_String (mk_uuidVal u true) = canonical_uuid u.
Proof.
  intros Hu.
  destruct (length_explicit_16 u Hu)
    as (b0&b1&b2&b3&b4&b5&b6&b7&b8&b9&b10&b11&b12&b13&b14&b15&->).
  unfold uuidVal_String, canonical_uuid. cbn [Valid UUID negb].
  rewrite !Encode_lower_hex. reflexivity.
Qed.

(** C7.  Scanning any of the three wire encodings of a 16-byte identifier
    (the raw bytes, the 32 hexadecimal digits, the hyphenated 36 characters;
    digits in either letter case; delivered as bytes or as a string) stores
    that identifier, and its display string is the canonical lower-case
    hyphenated 8-4-4-4-12 text; an input of any other length is rejected
    with an error. *)
Theorem uuid_encodings_canonical (u : list byte) (v : uuidVal) :
  length u = 16 -> length (UUID v) = 16 ->
  (forall raw, uuid_wire_form u raw ->
     exists v', uuidVal_Scan v raw = (v', None) /\
                uuidVal_String v' = canonical_uuid u) /\
  (forall inp, length inp <> 16 -> length inp <> 32 -> length inp <> 36 ->
     (exists e, uuidVal_Scan v (dv_bytes inp) = (v, Some e)) /\
     (exists e, uuidVal_Scan v (dv_string (string_of_list_byte inp)) = (v, Some e))).
Proof.
  intros Hu Hv. split.
  - intros raw (s & Henc & Hraw).
    exists (mk_uuidVal u true). split; [| now apply uuidVal_String_canonical].
    destruct Hraw as [-> | ->]; cbn [uuidVal_Scan];
      rewrite ?list_byte_of_string_of_list_byte;
      now rewrite (uuidParse_encoding u (UUID v) s Hu Hv Henc).
  - intros inp H16 H32 H36.
    destruct (uuidParse_other_length (UUID v) inp H16 H32 H36) as [e He].
    split; exists e; cbn [uuidVal_Scan];
      rewrite ?list_byte_of_string_of_list_byte, He; now destruct v.
Qed.

Ltac hex_text_tac :=
  repeat first
    [ apply hex_text_nil
    | apply hex_text_cons;
      [ split; [reflexivity | first [left; reflexivity | right; reflexivity]]
      | split; [reflexivity | first [left; reflexivity | right; reflexivity]]
      | ] ].

Lemma uuid_encodings_canonical_witness :
  exists v',
    uuidVal_Scan uuidVal_zero (dv_string "6BA7B810-9dad-11D1-80b4-00C04FD430c8")
      = (v', None) /\
    uuidVal_String v' = "6ba7b810-9dad-11d1-80b4-00c04fd430c8".
Proof.
  apply (proj1 (uuid_encodings_canonical sample_uuid uuidVal_zero eq_refl eq_refl)).
  exists (list_byte_of_string "6BA7B810" ++ [hyphen] ++
          list_byte_of_string "9dad" ++ [hyphen] ++
          list_byte_of_string "11D1" ++ [hyphen] ++
          list_byte_of_string "80b4" ++ [hyphen] ++
          list_byte_of_string "00C04FD430c8").
  split; [| right; reflexivity].
  apply encoding_hyphenated; hex_text_tac.
Defined.

(** ** DescribeTable and the segments of a table name *)

Example strings_Split_three : strings_Split "a.b.c" "." = ["a"; "b"; "c"].
Proof. reflexivity. Qed.

Example strings_Split_qualified :
  strings_Split "public.orders" "." = ["public"; "orders"].
Proof. reflexivity. Qed.

Example strings_Split_empty : strings_Split "" "." = [""].
Proof. reflexivity. Qed.

Example strings_Split_trailing : strings_Split "orders." "." = ["orders"; ""].
Proof. reflexivity. Qed.

Section Meta.

Variable W : Type.
Variable sys : Sys W.

Lemma strings_Split_nonempty (s : string) (sep : ascii) :
  strings_Split s sep <> [].
Proof.
  induction s as [| c s IH]; cbn; [discriminate |].
  destruct (decide (c = sep)); [discriminate |].
  destruct (strings_Split s sep); [contradiction | discriminate].
Qed.

Lemma DescribeTable_names_invalid (tablename : string) :
  length (strings_Split tablename ".") <> 1 ->
  length (strings_Split tablename ".") <> 2 ->
  DescribeTable_names tablename = None.
Proof.
  intros H1 H2. unfold DescribeTable_names.
  destruct (length (strings_Split tablename ".")) as [| [| [| n]]];
    congruence.
Qed.

(** C5 (amended).  A table name whose number of [.]-separated segments is
    neither one nor two makes DescribeTable return the validation error and
    leaves the state as it was: no query is issued.  [a.b.c] is such a name.
    No name has zero segments, and the empty name has exactly one (the empty
    segment): it is looked up as table [""] of schema [public]. *)
Theorem DescribeTable_segments (m : metaQuerier) (st : State W) :
  (forall tablename,
     length (strings_Split tablename ".") <> 1 ->
     length (strings_Split tablename ".") <> 2 ->
     let invalid :=
       (None, Some (errors_New ("invalid table name: '" +:+ tablename +:+ "'"))) in
     dbMeta_DescribeTable W sys m tablename st = (Ret invalid, st) /\
     dbMeta_DescribeTable_rev W sys m tablename st = (Ret invalid, st)) /\
  dbMeta_DescribeTable W sys m "a.b.c" st =
    (Ret (None, Some (errors_New "invalid table name: 'a.b.c'")), st) /\
  (forall tablename, 1 <= length (strings_Split tablename ".")) /\
  DescribeTable_names "" = Some ("public", "") /\
  DescribeTable_names "orders" = DescribeTable_names "public.orders".
Proof.
  split; [| split; [| split; [| split]]].
  - intros tablename H1 H2. cbv zeta.
    unfold dbMeta_DescribeTable, dbMeta_DescribeTable_rev.
    now rewrite (DescribeTable_names_invalid tablename H1 H2).
  - reflexivity.
  - intros tablename.
    pose proof (strings_Split_nonempty tablename ".") as Hne.
    destruct (strings_Split tablename "."); [contradiction | cbn; lia].
  - reflexivity.
  - reflexivity.
Qed.

End Meta.

Lemma DescribeTable_segments_witness :
  dbMeta_DescribeTable Script.World Script.sys (dbMeta (sqlDB_handle 0))
      "warehouse.public.orders.id" (Script.init Script.quiet)
    = (Ret (None, Some (errors_New
                          "invalid table name: 'warehouse.public.orders.id'")),
       Script.init Script.quiet).
Proof.
  refine (proj1 (proj1 (DescribeTable_segments Script.World Script.sys
                          (dbMeta (sqlDB_handle 0)) (Script.init Script.quiet))
                       "warehouse.public.orders.id" _ _));
    vm_compute; discriminate.
Defined.

(** C5, as stated, fails on the empty name: DescribeTable of [""] sends the
    query for table [""] of schema [public] and, the query succeeding,
    returns a table schema and no error. *)
Lemma DescribeTable_empty_name_accepted :
  let r := dbMeta_DescribeTable Script.World Script.sys (dbMeta (sqlDB_handle 0))
             "" (Script.init Script.quiet) in
  fst r = Ret (Some (mk_TableSchema "" []), None) /\
  trace (snd r) =
    [ev_Query (sqlDB_handle 0) DescribeTable_query ["public"; ""] None;
     ev_Rows_Close].
Proof. vm_compute. split; reflexivity. Qed.

(** ** Operations that need a current connection *)

Section NoActiveConnection.

Variable W : Type.
Variable sys : Sys W.

(** C4 (amended).  With no current connection, ListTables, ListSchemas,
    DescribeTable and Query return the error "an active connection is
    required" and no result, without any call to the outside; Stats, which
    has no error result, returns the zero statistics. *)
Theorem no_active_connection (st : State W) :
  current (reg st) = None ->
  (forall schema,
     DBMan_ListTables sys schema st = (Ret ([], Some errNoActiveConnection), st)) /\
  DBMan_ListSchemas sys st = (Ret ([], Some errNoActiveConnection), st) /\
  (forall name,
     DBMan_DescribeTable sys name st = (Ret (None, Some errNoActiveConnection), st)) /\
  (forall script,
     DBMan_Query sys script st = (Ret (None, Some errNoActiveConnection), st)) /\
  DBMan_Stats sys st = (Ret DBStats_zero, st).
Proof.
  intros Hcur.
  unfold DBMan_ListTables, DBMan_ListSchemas, DBMan_DescribeTable,
    DBMan_Query, DBMan_Stats, bind, get_reg, ret.
  rewrite Hcur. repeat split.
Qed.

End NoActiveConnection.

Lemma no_active_connection_witness :
  DBMan_Query Script.sys "SELECT 1" (Script.init Script.quiet)
    = (Ret (None, Some errNoActiveConnection), Script.init Script.quiet).
Proof.
  refine (proj1 (proj2 (proj2 (proj2
            (no_active_connection Script.World Script.sys
               (Script.init Script.quiet) _)))) "SELECT 1").
  reflexivity.
Defined.

(** C4, as stated, fails for Stats: on a registry that never switched it
    returns a result, the zero statistics, and not an error. *)
Lemma Stats_without_connection_returns :
  fst (DBMan_Stats Script.sys (mk_State (New Script.config) ∅ Script.quiet []))
    = Ret DBStats_zero.
Proof. reflexivity. Qed.

(** ** Query: no result set and empty result set *)

Section QueryResults.

Variable W : Type.
Variable sys : Sys W.

(** C6.  With a current connection, a statement that runs and reports zero
    columns makes Query return a nil result and a nil error; one that reports
    columns and yields no row makes it return a result (not nil) with those
    column names and no rows. *)
Theorem Query_no_columns_vs_no_rows (st : State W) (db : sqlDB)
    (script : string) (rows : Rows) (w' : W) :
  current (reg st) = Some (dbMeta db) ->
  db_Query W sys db script [] (world st) = ((rows, None), w') ->
  (rows_ColumnTypes rows = ([], None) ->
   fst (DBMan_Query sys script st) = Ret (None, None)) /\
  (forall columns,
     columns <> [] ->
     rows_ColumnTypes rows = (columns, None) ->
     rows_data rows = [] ->
     fst (DBMan_Query sys script st)
       = Ret (Some (mk_QueryResult (map ct_Name columns) []), rows_Err rows)).
Proof.
  intros Hcur Hq.
  unfold DBMan_Query, bind, get_reg, dbMeta_Query, call, defer_, Rows_Close, log.
  rewrite Hcur. cbn. rewrite Hq. cbn.
  split.
  - intros ->. reflexivity.
  - intros columns Hne -> Hdata.
    destruct columns as [| c columns]; [contradiction |].
    cbn. rewrite Hdata. reflexivity.
Qed.

End QueryResults.

Lemma Query_no_columns_vs_no_rows_witness :
  fst (DBMan_Query Script.sys "CREATE TABLE t (id int, name text)"
         (connected (world_answering ddl_rows)))
    = Ret (None, None) /\
  fst (DBMan_Query Script.sys "SELECT id, name FROM t"
         (connected (world_answering select_rows)))
    = Ret (Some (mk_QueryResult ["id"; "name"] []), None).
Proof.
  split.
  - refine (proj1 (Query_no_columns_vs_no_rows Script.World Script.sys
                     (connected (world_answering ddl_rows)) (sqlDB_handle 0)
                     "CREATE TABLE t (id int, name text)" ddl_rows
                     (Script.mk_World [] [] [] [] [] [] 1) _ _) _);
      reflexivity.
  - refine (proj2 (Query_no_columns_vs_no_rows Script.World Script.sys
                     (connected (world_answering select_rows)) (sqlDB_handle 0)
                     "SELECT id, name FROM t" select_rows
                     (Script.mk_World [] [] [] [] [] [] 1) _ _)
                  (fst (rows_ColumnTypes select_rows)) _ _ _);
      [reflexivity | reflexivity | discriminate | reflexivity | reflexivity].
Defined.

(** ** Counting the events of a call *)

Lemma count_app (kind : Event -> bool) (l1 l2 : list Event) :
  count kind (l1 ++ l2) = count kind l1 + count kind l2.
Proof. unfold count. now rewrite List.filter_app, length_app. Qed.

Lemma count_nil (kind : Event -> bool) : count kind [] = 0.
Proof. reflexivity. Qed.

Lemma count_cons (kind : Event -> bool) (e : Event) (l : list Event) :
  count kind (e :: l) = (if kind e then 1 else 0) + count kind l.
Proof. unfold count. cbn. now destruct (kind e). Qed.

Lemma count_ok_le_dial (evs : list Event) :
  count is_ssh_Dial_ok evs <= count is_ssh_Dial evs.
Proof.
  unfold count. induction evs as [| e evs IH]; cbn; [lia |].
  destruct e; cbn; try lia.
  destruct r as [[c [err |]] | p]; cbn; lia.
Qed.

Lemma silent_app (l1 l2 : list Event) :
  silent l1 -> silent l2 -> silent (l1 ++ l2).
Proof.
  unfold silent, counts. rewrite !count_app.
  intros H1 H2. injection H1 as E1 E2 E3 E4 E5.
  injection H2 as F1 F2 F3 F4 F5.
  now rewrite E1, E2, E3, E4, E5, F1, F2, F3, F4, F5.
Qed.

Lemma silent_count (evs : list Event) :
  silent evs ->
  count is_ssh_Dial evs = 0 /\ count is_ssh_Dial_ok evs = 0 /\
  count is_net_Listen evs = 0 /\ count is_OpenDB evs = 0 /\
  count is_PingContext evs = 0.
Proof.
  unfold silent, counts. intros H. injection H as E1 E2 E3 E4 E5.
  repeat split; assumption.
Qed.

Section Switch.

Variable W : Type.
Variable sys : Sys W.

Lemma after_after (st : State W) (w1 w2 : W) (s1 s2 : list Event) :
  after (after st w1 s1) w2 s2 = after st w2 (s1 ++ s2).
Proof. unfold after. cbn. now rewrite app_assoc. Qed.

Lemma after_nil (st : State W) : after st (world st) [] = st.
Proof. destruct st. unfold after. cbn. now rewrite app_nil_r. Qed.

(** Closing a goal [(r, st') = (Ret ?x, after st ?w ?seg) /\ silent ?seg]
    once the computation has been run on an explicit state. *)
Ltac close_state :=
  unfold after; cbn; rewrite <- ?app_assoc;
  first [reflexivity | rewrite app_nil_r; reflexivity].

Ltac close_step :=
  eexists _, _; split; [close_state | reflexivity].

Ltac close_step_world :=
  eexists _, _, _; split; [close_state | reflexivity].

Lemma NewTunnel_hostKeyCB_spec (tunnel : SSHTunnel.t) (homedir : string)
    (st : State W) :
  exists x seg,
    NewTunnel_hostKeyCB W sys tunnel homedir st = (Ret x, after st (world st) seg) /\
    silent seg.
Proof.
  destruct st as [d h w tr].
  unfold NewTunnel_hostKeyCB, bind, peek, ret.
  destruct (decide _).
  - cbn. destruct (ioutil_ReadFile W sys _ w) as [buf [e |]]; cbn.
    + close_step.
    + destruct (ssh_ParsePublicKey W sys buf) as [k [e |]]; close_step.
  - destruct (negb _); close_step.
Qed.

Lemma NewTunnel_auth_spec (tunnel : SSHTunnel.t) (homedir : string)
    (st : State W) :
  exists x w seg,
    NewTunnel_auth W sys tunnel homedir st = (Ret x, after st w seg) /\
    silent seg.
Proof.
  destruct st as [d h w tr].
  unfold NewTunnel_auth, bind, peek, call, ret.
  repeat (destruct (decide _)); cbn.
  - close_step_world.
  - close_step_world.
  - destruct (ioutil_ReadFile W sys _ w) as [buf [err |]]; close_step_world.
  - destruct (net_Dial_unix W sys _ w) as [[a [err |]] w']; close_step_world.
  - close_step_world.
Qed.

Local Arguments NewTunnel_hostKeyCB : simpl never.
Local Arguments NewTunnel_auth : simpl never.
Local Arguments NewTunnel : simpl never.
Local Arguments SwitchConnection_tunnel : simpl never.
Local Arguments SwitchConnection_password : simpl never.
Local Arguments SwitchConnection_resolve : simpl never.
Local Arguments SwitchConnection_connect : simpl never.
Local Arguments postgresOpen : simpl never.
Local Arguments count : simpl never.

(** Counting over a segment assembled from the segments of the steps. *)
Ltac use_silent :=
  repeat match goal with
         | H : silent _ |- _ =>
             apply silent_count in H; destruct H as (? & ? & ? & ? & ?)
         end.

Ltac count_tac :=
  use_silent; rewrite ?count_app, ?count_cons, ?count_nil;
  cbn [is_ssh_Dial is_ssh_Dial_ok is_net_Listen is_OpenDB is_PingContext];
  repeat match goal with
         | H : count _ _ = _ |- _ => rewrite H; clear H
         end;
  try lia; try reflexivity.

Lemma NewTunnel_spec (prompter : Prompter W) (tunnel : SSHTunnel.t)
    (host : string) (port : Z) (st : State W) :
  exists r h w seg,
    NewTunnel sys prompter tunnel host port st
      = (r, mk_State (reg st) h w (trace st ++ seg)) /\
    count is_OpenDB seg = 0 /\ count is_PingContext seg = 0 /\
    count is_ssh_Dial seg <= 1 /\ count is_net_Listen seg <= 1 /\
    match r with
    | Ret (inl t) =>
        heap st !! t = None /\ (exists tun, h = <[t := tun]> (heap st)) /\
        count is_ssh_Dial_ok seg = 1
    | _ => h = heap st /\ count is_ssh_Dial_ok seg = 0
    end.
Proof.
  destruct st as [d h w tr].
  unfold NewTunnel, bind at 1, peek. cbn [reg heap world trace].
  destruct (os_UserHomeDir W sys w) as [homedir [e |]].
  { eexists _, _, _, _. split; [reflexivity |]. repeat split; count_tac. }
  unfold bind at 1.
  match goal with
  | |- context [NewTunnel_hostKeyCB W sys ?t ?hd ?s] =>
      destruct (NewTunnel_hostKeyCB_spec t hd s) as (x1 & seg1 & E1 & S1);
      rewrite E1; clear E1
  end.
  unfold after. cbn [reg heap world trace].
  destruct x1 as [hostKeyCB | e].
  2: { eexists _, _, _, _. split; [rewrite <- app_assoc; reflexivity |].
       repeat split; count_tac. }
  unfold bind at 1.
  match goal with
  | |- context [NewTunnel_auth W sys ?t ?hd ?s] =>
      destruct (NewTunnel_auth_spec t hd s) as (x2 & w2 & seg2 & E2 & S2);
      rewrite E2; clear E2
  end.
  unfold after. cbn [reg heap world trace].
  destruct x2 as [auth | e].
  2: { eexists _, _, _, _. split; [rewrite <- !app_assoc; reflexivity |].
       repeat split; count_tac. }
  unfold bind at 1, call at 1. cbn [reg heap world trace].
  destruct (net_Listen W sys w2) as [[l [e |]] w3]; cbn [fst snd].
  { eexists _, _, _, _. split; [rewrite <- !app_assoc; reflexivity |].
    repeat split; count_tac. }
  unfold bind at 1, call_outcome. cbn [reg heap world trace].
  destruct (ssh_Dial W sys _ _ _ w3) as [[[c [e |]] | p] w4].
  - eexists _, _, _, _. split; [rewrite <- !app_assoc; reflexivity |].
    repeat split; count_tac.
  - unfold alloc, bind, get_heap, put_heap, ret. cbn [reg heap world trace].
    eexists _, _, _, _. split; [rewrite <- !app_assoc; reflexivity |].
    repeat split; try count_tac.
    + apply not_elem_of_dom, is_fresh.
    + eexists. reflexivity.
  - eexists _, _, _, _. split; [rewrite <- !app_assoc; reflexivity |].
    repeat split; count_tac.
Qed.

(** Running the monadic glue on an explicit state, without touching the
    maps or the functions of the package. *)
Ltac run :=
  cbv beta iota zeta
      delta [bind ret raise get_reg put_reg get_heap put_heap log peek call
             call_outcome update_reg deref reg heap world trace fst snd].

(** The routine goals of a specification lemma. *)
Ltac routine :=
  split_and!;
  try assumption; try reflexivity; try (count_tac; fail);
  try (intros [? [=]]; fail);
  try (intros ? [=]; fail);
  try (intros ? [= <-]; eauto; fail);
  try (left; split_and!; first [assumption | reflexivity]; fail);
  auto.

Lemma heap_insert_fresh (h : gmap nat Tunnel) (t : nat) (tun : Tunnel) :
  h !! t = None ->
  forall t' tun', h !! t' = Some tun' -> <[t := tun]> h !! t' = Some tun'.
Proof.
  intros Hfresh t' tun' Hl.
  rewrite lookup_insert_ne; [assumption |]. intros ->. congruence.
Qed.

Lemma SwitchConnection_tunnel_spec (conn : Connection.t) (prompter : Prompter W)
    (st : State W) :
  exists r d' h w seg,
    SwitchConnection_tunnel W sys conn prompter st
      = (r, mk_State d' h w (trace st ++ seg)) /\
    cfg d' = cfg (reg st) /\
    activeQueriers d' = activeQueriers (reg st) /\
    current d' = current (reg st) /\
    currentName d' = currentName (reg st) /\
    (forall t tun, heap st !! t = Some tun -> h !! t = Some tun) /\
    count is_OpenDB seg = 0 /\ count is_PingContext seg = 0 /\
    count is_ssh_Dial seg <= 1 /\ count is_net_Listen seg <= 1 /\
    (is_Some (activeTunnels (reg st) !! Connection.Tunnel conn) ->
     seg = [] /\ d' = reg st /\ h = heap st /\ w = world st) /\
    ((activeTunnels d' = activeTunnels (reg st) /\ h = heap st /\
      count is_ssh_Dial_ok seg = 0) \/
     (exists t tun,
        activeTunnels (reg st) !! Connection.Tunnel conn = None /\
        heap st !! t = None /\ h = <[t := tun]> (heap st) /\
        activeTunnels d' =
          <[Connection.Tunnel conn := t]> (activeTunnels (reg st)) /\
        count is_ssh_Dial_ok seg = 1)) /\
    (forall conn', r = Ret (inl conn') ->
       exists host port,
         conn' = Connection.set_Port port (Connection.set_Host host conn)).
Proof.
  destruct st as [d h w tr].
  unfold SwitchConnection_tunnel, bind at 1, get_reg. cbn [reg heap world trace].
  destruct (activeTunnels d !! Connection.Tunnel conn) as [t |] eqn:Hcached.
  - (* the tunnel is cached *)
    run.
    destruct (h !! t) as [tun |] eqn:Ht.
    + destruct (net_SplitHostPort W sys _) as [[localHost localPort] e].
      exists (Ret (inl (Connection.set_Port (fst (strconv_Atoi W sys localPort))
                          (Connection.set_Host localHost conn)))), d, h, w, [].
      rewrite app_nil_r. routine.
    + exists (Panicked nil_dereference), d, h, w, [].
      rewrite app_nil_r. routine.
  - (* the tunnel is established now *)
    unfold bind at 1. unfold bind at 1.
    match goal with
    | |- context [NewTunnel sys ?p ?t ?ho ?po ?s] =>
        destruct (NewTunnel_spec p t ho po s)
          as (r & h1 & w1 & seg1 & E & Hopen & Hping & Hdial & Hlisten & Hr);
        rewrite E; clear E
    end.
    cbn [reg heap world trace] in *.
    destruct r as [[t | e] | p].
    + destruct Hr as (Hfresh & [tun ->] & Hok).
      run.
      rewrite lookup_insert_eq.
      destruct (net_SplitHostPort W sys _) as [[localHost localPort] e].
      eexists _, _, _, _, seg1. split; [reflexivity |].
      routine.
      * now apply heap_insert_fresh.
      * right. exists t, tun. split_and!; first [assumption | reflexivity].
    + destruct Hr as (-> & Hok). run.
      eexists _, _, _, _, seg1. split; [reflexivity |]. routine.
    + destruct Hr as (-> & Hok).
      eexists _, _, _, _, seg1. split; [reflexivity |]. routine.
Qed.

Lemma SwitchConnection_password_spec (conn : Connection.t)
    (prompter : Prompter W) (st : State W) :
  exists r w seg,
    SwitchConnection_password W sys conn prompter st = (r, after st w seg) /\
    silent seg /\
    (forall conn', r = Ret (inl conn') ->
       exists pw, conn' = Connection.set_Password pw conn).
Proof.
  destruct st as [d h w tr].
  unfold SwitchConnection_password, run_prompter, index0. run.
  destruct (decide _).
  - eexists _, _, _. split; [close_state |]. routine.
  - destruct (prompter _ _ _ _ w) as [[answers [e |]] w1].
    + eexists _, _, _. split; [close_state |]. routine.
    + destruct answers as [| a answers];
        eexists _, _, _; (split; [close_state |]); routine.
Qed.

Lemma SwitchConnection_resolve_spec (conn : Connection.t) (prompter : Prompter W)
    (st : State W) :
  exists r d' h w seg,
    SwitchConnection_resolve W sys conn prompter st
      = (r, mk_State d' h w (trace st ++ seg)) /\
    cfg d' = cfg (reg st) /\
    activeQueriers d' = activeQueriers (reg st) /\
    current d' = current (reg st) /\
    currentName d' = currentName (reg st) /\
    (forall t tun, heap st !! t = Some tun -> h !! t = Some tun) /\
    count is_OpenDB seg = 0 /\ count is_PingContext seg = 0 /\
    count is_ssh_Dial seg <= 1 /\ count is_net_Listen seg <= 1 /\
    (Connection.Tunnel conn = "" \/
     is_Some (activeTunnels (reg st) !! Connection.Tunnel conn) ->
     count is_ssh_Dial seg = 0 /\ count is_net_Listen seg = 0 /\
     d' = reg st /\ h = heap st) /\
    ((activeTunnels d' = activeTunnels (reg st) /\ h = heap st /\
      count is_ssh_Dial_ok seg = 0) \/
     (exists t tun,
        Connection.Tunnel conn <> "" /\
        activeTunnels (reg st) !! Connection.Tunnel conn = None /\
        heap st !! t = None /\ h = <[t := tun]> (heap st) /\
        activeTunnels d' =
          <[Connection.Tunnel conn := t]> (activeTunnels (reg st)) /\
        count is_ssh_Dial_ok seg = 1)).
Proof.
  unfold SwitchConnection_resolve, bind at 1.
  destruct (decide (Connection.Tunnel conn <> "")) as [Htun | Htun].
  - destruct (SwitchConnection_tunnel_spec conn prompter st)
      as (r & d1 & h1 & w1 & seg1 & E & Hcfg & Hq & Hcur & Hname & Hheap &
          Hopen & Hping & Hdial & Hlisten & Hcached & Hcase & _).
    rewrite E. clear E.
    assert (Hquiet :
      Connection.Tunnel conn = "" \/
      is_Some (activeTunnels (reg st) !! Connection.Tunnel conn) ->
      seg1 = [] /\ d1 = reg st /\ h1 = heap st).
    { intros [? | Hc]; [contradiction |].
      destruct (Hcached Hc) as (? & ? & ? & ?). auto. }
    assert (Hcase' :
      (activeTunnels d1 = activeTunnels (reg st) /\ h1 = heap st /\
       count is_ssh_Dial_ok seg1 = 0) \/
      (exists t tun,
         Connection.Tunnel conn <> "" /\
         activeTunnels (reg st) !! Connection.Tunnel conn = None /\
         heap st !! t = None /\ h1 = <[t := tun]> (heap st) /\
         activeTunnels d1 =
           <[Connection.Tunnel conn := t]> (activeTunnels (reg st)) /\
         count is_ssh_Dial_ok seg1 = 1)).
    { destruct Hcase as [? | (t & tun & ? & ? & ? & ? & ?)]; [left; assumption |].
      right. exists t, tun. split_and!; assumption. }
    clear Hcase Hcached.
    destruct r as [[conn1 | e] | p].
    + destruct (decide (Connection.Password conn1 = "")).
      * match goal with
        | |- context [SwitchConnection_password W sys ?c ?p ?s] =>
            destruct (SwitchConnection_password_spec c p s)
              as (r2 & w2 & seg2 & E2 & S2 & _);
            rewrite E2; clear E2
        end.
        unfold after. cbn [reg heap world trace].
        eexists _, _, _, _, (seg1 ++ seg2).
        split; [rewrite <- app_assoc; reflexivity |].
        split_and!; try assumption; try (count_tac; fail).
        -- intros Hc. destruct (Hquiet Hc) as (-> & -> & ->).
           split_and!; try reflexivity; count_tac.
        -- destruct Hcase' as [(? & ? & ?) | (t & tun & ? & ? & ? & ? & ? & ?)].
           ++ left. split_and!; try assumption. count_tac.
           ++ right. exists t, tun. split_and!; try assumption. count_tac.
      * run. eexists _, _, _, _, seg1. split; [reflexivity |].
        split_and!; try assumption.
        intros Hc. destruct (Hquiet Hc) as (-> & -> & ->).
        split_and!; reflexivity.
    + run. eexists _, _, _, _, seg1. split; [reflexivity |].
      split_and!; try assumption.
      intros Hc. destruct (Hquiet Hc) as (-> & -> & ->).
      split_and!; reflexivity.
    + eexists _, _, _, _, seg1. split; [reflexivity |].
      split_and!; try assumption.
      intros Hc. destruct (Hquiet Hc) as (-> & -> & ->).
      split_and!; reflexivity.
  - destruct st as [d h w tr]. run.
    destruct (decide (Connection.Password conn = "")).
    + match goal with
      | |- context [SwitchConnection_password W sys ?c ?p ?s] =>
          destruct (SwitchConnection_password_spec c p s)
            as (r2 & w2 & seg2 & E2 & S2 & _);
          rewrite E2; clear E2
      end.
      unfold after. cbn [reg heap world trace].
      eexists _, _, _, _, seg2. split; [reflexivity |].
      split_and!; try reflexivity; try (count_tac; fail); auto;
        try (intros _; split_and!; try reflexivity; count_tac; fail);
        try (left; split_and!; try reflexivity; count_tac; fail).
    + eexists _, _, _, _, []. split; [rewrite app_nil_r; reflexivity |].
      split_and!; try reflexivity; try (count_tac; fail); auto;
        try (left; split_and!; reflexivity).
Qed.

Lemma SwitchConnection_connect_spec (connName : string) (conn : Connection.t)
    (st : State W) :
  exists r d' w seg,
    SwitchConnection_connect W sys connName conn st
      = (r, mk_State d' (heap st) w (trace st ++ seg)) /\
    count is_ssh_Dial seg = 0 /\ count is_ssh_Dial_ok seg = 0 /\
    count is_net_Listen seg = 0 /\
    count is_OpenDB seg <= 1 /\ count is_PingContext seg <= 1 /\
    match r with
    | Ret None =>
        exists db timeout seg0,
          seg = seg0 ++ [ev_PingContext db timeout None] /\
          count is_PingContext seg0 = 0 /\
          count is_OpenDB seg = 1 /\ count is_PingContext seg = 1 /\
          d' = set_currentName connName
                 (set_current (Some (dbMeta db))
                    (set_activeQueriers
                       (<[connName := dbMeta db]> (activeQueriers (reg st)))
                       (reg st)))
    | _ => d' = reg st
    end.
Proof.
  destruct st as [d h w tr].
  unfold SwitchConnection_connect, postgresOpen. run.
  destruct (decide _).
  2: { eexists _, _, _, []. split; [rewrite app_nil_r; reflexivity |].
       split_and!; try reflexivity; count_tac. }
  destruct (pq_NewConnector W sys _ w) as [connector [err |]].
  { eexists _, _, _, _. split; [close_state |].
    split_and!; try reflexivity; count_tac. }
  destruct (sql_OpenDB W sys connector w) as [db w1].
  destruct (db_PingContext W sys db _ _) as [[err |] w2].
  - eexists _, _, _, _. split; [close_state |].
    split_and!; try reflexivity; count_tac.
  - eexists _, _, _, _. split; [close_state |].
    split_and!; try reflexivity; try (count_tac; fail).
    eexists db, _, [_; _; _; _].
    split_and!; try reflexivity; count_tac.
Qed.

Lemma SwitchConnection_unconfigured (name : string) (prompter : Prompter W)
    (st : State W) :
  Connections (cfg (reg st)) !! name = None ->
  DBMan_SwitchConnection sys name prompter st
    = (Ret (Some (errors_New ("'" +:+ name +:+ "' is not a configured connection"))),
       st).
Proof.
  intros H. unfold DBMan_SwitchConnection, bind, get_reg, ret. now rewrite H.
Qed.

Lemma SwitchConnection_cached (name : string) (prompter : Prompter W)
    (st : State W) (conn : Connection.t) (q : metaQuerier) :
  Connections (cfg (reg st)) !! name = Some conn ->
  activeQueriers (reg st) !! name = Some q ->
  DBMan_SwitchConnection sys name prompter st
    = (Ret None,
       mk_State (set_currentName name (set_current (Some q) (reg st)))
                (heap st) (world st) (trace st)).
Proof.
  destruct st as [d h w tr]. cbn [reg heap world trace].
  intros Hc Hq. unfold DBMan_SwitchConnection. run. now rewrite Hc, Hq.
Qed.

Lemma SwitchConnection_uncached (name : string) (prompter : Prompter W)
    (st : State W) (conn : Connection.t) :
  Connections (cfg (reg st)) !! name = Some conn ->
  activeQueriers (reg st) !! name = None ->
  exists r d' h w seg,
    DBMan_SwitchConnection sys name prompter st
      = (r, mk_State d' h w (trace st ++ seg)) /\
    cfg d' = cfg (reg st) /\
    (forall t tun, heap st !! t = Some tun -> h !! t = Some tun) /\
    count is_ssh_Dial seg <= 1 /\ count is_net_Listen seg <= 1 /\
    count is_OpenDB seg <= 1 /\ count is_PingContext seg <= 1 /\
    (Connection.Tunnel conn = "" \/
     is_Some (activeTunnels (reg st) !! Connection.Tunnel conn) ->
     count is_ssh_Dial seg = 0 /\ count is_net_Listen seg = 0 /\
     activeTunnels d' = activeTunnels (reg st) /\ h = heap st) /\
    ((activeTunnels d' = activeTunnels (reg st) /\ h = heap st /\
      count is_ssh_Dial_ok seg = 0) \/
     (exists t tun,
        Connection.Tunnel conn <> "" /\
        activeTunnels (reg st) !! Connection.Tunnel conn = None /\
        heap st !! t = None /\ h = <[t := tun]> (heap st) /\
        activeTunnels d' =
          <[Connection.Tunnel conn := t]> (activeTunnels (reg st)) /\
        count is_ssh_Dial_ok seg = 1)) /\
    match r with
    | Ret None =>
        exists db timeout seg0,
          seg = seg0 ++ [ev_PingContext db timeout None] /\
          count is_PingContext seg0 = 0 /\
          count is_OpenDB seg = 1 /\ count is_PingContext seg = 1 /\
          activeQueriers d' = <[name := dbMeta db]> (activeQueriers (reg st)) /\
          current d' = Some (dbMeta db) /\ currentName d' = name
    | _ =>
        activeQueriers d' = activeQueriers (reg st) /\
        current d' = current (reg st) /\
        currentName d' = currentName (reg st)
    end.
Proof.
  intros Hconn Hnone.
  unfold DBMan_SwitchConnection, bind at 1, get_reg.
  rewrite Hconn, Hnone. unfold bind at 1.
  destruct (SwitchConnection_resolve_spec conn prompter st)
    as (r1 & d1 & h1 & w1 & seg1 & E1 & Hcfg & Hq & Hcur & Hname & Hheap &
        Hopen & Hping & Hdial & Hlisten & Hquiet & Hcase).
  rewrite E1. clear E1.
  assert (Hquiet' :
    Connection.Tunnel conn = "" \/
    is_Some (activeTunnels (reg st) !! Connection.Tunnel conn) ->
    count is_ssh_Dial seg1 = 0 /\ count is_net_Listen seg1 = 0 /\
    activeTunnels d1 = activeTunnels (reg st) /\ h1 = heap st).
  { intros Hc. destruct (Hquiet Hc) as (? & ? & -> & ->). auto. }
  clear Hquiet.
  destruct r1 as [[conn1 | e] | p].
  - match goal with
    | |- context [SwitchConnection_connect W sys ?n ?c ?s] =>
        destruct (SwitchConnection_connect_spec n c s)
          as (r2 & d2 & w2 & seg2 & E2 & Gdial & Gok & Glisten & Gopen &
              Gping & Hr);
        rewrite E2; clear E2
    end.
    cbn [reg heap world trace] in *.
    exists r2, d2, h1, w2, (seg1 ++ seg2).
    split; [rewrite <- app_assoc; reflexivity |].
    assert (Hd2 : cfg d2 = cfg d1 /\ activeTunnels d2 = activeTunnels d1).
    { destruct r2 as [[e |] | p].
      - subst d2. auto.
      - destruct Hr as (db & timeout & seg0 & _ & _ & _ & _ & ->). auto.
      - subst d2. auto. }
    destruct Hd2 as [Hcfg2 Htun2].
    split_and!; try (count_tac; fail).
    + congruence.
    + assumption.
    + intros Hc. destruct (Hquiet' Hc) as (? & ? & ? & ?).
      split_and!; try count_tac; congruence.
    + destruct Hcase as [(? & ? & ?) | (t & tun & ? & ? & ? & ? & ? & ?)].
      * left. split_and!; try count_tac; congruence.
      * right. exists t, tun. split_and!; try assumption; try count_tac.
        congruence.
    + destruct r2 as [[e |] | p].
      * subst d2. auto.
      * destruct Hr as (db & timeout & seg0 & -> & P0 & Popen & Pping & ->).
        exists db, timeout, (seg1 ++ seg0).
        assert (Popen0 : count is_OpenDB seg0 = 1).
        { rewrite count_app, count_cons, count_nil in Popen.
          cbn [is_OpenDB] in Popen. lia. }
        clear Popen Pping Gopen Gping.
        split_and!; try (rewrite ?app_assoc; reflexivity);
          try (count_tac; fail).
        cbn. rewrite Hq. reflexivity.
      * subst d2. auto.
  - run. eexists _, _, _, _, seg1. split; [reflexivity |].
    split_and!; try assumption; try lia.
  - eexists _, _, _, _, seg1. split; [reflexivity |].
    split_and!; try assumption; try lia.
Qed.

Lemma references_spec (c : Config) (name tunnel : string) :
  references c name tunnel = true <->
  exists conn, Connections c !! name = Some conn /\
               Connection.Tunnel conn = tunnel.
Proof.
  unfold references. destruct (Connections c !! name) as [conn |].
  - rewrite bool_decide_eq_true. split.
    + intros <-. eauto.
    + intros (conn' & [= <-] & H). exact H.
  - split; [discriminate | intros (? & [=] & _)].
Qed.

(** What every call of SwitchConnection does to the caches, whatever its
    result. *)
Lemma SwitchConnection_step (name : string) (prompter : Prompter W)
    (st : State W) :
  exists r d' h w seg,
    DBMan_SwitchConnection sys name prompter st
      = (r, mk_State d' h w (trace st ++ seg)) /\
    cfg d' = cfg (reg st) /\
    (forall n q, activeQueriers (reg st) !! n = Some q ->
                 activeQueriers d' !! n = Some q) /\
    (forall tn t, activeTunnels (reg st) !! tn = Some t ->
                  activeTunnels d' !! tn = Some t) /\
    (forall t tun, heap st !! t = Some tun -> h !! t = Some tun) /\
    (forall tn, references (cfg (reg st)) name tn = true ->
                is_Some (activeTunnels (reg st) !! tn) ->
                count is_ssh_Dial seg = 0 /\ count is_net_Listen seg = 0) /\
    (forall tn, references (cfg (reg st)) name tn = true ->
                0 < count is_ssh_Dial_ok seg ->
                is_Some (activeTunnels d' !! tn)) /\
    (tunnels_allocated st ->
     tunnels_allocated (mk_State d' h w (trace st ++ seg))) /\
    count is_ssh_Dial seg <= 1 /\ count is_net_Listen seg <= 1.
Proof.
  destruct (Connections (cfg (reg st)) !! name) as [conn |] eqn:Hconn.
  2: { rewrite (SwitchConnection_unconfigured name prompter st Hconn).
       destruct st as [d h w tr]. cbn [reg heap world trace] in *.
       eexists _, d, h, w, []. rewrite app_nil_r.
       split; [reflexivity |]. split_and!; auto.
       intros tn _ Hpos. rewrite count_nil in Hpos. lia. }
  destruct (activeQueriers (reg st) !! name) as [q |] eqn:Hq.
  { rewrite (SwitchConnection_cached name prompter st conn q Hconn Hq).
    destruct st as [d h w tr]. cbn [reg heap world trace] in *.
    eexists _, _, h, w, []. rewrite app_nil_r.
    split; [reflexivity |]. split_and!; auto.
    intros tn _ Hpos. rewrite count_nil in Hpos. lia. }
  destruct (SwitchConnection_uncached name prompter st conn Hconn Hq)
    as (r & d' & h & w & seg & E & Hcfg & Hheap & Hdial & Hlisten & Hopen &
        Hping & Hquiet & Hcase & Hr).
  exists r, d', h, w, seg. split; [exact E |].
  assert (Htunnels : forall tn t, activeTunnels (reg st) !! tn = Some t ->
                                  activeTunnels d' !! tn = Some t).
  { intros tn t Ht.
    destruct Hcase as [(-> & _) | (t' & tun & _ & Hnone & _ & _ & -> & _)];
      [assumption |].
    rewrite lookup_insert_ne; [assumption |]. intros <-. congruence. }
  split_and!; try assumption.
  - intros n q Hn. destruct r as [[e |] | p].
    + destruct Hr as (-> & _). assumption.
    + destruct Hr as (db & timeout & seg0 & _ & _ & _ & _ & -> & _).
      rewrite lookup_insert_ne; [assumption |]. intros <-. congruence.
    + destruct Hr as (-> & _). assumption.
  - intros tn Href Hcached. apply references_spec in Href.
    destruct Href as (c & Hc & <-). assert (c = conn) as -> by congruence.
    destruct (Hquiet (or_intror Hcached)) as (? & ? & _). auto.
  - intros tn Href Hpos. apply references_spec in Href.
    destruct Href as (c & Hc & <-). assert (c = conn) as -> by congruence.
    destruct Hcase as [(_ & _ & H0) | (t & tun & _ & _ & _ & _ & -> & _)];
      [lia |].
    rewrite lookup_insert_eq. eauto.
  - intros Halloc tn t. cbn [reg heap].
    destruct Hcase
      as [(-> & -> & _) | (t' & tun & _ & _ & Hfresh & -> & -> & _)].
    + apply Halloc.
    + destruct (decide (Connection.Tunnel conn = tn)) as [<- | Hne].
      * rewrite lookup_insert_eq. intros [= <-].
        rewrite lookup_insert_eq. eauto.
      * rewrite lookup_insert_ne by assumption. intros Ht.
        destruct (Halloc tn t Ht) as [tun' Htun'].
        exists tun'. apply heap_insert_fresh; assumption.
Qed.

Lemma events_of_run {A} (m : M W A) (st : State W) (r : Outcome A)
    (d : DBMan) (h : gmap nat Tunnel) (w : W) (seg : list Event) :
  m st = (r, mk_State d h w (trace st ++ seg)) -> events_of m st = seg.
Proof.
  intros E. unfold events_of. rewrite E. cbn [snd trace].
  now rewrite drop_app_length.
Qed.

Lemma switch_all_mono (calls : list (string * Prompter W)) (st : State W) :
  cfg (reg (switch_all sys calls st)) = cfg (reg st) /\
  (forall n q, activeQueriers (reg st) !! n = Some q ->
               activeQueriers (reg (switch_all sys calls st)) !! n = Some q) /\
  (forall tn t, activeTunnels (reg st) !! tn = Some t ->
                activeTunnels (reg (switch_all sys calls st)) !! tn = Some t) /\
  (forall t tun, heap st !! t = Some tun ->
                 heap (switch_all sys calls st) !! t = Some tun) /\
  (tunnels_allocated st -> tunnels_allocated (switch_all sys calls st)).
Proof.
  revert st. induction calls as [| [name prompter] calls IH]; intros st.
  - cbn. auto.
  - cbn [switch_all].
    destruct (SwitchConnection_step name prompter st)
      as (r & d' & h & w & seg & E & Hcfg & Hq & Ht & Hh & _ & _ & Ha & _).
    rewrite E. cbn [snd].
    destruct (IH (mk_State d' h w (trace st ++ seg)))
      as (Icfg & Iq & It & Ih & Ia).
    cbn [reg heap] in *.
    split_and!; [congruence | auto | auto | auto | auto].
Qed.

(** C1 (amended).  For a configured connection that is not cached, a
    SwitchConnection that does not succeed (it returns an error, or panics)
    leaves the connection cache, the current connection, its name and the
    configuration as they were; a successful one registers the handle and
    makes it current, and its last call to the outside is the ping that
    succeeded.  The tunnel cache is not covered: it is unchanged exactly when
    no bastion session was established during the call, and otherwise holds
    the new tunnel under the connection's tunnel name, whatever happened
    afterwards. *)
Theorem SwitchConnection_failure_keeps_connections (name : string)
    (prompter : Prompter W) (st : State W) (conn : Connection.t) :
  Connections (cfg (reg st)) !! name = Some conn ->
  activeQueriers (reg st) !! name = None ->
  let r := fst (DBMan_SwitchConnection sys name prompter st) in
  let st' := snd (DBMan_SwitchConnection sys name prompter st) in
  let seg := events_of (DBMan_SwitchConnection sys name prompter) st in
  trace st' = trace st ++ seg /\
  cfg (reg st') = cfg (reg st) /\
  (r <> Ret None ->
   activeQueriers (reg st') = activeQueriers (reg st) /\
   current (reg st') = current (reg st) /\
   currentName (reg st') = currentName (reg st)) /\
  (r = Ret None ->
   exists db timeout seg0,
     seg = seg0 ++ [ev_PingContext db timeout None] /\
     count is_PingContext seg0 = 0 /\
     activeQueriers (reg st') = <[name := dbMeta db]> (activeQueriers (reg st)) /\
     current (reg st') = Some (dbMeta db) /\
     currentName (reg st') = name) /\
  ((count is_ssh_Dial_ok seg = 0 /\
    activeTunnels (reg st') = activeTunnels (reg st)) \/
   (count is_ssh_Dial_ok seg = 1 /\
    activeTunnels (reg st) !! Connection.Tunnel conn = None /\
    exists t, heap st !! t = None /\
              activeTunnels (reg st') =
                <[Connection.Tunnel conn := t]> (activeTunnels (reg st)))).
Proof.
  intros Hconn Hq.
  destruct (SwitchConnection_uncached name prompter st conn Hconn Hq)
    as (r & d' & h & w & seg & E & Hcfg & Hheap & Hdial & Hlisten & Hopen &
        Hping & Hquiet & Hcase & Hr).
  cbv zeta. rewrite (events_of_run _ _ _ _ _ _ _ E). rewrite E.
  cbn [fst snd reg heap world trace].
  split_and!; try reflexivity; try assumption.
  - intros Hfail. destruct r as [[e |] | p]; [assumption | congruence | assumption].
  - intros ->. destruct Hr as (db & timeout & seg0 & ? & ? & _ & _ & ? & ? & ?).
    exists db, timeout, seg0. auto.
  - destruct Hcase as [(? & ? & ?) | (t & tun & _ & ? & ? & _ & ? & ?)].
    + left. auto.
    + right. split_and!; try assumption. exists t. auto.
Qed.

(** C2.  A switch to a cached name only reassigns the current connection:
    it returns nil, calls nothing outside the package and changes neither
    the world, nor the heap, nor the caches.  After a successful switch to a
    name that was not cached, the name is cached, and it stays cached with
    the same handle through any later sequence of switches, so that every
    later switch to it is such a reassignment; the one that follows at once
    leaves the state as it is.  The first switch opened one database and
    pinged once; the second did neither. *)
Theorem SwitchConnection_twice_dials_once (name : string) (st : State W) :
  (forall (prompter : Prompter W) conn q,
     Connections (cfg (reg st)) !! name = Some conn ->
     activeQueriers (reg st) !! name = Some q ->
     DBMan_SwitchConnection sys name prompter st
       = (Ret None,
          mk_State (set_currentName name (set_current (Some q) (reg st)))
                   (heap st) (world st) (trace st))) /\
  (forall (prompter : Prompter W) st1,
     activeQueriers (reg st) !! name = None ->
     DBMan_SwitchConnection sys name prompter st = (Ret None, st1) ->
     count is_OpenDB (events_of (DBMan_SwitchConnection sys name prompter) st) = 1 /\
     count is_PingContext (events_of (DBMan_SwitchConnection sys name prompter) st) = 1 /\
     exists q,
       activeQueriers (reg st1) !! name = Some q /\
       current (reg st1) = Some q /\
       (forall prompter', DBMan_SwitchConnection sys name prompter' st1 = (Ret None, st1)) /\
       (forall prompter',
          events_of (DBMan_SwitchConnection sys name prompter') st1 = []) /\
       (forall calls prompter',
          let st2 := switch_all sys calls st1 in
          DBMan_SwitchConnection sys name prompter' st2
            = (Ret None,
               mk_State (set_currentName name (set_current (Some q) (reg st2)))
                        (heap st2) (world st2) (trace st2)))).
Proof.
  split.
  - intros prompter conn q Hconn Hq. now apply SwitchConnection_cached with conn.
  - intros prompter st1 Hq Hrun.
    destruct (Connections (cfg (reg st)) !! name) as [conn |] eqn:Hconn.
    2: { rewrite (SwitchConnection_unconfigured name prompter st Hconn) in Hrun.
         discriminate. }
    destruct (SwitchConnection_uncached name prompter st conn Hconn Hq)
      as (r & d' & h & w & seg & E & Hcfg & _ & _ & _ & _ & _ & _ & _ & Hr).
    rewrite (events_of_run _ _ _ _ _ _ _ E).
    rewrite E in Hrun. injection Hrun as -> <-.
    destruct Hr as (db & timeout & seg0 & _ & _ & Hopen & Hping & Hreg & Hcur & Hname).
    split; [assumption |]. split; [assumption |].
    exists (dbMeta db). cbn [reg heap world trace].
    assert (Hcached : activeQueriers d' !! name = Some (dbMeta db)).
    { rewrite Hreg. apply lookup_insert_eq. }
    assert (Hconn' : Connections (cfg d') !! name = Some conn) by congruence.
    assert (Hsame : forall prompter',
      DBMan_SwitchConnection sys name prompter'
        (mk_State d' h w (trace st ++ seg))
      = (Ret None, mk_State d' h w (trace st ++ seg))).
    { intros prompter'.
      rewrite (SwitchConnection_cached name prompter' _ conn (dbMeta db));
        [| assumption | assumption].
      cbn [reg heap world trace]. do 2 f_equal.
      destruct d'. cbn in *. subst. reflexivity. }
    split_and!; try assumption.
    + intros prompter'. unfold events_of. rewrite Hsame. cbn [snd].
      now rewrite drop_all.
    + intros calls prompter'. cbv zeta.
      destruct (switch_all_mono calls (mk_State d' h w (trace st ++ seg)))
        as (Icfg & Iq & _).
      cbn [reg] in *.
      apply SwitchConnection_cached with conn.
      * rewrite Icfg. assumption.
      * apply Iq. assumption.
Qed.

(** C9.  Whatever SwitchConnection does and however it ends, the
    configuration of the registry after the call is the configuration
    before it: the connection stored under the name is the one that was
    stored, with its host, port and password. *)
Theorem SwitchConnection_keeps_config (name : string) (prompter : Prompter W)
    (st : State W) :
  cfg (reg (snd (DBMan_SwitchConnection sys name prompter st))) = cfg (reg st) /\
  (forall n conn,
     Connections (cfg (reg st)) !! n = Some conn ->
     Connections (cfg (reg (snd (DBMan_SwitchConnection sys name prompter st)))) !! n
       = Some conn).
Proof.
  destruct (SwitchConnection_step name prompter st)
    as (r & d' & h & w & seg & E & Hcfg & _).
  rewrite E. cbn [snd reg]. split; [assumption |].
  intros n conn. now rewrite Hcfg.
Qed.

Lemma switch_log_establishments (c : Config) (tn : string)
    (calls : list (string * Prompter W)) (st : State W) :
  cfg (reg st) = c ->
  length (establishments c tn (switch_log sys calls st)) <= 1 /\
  (is_Some (activeTunnels (reg st) !! tn) ->
   establishments c tn (switch_log sys calls st) = [] /\
   Forall (reuses c tn) (switch_log sys calls st)) /\
  Forall (fun entry => count is_ssh_Dial (snd entry) <= 1 /\
                       count is_net_Listen (snd entry) <= 1)
         (switch_log sys calls st).
Proof.
  revert st. induction calls as [| [name prompter] calls IH]; intros st Hc.
  - cbn. split_and!; [lia | intros _; split; constructor | constructor].
  - cbn [switch_log].
    destruct (SwitchConnection_step name prompter st)
      as (r & d' & h & w & seg & E & Hcfg & _ & Ht & _ & Hreuse & Hestab & _ &
          Hdial & Hlisten).
    rewrite (events_of_run _ _ _ _ _ _ _ E). rewrite E. cbn [snd].
    destruct (IH (mk_State d' h w (trace st ++ seg))) as (IA & IB & IC).
    { cbn [reg]. congruence. }
    cbn [reg] in IB. rewrite Hc in *.
    unfold establishments in *. cbn [List.filter fst snd].
    split_and!.
    + destruct (references c name tn) eqn:Href; cbn [andb]; [| exact IA].
      destruct (Nat.ltb 0 (count is_ssh_Dial_ok seg)) eqn:Hpos; [| exact IA].
      apply Nat.ltb_lt in Hpos.
      destruct (IB (Hestab tn Href Hpos)) as (-> & _). cbn. lia.
    + intros Hcached.
      assert (Hcached' : is_Some (activeTunnels d' !! tn)).
      { destruct Hcached as [t Hsome]. exists t. now apply Ht. }
      destruct (IB Hcached') as (-> & Hall).
      split.
      * destruct (references c name tn) eqn:Href; cbn [andb]; [| reflexivity].
        destruct (Hreuse tn Href Hcached) as (Hd & _).
        pose proof (count_ok_le_dial seg) as Hle.
        assert (count is_ssh_Dial_ok seg = 0) as -> by lia. reflexivity.
      * constructor; [| exact Hall].
        intros Href. cbn [fst snd] in *. exact (Hreuse tn Href Hcached).
    + constructor; [cbn [snd]; split; assumption | exact IC].
Qed.

(** C3 (amended).  Over any sequence of SwitchConnection calls on one
    registry and for any tunnel name: at most one of the calls that name a
    connection of that tunnel gets a session from a dial of the bastion;
    every call dials at most once and opens at most one listener.  Once the
    name is in the tunnel cache, no call that names a connection of that
    tunnel dials or listens; the cache keeps the name on the same tunnel,
    and the tunnel keeps its session and its listener.  (A dial that fails
    is not cached: the next call that needs the tunnel dials again.) *)
Theorem tunnel_established_at_most_once (calls : list (string * Prompter W))
    (st : State W) (tn : string) :
  let c := cfg (reg st) in
  let entries := switch_log sys calls st in
  length (establishments c tn entries) <= 1 /\
  Forall (fun entry => count is_ssh_Dial (snd entry) <= 1 /\
                       count is_net_Listen (snd entry) <= 1) entries /\
  (forall t,
     activeTunnels (reg st) !! tn = Some t ->
     establishments c tn entries = [] /\
     Forall (reuses c tn) entries /\
     activeTunnels (reg (switch_all sys calls st)) !! tn = Some t /\
     (forall tun, heap st !! t = Some tun ->
                  heap (switch_all sys calls st) !! t = Some tun)).
Proof.
  cbv zeta.
  destruct (switch_log_establishments (cfg (reg st)) tn calls st eq_refl)
    as (HA & HB & HC).
  destruct (switch_all_mono calls st) as (_ & _ & Ht & Hh & _).
  split_and!; [exact HA | exact HC |].
  intros t Hcached. destruct (HB (ex_intro _ t Hcached)) as (HE & HR).
  split_and!; auto.
Qed.

End Switch.

(** ** A prompter that answers nothing *)

Section Panics.

Variable W : Type.
Variable sys : Sys W.

Local Arguments SwitchConnection_tunnel : simpl never.

(** C10.  SwitchConnection takes the first answer of the prompter without
    looking at the number of answers: for a configured connection that is
    not cached and has an empty password, once the tunnel step is behind
    (no tunnel, or the tunnel step returned the rewritten connection),
    with PGPASSWORD empty or unset, a prompter that returns no error and no
    answer makes SwitchConnection panic on index 0 of an empty slice.  The
    private-key callback of a tunnel does the same with the answers to the
    passphrase prompt. *)
Theorem empty_answers_panic :
  (forall name (prompter : Prompter W) st conn conn' st1,
     Connections (cfg (reg st)) !! name = Some conn ->
     activeQueriers (reg st) !! name = None ->
     Connection.Password conn = "" ->
     (Connection.Tunnel conn = "" /\ conn' = conn /\ st1 = st \/
      Connection.Tunnel conn <> "" /\
      SwitchConnection_tunnel W sys conn prompter st = (Ret (inl conn'), st1)) ->
     os_Getenv W sys "PGPASSWORD" (world st1) = "" ->
     fst (prompter "" "" ["database password: "] [false] (world st1)) = ([], None) ->
     fst (DBMan_SwitchConnection sys name prompter st)
       = Panicked (index_out_of_range 0 0)) /\
  (forall (prompter : Prompter W) tunnel buf st signer e,
     ssh_ParsePrivateKey W sys buf = (signer, Some e) ->
     errors_As_PassphraseMissing e = true ->
     SSHTunnel.PrivateKeyPassphrase tunnel = "" ->
     fst (prompter (SSHTunnel.Host tunnel) "private key is encrypted"
            ["private key passphrase: "] [false] (world st)) = ([], None) ->
     fst (privateKeySigners W sys prompter tunnel buf st)
       = Panicked (index_out_of_range 0 0)).
Proof.
  split.
  - intros name prompter st conn conn' st1 Hconn Hq Hpw Htun Henv Hprompt.
    assert (Hresolve :
      fst (SwitchConnection_resolve W sys conn prompter st)
        = Panicked (index_out_of_range 0 0)).
    { assert (Hpw' : Connection.Password conn' = "").
      { destruct Htun as [(_ & -> & _) | (_ & Hrun)]; [assumption |].
        destruct (SwitchConnection_tunnel_spec W sys conn prompter st)
          as (r & d' & h & w & seg & E & _ & _ & _ & _ & _ & _ & _ & _ & _ &
              _ & _ & Hrel).
        rewrite E in Hrun. injection Hrun as -> _.
        destruct (Hrel conn' eq_refl) as (host & port & ->). exact Hpw. }
      assert (Hpass :
        fst (SwitchConnection_password W sys conn' prompter st1)
          = Panicked (index_out_of_range 0 0)).
      { destruct st1 as [d1 h1 w1 tr1]. cbn [world] in *.
        unfold SwitchConnection_password, run_prompter, index0.
        cbv beta iota zeta
            delta [bind ret raise peek call reg heap world trace fst snd].
        rewrite Henv. destruct (decide ("" <> "")) as [Hne | _]; [congruence |].
        destruct (prompter "" "" ["database password: "] [false] w1)
          as [[answers err] w2].
        cbn [fst] in Hprompt. injection Hprompt as -> ->. reflexivity. }
      unfold SwitchConnection_resolve, bind at 1.
      destruct Htun as [(Hnone & -> & ->) | (Hsome & Hrun)].
      - destruct (decide (Connection.Tunnel conn <> "")); [congruence |].
        unfold ret. destruct (decide (Connection.Password conn = ""));
          [exact Hpass | congruence].
      - destruct (decide (Connection.Tunnel conn <> "")); [| contradiction].
        rewrite Hrun. destruct (decide (Connection.Password conn' = ""));
          [exact Hpass | congruence]. }
    unfold DBMan_SwitchConnection, bind at 1, get_reg.
    rewrite Hconn, Hq. unfold bind at 1.
    destruct (SwitchConnection_resolve W sys conn prompter st) as [r st2].
    cbn [fst] in Hresolve. now rewrite Hresolve.
  - intros prompter tunnel buf st signer e Hparse Has Hpass Hprompt.
    destruct st as [d h w tr]. cbn [world] in *.
    unfold privateKeySigners. rewrite Hparse, Has. cbn [negb].
    destruct (decide (SSHTunnel.PrivateKeyPassphrase tunnel <> ""));
      [congruence |].
    unfold promptNumRetries. cbn [passphrase_loop].
    unfold run_prompter, index0.
    cbv beta iota zeta
        delta [bind ret raise peek call reg heap world trace fst snd].
    destruct (prompter _ _ _ _ w) as [[answers err] w2].
    cbn [fst] in Hprompt. injection Hprompt as -> ->. reflexivity.
Qed.

End Panics.

(** ** Close *)

Section Teardown.

Variable W : Type.
Variable sys : Sys W.

Lemma occurs_before_last (e1 e2 : Event) (seg : list Event) :
  e1 ∈ seg -> occurs_before e1 e2 (seg ++ [e2]).
Proof.
  intros Hin. apply list_elem_of_split in Hin. destruct Hin as (l1 & l2 & ->).
  exists l1, l2, []. now rewrite <- app_assoc.
Qed.

Lemma occurs_before_within (e1 e2 : Event) (pre seg post : list Event) :
  occurs_before e1 e2 seg -> occurs_before e1 e2 (pre ++ seg ++ post).
Proof.
  intros (l1 & l2 & l3 & ->). exists (pre ++ l1), l2, (l3 ++ post).
  rewrite <- !app_assoc. cbn. rewrite <- !app_assoc. reflexivity.
Qed.

Lemma close_connections_spec (cls : list Closer) (st : State W) :
  exists w seg,
    close_connections W sys cls st
      = (Ret tt, mk_State (reg st) (heap st) w (trace st ++ seg)) /\
    (forall c, c ∈ cls -> exists err, ev_Closer_Close c err ∈ seg).
Proof.
  revert st. induction cls as [| cl cls IH]; intros [d h w tr].
  - exists w, []. cbn. rewrite app_nil_r. split; [reflexivity |].
    intros c Hc. inversion Hc.
  - cbn [close_connections].
    cbv beta iota zeta delta [bind call reg heap world trace fst snd].
    destruct (closer_Close W sys cl w) as [err w1].
    destruct (IH (mk_State d h w1 (tr ++ [ev_Closer_Close cl err])))
      as (w2 & seg & E & Hall).
    rewrite E. cbn [reg heap world trace].
    exists w2, (ev_Closer_Close cl err :: seg).
    split; [now rewrite <- app_assoc |].
    intros c Hc. apply elem_of_cons in Hc. destruct Hc as [-> | Hc].
    + exists err. left.
    + destruct (Hall c Hc) as [err' Hin]. exists err'. now right.
Qed.

Lemma Tunnel_Close_spec (t : nat) (tun : Tunnel) (st : State W) :
  heap st !! t = Some tun ->
  exists w seg err,
    Tunnel_Close sys t st
      = (Ret err,
         mk_State (reg st) (heap st) w
           (trace st ++ seg ++ [ev_Listener_Close (localConn tun) err])) /\
    (forall c, c ∈ connections tun -> exists err', ev_Closer_Close c err' ∈ seg).
Proof.
  destruct st as [d h w tr]. cbn [reg heap world trace]. intros Ht.
  unfold Tunnel_Close.
  cbv beta iota zeta delta [bind ret deref get_heap reg heap world trace].
  rewrite Ht.
  destruct (close_connections_spec (connections tun) (mk_State d h w tr))
    as (w1 & seg & E & Hall).
  rewrite E. cbn [reg heap world trace].
  unfold call. cbn [reg heap world trace].
  destruct (listener_Close W sys (localConn tun) w1) as [err w2].
  exists w2, seg, err. split; [now rewrite <- app_assoc | exact Hall].
Qed.

Lemma torn_down_within (tun : Tunnel) (pre seg post : list Event) :
  torn_down tun seg -> torn_down tun (pre ++ seg ++ post).
Proof.
  intros (err & Hin & Hall). exists err. split.
  - rewrite !elem_of_app. auto.
  - intros c Hc. destruct (Hall c Hc) as [err' Hb]. exists err'.
    now apply occurs_before_within.
Qed.

Lemma close_tunnels_spec (ts : list (string * nat)) (st : State W) :
  (forall n t, (n, t) ∈ ts -> is_Some (heap st !! t)) ->
  exists w seg,
    close_tunnels W sys ts st
      = (Ret tt, mk_State (reg st) (heap st) w (trace st ++ seg)) /\
    (forall n t tun, (n, t) ∈ ts -> heap st !! t = Some tun -> torn_down tun seg).
Proof.
  revert st. induction ts as [| [n0 t0] ts IH]; intros st Halloc.
  - destruct st as [d h w tr]. exists w, []. cbn. rewrite app_nil_r.
    split; [reflexivity |]. intros n t tun Hin. inversion Hin.
  - cbn [close_tunnels]. unfold bind at 1.
    destruct (Halloc n0 t0) as [tun0 Ht0]; [left |].
    destruct (Tunnel_Close_spec t0 tun0 st Ht0) as (w1 & seg1 & err & E & Hall).
    rewrite E.
    destruct (IH (mk_State (reg st) (heap st) w1
                    (trace st ++ seg1 ++ [ev_Listener_Close (localConn tun0) err])))
      as (w2 & seg2 & E2 & Hrest).
    { cbn [heap]. intros n t Hin. apply (Halloc n t). now right. }
    rewrite E2. cbn [reg heap world trace] in *.
    exists w2, ((seg1 ++ [ev_Listener_Close (localConn tun0) err]) ++ seg2).
    split; [now rewrite <- !app_assoc |].
    intros n t tun Hin Ht. apply elem_of_cons in Hin.
    destruct Hin as [[= -> ->] | Hin].
    + assert (tun = tun0) as -> by congruence.
      apply (torn_down_within tun0 []
               (seg1 ++ [ev_Listener_Close (localConn tun0) err]) seg2).
      exists err. split; [rewrite elem_of_app; right; left |].
      intros c Hc. destruct (Hall c Hc) as [err' Hin']. exists err'.
      now apply occurs_before_last.
    + pose proof (Hrest n t tun Hin Ht) as Htd.
      apply (torn_down_within tun
               (seg1 ++ [ev_Listener_Close (localConn tun0) err]) seg2 []) in Htd.
      now rewrite app_nil_r in Htd.
Qed.

Lemma close_queriers_spec (qs : list (string * metaQuerier)) (st : State W) :
  exists w seg,
    close_queriers W sys qs st
      = (Ret tt, mk_State (reg st) (heap st) w (trace st ++ seg)) /\
    (forall n db, (n, dbMeta db) ∈ qs -> exists err, ev_DB_Close db err ∈ seg).
Proof.
  revert st. induction qs as [| [n0 [db0]] qs IH]; intros [d h w tr].
  - exists w, []. cbn. rewrite app_nil_r. split; [reflexivity |].
    intros n db Hin. inversion Hin.
  - cbn [close_queriers].
    cbv beta iota zeta delta [bind call reg heap world trace fst snd].
    destruct (db_Close W sys db0 w) as [err w1].
    destruct (IH (mk_State d h w1 (tr ++ [ev_DB_Close db0 err])))
      as (w2 & seg & E & Hall).
    rewrite E. cbn [reg heap world trace].
    exists w2, (ev_DB_Close db0 err :: seg).
    split; [now rewrite <- app_assoc |].
    intros n db Hin. apply elem_of_cons in Hin. destruct Hin as [[= -> ->] | Hin].
    + exists err. left.
    + destruct (Hall n db Hin) as [err' Hin']. exists err'. now right.
Qed.

(** C8.  Whatever the individual close calls return, Close returns nil
    without panicking, having closed every cached connection and every
    active tunnel: the handle of every entry of the connection cache is
    closed, the listener of every tunnel of the tunnel cache is closed, and
    each forwarded connection that a tunnel tracks is closed before that
    tunnel's listener.  Close leaves the registry and the tunnels as they
    are; Tunnel.Close returns what closing the listener returned. *)
Theorem Close_is_unconditional (st : State W) :
  (forall (A : Type) (m : gmap string A) (w : W),
     map_range W sys A m w ≡ₚ map_to_list m) ->
  tunnels_allocated st ->
  (exists w seg,
     DBMan_Close sys st
       = (Ret None, mk_State (reg st) (heap st) w (trace st ++ seg)) /\
     (forall name db,
        activeQueriers (reg st) !! name = Some (dbMeta db) ->
        exists err, ev_DB_Close db err ∈ seg) /\
     (forall name t tun,
        activeTunnels (reg st) !! name = Some t ->
        heap st !! t = Some tun ->
        torn_down tun seg)) /\
  (forall t tun,
     heap st !! t = Some tun ->
     exists w seg err,
       Tunnel_Close sys t st
         = (Ret err,
            mk_State (reg st) (heap st) w
              (trace st ++ seg ++ [ev_Listener_Close (localConn tun) err])) /\
       (forall c, c ∈ connections tun ->
                  exists err', ev_Closer_Close c err' ∈ seg)).
Proof.
  intros Hrange Halloc. split; [| intros t tun; apply Tunnel_Close_spec].
  unfold DBMan_Close, bind at 1, get_reg.
  unfold bind at 1, range_over. unfold bind at 1.
  destruct (close_queriers_spec
              (map_range W sys metaQuerier (activeQueriers (reg st)) (world st)) st)
    as (w1 & seg1 & E1 & Hq).
  rewrite E1. clear E1.
  unfold bind at 1. cbn [reg heap world trace].
  unfold bind at 1.
  match goal with
  | |- context [close_tunnels W sys ?ts ?s] =>
      destruct (close_tunnels_spec ts s) as (w2 & seg2 & E2 & Ht)
  end.
  { cbn [heap]. intros n t Hin. rewrite (Hrange _ _ _) in Hin.
    apply elem_of_map_to_list in Hin. exact (Halloc n t Hin). }
  rewrite E2. clear E2. cbn [reg heap world trace] in *.
  exists w2, (seg1 ++ seg2). split; [unfold ret; now rewrite <- app_assoc |].
  split.
  - intros name db Hl. destruct (Hq name db) as [err Hin].
    { rewrite (Hrange _ _ _). now apply elem_of_map_to_list. }
    exists err. rewrite elem_of_app. now left.
  - intros name t tun Hl Hh.
    assert (Htd : torn_down tun seg2).
    { apply (Ht name t tun); [| exact Hh].
      rewrite (Hrange _ _ _). now apply elem_of_map_to_list. }
    apply (torn_down_within tun seg1 seg2 []) in Htd.
    now rewrite app_nil_r in Htd.
Qed.

End Teardown.

(** ** The properties on concrete runs *)

Lemma SwitchConnection_failure_keeps_connections_witness :
  let st := Script.init ex_ping_fails in
  let st' := snd (DBMan_SwitchConnection Script.sys "a" Script.prompter st) in
  activeQueriers (reg st') = activeQueriers (reg st) /\
  current (reg st') = current (reg st) /\
  currentName (reg st') = currentName (reg st).
Proof.
  cbv zeta.
  refine (proj1 (proj2 (proj2
            (SwitchConnection_failure_keeps_connections Script.World Script.sys
               "a" Script.prompter (Script.init ex_ping_fails) Script.conn_a
               _ _))) _).
  - vm_compute. reflexivity.
  - reflexivity.
  - vm_compute. discriminate.
Defined.

(** C1, as stated, fails for the tunnel cache: the switch to [a] establishes
    the tunnel [bastion], then the ping fails; SwitchConnection returns the
    error, and the tunnel cache, empty before the call, holds the tunnel. *)
Lemma SwitchConnection_failure_keeps_tunnel :
  let st := Script.init ex_ping_fails in
  let r := DBMan_SwitchConnection Script.sys "a" Script.prompter st in
  fst r = Ret (Some (fmt_Errorf_w "failed to connect to database instance"
                       (ext_error 1))) /\
  activeTunnels (reg st) !! "bastion" = None /\
  activeTunnels (reg (snd r)) !! "bastion" = Some 0 /\
  activeTunnels (reg (snd r)) <> activeTunnels (reg st).
Proof.
  cbv zeta. split_and!.
  - vm_compute. reflexivity.
  - reflexivity.
  - vm_compute. reflexivity.
  - intros Heq.
    assert (H : activeTunnels
                  (reg (snd (DBMan_SwitchConnection Script.sys "a"
                               Script.prompter (Script.init ex_ping_fails))))
                !! "bastion" = None).
    { rewrite Heq. reflexivity. }
    vm_compute in H. discriminate.
Qed.

Lemma SwitchConnection_twice_dials_once_witness :
  let st1 := snd (DBMan_SwitchConnection Script.sys "a" Script.prompter
                    (Script.init Script.quiet)) in
  count is_OpenDB
    (events_of (DBMan_SwitchConnection Script.sys "a" Script.prompter)
       (Script.init Script.quiet)) = 1 /\
  count is_PingContext
    (events_of (DBMan_SwitchConnection Script.sys "a" Script.prompter)
       (Script.init Script.quiet)) = 1 /\
  DBMan_SwitchConnection Script.sys "a" Script.prompter st1 = (Ret None, st1) /\
  events_of (DBMan_SwitchConnection Script.sys "a" Script.prompter) st1 = [].
Proof.
  cbv zeta.
  destruct (proj2 (SwitchConnection_twice_dials_once Script.World Script.sys "a"
                     (Script.init Script.quiet))
              Script.prompter
              (snd (DBMan_SwitchConnection Script.sys "a" Script.prompter
                      (Script.init Script.quiet))))
    as (Hopen & Hping & q & _ & _ & Hsame & Hnone & _).
  - reflexivity.
  - vm_compute. reflexivity.
  - split_and!; [exact Hopen | exact Hping | apply Hsame | apply Hnone].
Defined.

Lemma tunnel_established_at_most_once_witness :
  let st1 := snd (DBMan_SwitchConnection Script.sys "a" Script.prompter
                    (Script.init Script.quiet)) in
  let calls := [("b", Script.prompter); ("c", Script.prompter);
                ("a", Script.prompter); ("b", Script.prompter)] in
  establishments Script.config "bastion" (switch_log Script.sys calls st1) = [] /\
  Forall (reuses Script.config "bastion") (switch_log Script.sys calls st1) /\
  activeTunnels (reg (switch_all Script.sys calls st1)) !! "bastion" = Some 0.
Proof.
  cbv zeta.
  destruct (proj2 (proj2
              (tunnel_established_at_most_once Script.World Script.sys
                 [("b", Script.prompter); ("c", Script.prompter);
                  ("a", Script.prompter); ("b", Script.prompter)]
                 (snd (DBMan_SwitchConnection Script.sys "a" Script.prompter
                         (Script.init Script.quiet)))
                 "bastion")) 0)
    as (H1 & H2 & H3 & _).
  - vm_compute. reflexivity.
  - split_and!; [exact H1 | exact H2 | exact H3].
Defined.

(** C3, as stated, fails when a dial fails: of two switches to [a], the
    first opens a listener and dials the bastion, which fails; nothing is
    cached, and the second opens another listener and dials again.  The
    tunnel [bastion] has been dialed twice and two listeners exist. *)
Lemma tunnel_dialed_again_after_failure :
  let calls := [("a", Script.prompter); ("a", Script.prompter)] in
  let log := switch_log Script.sys calls (Script.init ex_dial_fails_once) in
  map (fun entry => count is_ssh_Dial (snd entry)) log = [1; 1] /\
  List.filter is_net_Listen (concat (map snd log))
    = [ev_net_Listen (mk_Listener 0 "127.0.0.1:40000") None;
       ev_net_Listen (mk_Listener 2 "127.0.0.1:40000") None] /\
  List.filter is_ssh_Dial (concat (map snd log))
    = [ev_ssh_Dial "bastion.example:22"
         (Ret (sshClient_handle 1, Some (ext_error 2)));
       ev_ssh_Dial "bastion.example:22" (Ret (sshClient_handle 3, None))].
Proof. vm_compute. split_and!; reflexivity. Qed.

Lemma SwitchConnection_keeps_config_witness :
  let st := Script.init Script.quiet in
  let st' := snd (DBMan_SwitchConnection Script.sys "b" Script.prompter st) in
  Connections (cfg (reg st')) !! "b" = Some Script.conn_b /\
  Connection.Host Script.conn_b = "db-b.internal" /\
  ev_NewConnector
    "host=127.0.0.1 port=40000 dbname=app user=bob password= sslmode=require"
    ∈ trace st'.
Proof.
  cbv zeta. split_and!.
  - refine (proj2 (SwitchConnection_keeps_config Script.World Script.sys "b"
                     Script.prompter (Script.init Script.quiet))
                  "b" Script.conn_b _).
    vm_compute. reflexivity.
  - reflexivity.
  - vm_compute. do 5 right. left.
Defined.

Lemma empty_answers_panic_witness :
  fst (DBMan_SwitchConnection Script.sys "c" Script.prompter
         (Script.init ex_no_answer))
    = Panicked (index_out_of_range 0 0).
Proof.
  refine (proj1 (empty_answers_panic Script.World Script.sys)
            "c" Script.prompter (Script.init ex_no_answer)
            Script.conn_c Script.conn_c (Script.init ex_no_answer)
            _ _ _ _ _ _).
  - vm_compute. reflexivity.
  - reflexivity.
  - reflexivity.
  - left. split_and!; reflexivity.
  - reflexivity.
  - reflexivity.
Defined.

Lemma ex_open_registry_allocated : tunnels_allocated ex_open_registry.
Proof.
  intros name t H. unfold ex_open_registry in *. cbn [reg heap activeTunnels] in *.
  apply lookup_insert_Some in H. destruct H as [[_ <-] | [_ H]].
  - rewrite lookup_insert_eq. eauto.
  - rewrite lookup_empty in H. discriminate.
Defined.

Lemma Close_is_unconditional_witness :
  fst (DBMan_Close Script.sys ex_open_registry) = Ret None /\
  (exists seg,
     trace (snd (DBMan_Close Script.sys ex_open_registry)) = seg /\
     torn_down ex_tunnel seg).
Proof.
  destruct (proj1 (Close_is_unconditional Script.World Script.sys
                     ex_open_registry
                     (fun A m w => reflexivity (map_to_list m))
                     ex_open_registry_allocated))
    as (w & seg & E & _ & Htd).
  rewrite E. cbn [fst snd trace]. split; [reflexivity |].
  exists seg. split; [reflexivity |].
  apply (Htd "bastion" 0 ex_tunnel); [| apply lookup_insert_eq].
  apply lookup_insert_eq.
Defined.

(** * Further properties of the code *)

(** ** sql_types.go *)

Lemma nibble_bounds (b : byte) :
  (Byte.to_N b / 16 < 16)%N /\ (Byte.to_N b mod 16 < 16)%N.
Proof. destruct b; vm_compute; split; reflexivity. Qed.

Lemma hex_text_lower_hex (u : list byte) : hex_text (lower_hex u) u.
Proof.
  induction u as [| b u IH]; [constructor |].
  unfold lower_hex. cbn [flat_map app].
  destruct (nibble_bounds b) as [Hhi Hlo].
  constructor; [split; auto | split; auto | exact IH].
Qed.

(** X1.  The display string of a valid identifier is an accepted encoding of
    it: scanning the string that String printed stores the same 16 bytes
    again, into any scanner.  The string has 36 characters. *)
Theorem uuid_String_Scan_round_trip (u : list byte) (v : uuidVal) :
  length u = 16 -> length (UUID v) = 16 ->
  uuidVal_Scan v (dv_string (uuidVal_String (mk_uuidVal u true)))
    = (mk_uuidVal u true, None) /\
  uuidVal_Scan v (dv_bytes (list_byte_of_string (uuidVal_String (mk_uuidVal u true))))
    = (mk_uuidVal u true, None) /\
  String.length (uuidVal_String (mk_uuidVal u true)) = 36.
Proof.
  intros Hu Hv.
  assert (Henc : uuid_encoding u
                   (list_byte_of_string (uuidVal_String (mk_uuidVal u true)))).
  { rewrite (uuidVal_String_canonical u Hu). unfold canonical_uuid.
    rewrite list_byte_of_string_of_list_byte.
    destruct (length_explicit_16 u Hu)
      as (b0&b1&b2&b3&b4&b5&b6&b7&b8&b9&b10&b11&b12&b13&b14&b15&->).
    change (slice (lower_hex [b0; b1; b2; b3; b4; b5; b6; b7; b8; b9; b10; b11;
                              b12; b13; b14; b15]) 0 8)
      with (lower_hex [b0; b1; b2; b3]).
    change (slice (lower_hex [b0; b1; b2; b3; b4; b5; b6; b7; b8; b9; b10; b11;
                              b12; b13; b14; b15]) 8 12)
      with (lower_hex [b4; b5]).
    change (slice (lower_hex [b0; b1; b2; b3; b4; b5; b6; b7; b8; b9; b10; b11;
                              b12; b13; b14; b15]) 12 16)
      with (lower_hex [b6; b7]).
    change (slice (lower_hex [b0; b1; b2; b3; b4; b5; b6; b7; b8; b9; b10; b11;
                              b12; b13; b14; b15]) 16 20)
      with (lower_hex [b8; b9]).
    change (slice (lower_hex [b0; b1; b2; b3; b4; b5; b6; b7; b8; b9; b10; b11;
                              b12; b13; b14; b15]) 20 32)
      with (lower_hex [b10; b11; b12; b13; b14; b15]).
    apply encoding_hyphenated; apply hex_text_lower_hex. }
  split_and!.
  - cbn [uuidVal_Scan]. now rewrite (uuidParse_encoding u (UUID v) _ Hu Hv Henc).
  - cbn [uuidVal_Scan]. now rewrite (uuidParse_encoding u (UUID v) _ Hu Hv Henc).
  - rewrite (uuidVal_String_canonical u Hu).
    destruct (length_explicit_16 u Hu)
      as (b0&b1&b2&b3&b4&b5&b6&b7&b8&b9&b10&b11&b12&b13&b14&b15&->).
    reflexivity.
Qed.

Lemma uuid_String_Scan_round_trip_witness :
  uuidVal_Scan uuidVal_zero (dv_string (uuidVal_String (mk_uuidVal sample_uuid true)))
    = (mk_uuidVal sample_uuid true, None).
Proof.
  exact (proj1 (uuid_String_Scan_round_trip sample_uuid uuidVal_zero
                  eq_refl eq_refl)).
Defined.

(** X2.  In the 36-character form uuidParse reads the five groups of digits
    and never looks at the four bytes between them: whatever these bytes
    are, the text is accepted and gives the identifier of its digits. *)
Theorem uuidParse_separators_unchecked (u dst g1 g2 g3 g4 g5 : list byte)
    (s1 s2 s3 s4 : byte) :
  length u = 16 -> length dst = 16 ->
  hex_text g1 (slice u 0 4) ->
  hex_text g2 (slice u 4 6) ->
  hex_text g3 (slice u 6 8) ->
  hex_text g4 (slice u 8 10) ->
  hex_text g5 (slice u 10 16) ->
  uuidParse dst (g1 ++ [s1] ++ g2 ++ [s2] ++ g3 ++ [s3] ++ g4 ++ [s4] ++ g5)
    = (u, None).
Proof.
  intros Hu Hdst H1 H2 H3 H4 H5.
  destruct (length_explicit_16 u Hu)
    as (b0&b1&b2&b3&b4&b5&b6&b7&b8&b9&b10&b11&b12&b13&b14&b15&->).
  destruct (length_explicit_16 dst Hdst)
    as (d0&d1&d2&d3&d4&d5&d6&d7&d8&d9&d10&d11&d12&d13&d14&d15&->).
  cbn in H1, H2, H3, H4, H5.
  pose proof (hex_text_explicit _ _ 4 H1 eq_refl) as L1.
  pose proof (hex_text_explicit _ _ 2 H2 eq_refl) as L2.
  pose proof (hex_text_explicit _ _ 2 H3 eq_refl) as L3.
  pose proof (hex_text_explicit _ _ 2 H4 eq_refl) as L4.
  pose proof (hex_text_explicit _ _ 6 H5 eq_refl) as L5.
  cbn in L1, L2, L3, L4, L5.
  pose proof (Decode_hex_text _ _ H1) as D1.
  pose proof (Decode_hex_text _ _ H2) as D2.
  pose proof (Decode_hex_text _ _ H3) as D3.
  pose proof (Decode_hex_text _ _ H4) as D4.
  pose proof (Decode_hex_text _ _ H5) as D5.
  clear H1 H2 H3 H4 H5 Hu Hdst.
  explicit_list g1 L1. explicit_list g2 L2. explicit_list g3 L3.
  explicit_list g4 L4. explicit_list g5 L5.
  unfold uuidParse.
  cbn [length app]. cbv iota beta.
  unfold slice. cbn [take drop minus].
  rewrite D1, D2, D3, D4, D5.
  reflexivity.
Qed.

Lemma uuidParse_separators_unchecked_witness :
  uuidParse (UUID uuidVal_zero)
    (list_byte_of_string "6ba7b810" ++ ["/"%byte] ++
     list_byte_of_string "9dad" ++ ["z"%byte] ++
     list_byte_of_string "11d1" ++ [" "%byte] ++
     list_byte_of_string "80b4" ++ ["0"%byte] ++
     list_byte_of_string "00c04fd430c8")
    = (sample_uuid, None).
Proof.
  apply uuidParse_separators_unchecked; try reflexivity; hex_text_tac.
Defined.

Lemma Decode_invalid_first (p up rest : list byte) (bad : byte) :
  hex_text p up -> snd (hex.fromHexChar bad) = false ->
  hex.Decode (p ++ bad :: rest) = (up, Some (hex_InvalidByteError bad)).
Proof.
  intros Hp Hbad. induction Hp as [| c1 c2 s b u H1 H2 _ IH].
  - cbn [app hex.Decode]. destruct rest as [| q rest].
    + now rewrite Hbad.
    + destruct (hex.fromHexChar bad) as [a oka]. cbn in Hbad. subst oka.
      destruct (hex.fromHexChar q). reflexivity.
  - cbn [app hex.Decode].
    rewrite (fromHexChar_digit _ _ H1), (fromHexChar_digit _ _ H2), IH.
    cbn. now rewrite byte_of_nibbles.
Qed.

Lemma Decode_invalid_second (p up rest : list byte) (good bad : byte) (n : N) :
  hex_text p up -> hex_digit_of good n -> snd (hex.fromHexChar bad) = false ->
  hex.Decode (p ++ good :: bad :: rest) = (up, Some (hex_InvalidByteError bad)).
Proof.
  intros Hp Hgood Hbad. induction Hp as [| c1 c2 s b u H1 H2 _ IH].
  - cbn [app hex.Decode]. rewrite (fromHexChar_digit _ _ Hgood).
    destruct (hex.fromHexChar bad) as [a oka]. cbn in Hbad. subst oka.
    reflexivity.
  - cbn [app hex.Decode].
    rewrite (fromHexChar_digit _ _ H1), (fromHexChar_digit _ _ H2), IH.
    cbn. now rewrite byte_of_nibbles.
Qed.

(** X3.  A 32-character text with a byte that is no hexadecimal digit, after
    a well-formed beginning, makes Scan fail with the invalid-byte error;
    the bytes decoded before the bad byte have then been written over the
    beginning of the stored identifier, the rest of it keeps its old value,
    and Valid is what it was. *)
Theorem uuidVal_Scan_failure_is_partial (v : uuidVal) (p up rest : list byte)
    (bad : byte) :
  length (UUID v) = 16 ->
  hex_text p up ->
  snd (hex.fromHexChar bad) = false ->
  length (p ++ bad :: rest) = 32 ->
  uuidVal_Scan v (dv_bytes (p ++ bad :: rest))
    = (mk_uuidVal (up ++ drop (length up) (UUID v)) (Valid v),
       Some (hex_InvalidByteError bad)).
Proof.
  intros Hv Hp Hbad Hlen. cbn [uuidVal_Scan]. unfold uuidParse.
  rewrite Hlen. cbv iota beta.
  rewrite (Decode_invalid_first p up rest bad Hp Hbad).
  unfold write_at. cbn [take app plus]. reflexivity.
Qed.

Lemma uuidVal_Scan_failure_is_partial_witness :
  uuidVal_Scan (mk_uuidVal sample_uuid true)
    (dv_bytes (list_byte_of_string "ffff" ++ "x"%byte ::
               list_byte_of_string "fffffffffffffffffffffffffff"))
    = (mk_uuidVal ([xff; xff] ++ drop 2 sample_uuid) true,
       Some (hex_InvalidByteError "x")).
Proof.
  apply (uuidVal_Scan_failure_is_partial (mk_uuidVal sample_uuid true)
           (list_byte_of_string "ffff") [xff; xff]);
    [reflexivity | hex_text_tac | reflexivity | reflexivity].
Defined.

(** X4.  nullInt16.Scan accepts every int64 without an error: the value it
    stores is the one of the 65536 residues that lies between -32768 and
    32767, which is the number itself when that fits and a different number
    when it does not; the display string is the decimal text of what was
    stored.  A nil clears the value, and any other type is an error that
    leaves the scanner as it was. *)
Theorem nullInt16_Scan_wraps (i : Z * bool) (rv : Z) :
  let r := nullInt16_Scan i (dv_int64 rv) in
  snd r = None /\ snd (fst r) = true /\
  (-32768 <= fst (fst r) < 32768)%Z /\
  ((fst (fst r) - rv) mod 65536 = 0)%Z /\
  ((-32768 <= rv < 32768)%Z -> fst (fst r) = rv) /\
  (forall fmt,
     scanTarget_String fmt (t_nullInt16 (fst (fst r)) (snd (fst r)))
       = Some (strconv_FormatInt (fst (fst r)))) /\
  nullInt16_Scan i dv_nil = ((0%Z, false), None) /\
  (forall s, fst (nullInt16_Scan i (dv_string s)) = i /\
             snd (nullInt16_Scan i (dv_string s)) <> None).
Proof.
  cbv zeta. cbn [nullInt16_Scan fst snd]. unfold int16_of_int64.
  split_and!; try reflexivity.
  - pose proof (Z.mod_pos_bound (rv + 32768) 65536 eq_refl). lia.
  - pose proof (Z.mod_pos_bound (rv + 32768) 65536 eq_refl). lia.
  - apply Z.mod_divide; [discriminate |].
    exists (- ((rv + 32768) / 65536))%Z.
    pose proof (Z.div_mod (rv + 32768) 65536 ltac:(discriminate)). lia.
  - intros Hr. rewrite Z.mod_small by lia. lia.
  - intros s. split; [reflexivity | discriminate].
Qed.

Lemma nullInt16_Scan_wraps_witness :
  fst (fst (nullInt16_Scan (0%Z, false) (dv_int64 1234))) = 1234%Z.
Proof.
  refine (proj1 (proj2 (proj2 (proj2 (proj2
            (nullInt16_Scan_wraps (0%Z, false) 1234))))) _). lia.
Defined.

Lemma pretty_N_char_digit (x : N) :
  ((48 <=? N_of_ascii (pretty_N_char x))%N
   && (N_of_ascii (pretty_N_char x) <=? 57)%N) = true.
Proof. unfold pretty_N_char. repeat case_match; reflexivity. Qed.

Lemma pretty_N_go_digits (x : N) (s : string) :
  all_digits s = true -> all_digits (pretty_N_go x s) = true.
Proof.
  revert s. induction (N.lt_wf_0 x) as [x _ IH]; intros s Hs.
  assert (x = 0 \/ 0 < x)%N as [-> | Hpos] by lia.
  - now rewrite pretty_N_go_0.
  - rewrite pretty_N_go_step by assumption. apply IH.
    + now apply N.div_lt.
    + cbn [all_digits]. now rewrite pretty_N_char_digit, Hs.
Qed.

Lemma pretty_N_digits (x : N) : all_digits (pretty x) = true.
Proof.
  unfold pretty, pretty_N. case_decide; [reflexivity |].
  now apply pretty_N_go_digits.
Qed.

Lemma FormatInt_not_NULL (i : Z) : strconv_FormatInt i <> "NULL".
Proof.
  unfold strconv_FormatInt, pretty, pretty_Z. intros H.
  destruct i as [| p | p]; [discriminate | |discriminate].
  pose proof (pretty_N_digits (N.pos p)) as Hd.
  change (pretty p) with (pretty (N.pos p)) in H. rewrite H in Hd.
  discriminate.
Qed.

Section Rendering.

Variable W : Type.
Variable sys : Sys W.
Variable fmt : Formatter.

(** X5.  A NULL scanned into any scanner declared in sql_types.go is accepted
    without consulting the conversions of database/sql, and the scanner then
    displays NULL, whatever it held before.  An integer that converts
    displays its decimal text: different integers display differently, and
    never as NULL.  A text column cannot tell the two apart: the valid text
    NULL displays like a null. *)
Theorem null_renders_NULL :
  (forall dest,
     is_typed dest = true ->
     exists dest',
       convertAssign W sys dest dv_nil = (dest', None) /\
       scanTarget_String fmt dest' = Some "NULL") /\
  (forall old valid src i,
     src <> dv_nil -> conv_int64 W sys src = (i, None) ->
     convertAssign W sys (t_nullInt64 old valid) src = (t_nullInt64 i true, None) /\
     scanTarget_String fmt (t_nullInt64 i true) = Some (strconv_FormatInt i)) /\
  (forall i j, strconv_FormatInt i = strconv_FormatInt j -> i = j) /\
  (forall i, strconv_FormatInt i <> "NULL") /\
  scanTarget_String fmt (t_nullString "NULL" true)
    = scanTarget_String fmt (t_nullString "" false).
Proof.
  split_and!.
  - intros dest Htyped.
    destruct dest; try discriminate; cbn [convertAssign Null_Scan nullInt16_Scan
      nullFloat32_Scan uuidVal_Scan]; eexists; split; reflexivity.
  - intros old valid src i Hsrc Hconv.
    cbn [convertAssign]. unfold Null_Scan, assign.
    destruct src; try congruence; rewrite Hconv; split; reflexivity.
  - intros i j H. exact (pretty_Z_inj _ _ H).
  - apply FormatInt_not_NULL.
  - reflexivity.
Qed.

End Rendering.

Lemma null_renders_NULL_witness :
  exists dest',
    convertAssign Script.World Script.sys (t_nullInt32 42 true) dv_nil
      = (dest', None) /\
    scanTarget_String (mk_Formatter (fun _ => "") (fun _ => "") (fun _ => "")) dest'
      = Some "NULL".
Proof.
  apply (proj1 (null_renders_NULL Script.World Script.sys
                  (mk_Formatter (fun _ => "") (fun _ => "") (fun _ => "")))).
  reflexivity.
Defined.

(** ** meta.go *)

(** X6.  parseYesOrNo accepts exactly the four spellings YES, yes, NO and
    no, in these cases only; what yesOrNo.Value writes, yesOrNo.Scan reads
    back as the same flag, from a string and from bytes; a value of another
    type is an error that leaves the flag as it was. *)
Theorem yesOrNo_round_trip :
  (forall s b,
     parseYesOrNo s = (b, None) <->
     (b = true /\ (s = "YES" \/ s = "yes")) \/
     (b = false /\ (s = "NO" \/ s = "no"))) /\
  (forall v old, yesOrNo_Scan old (fst (yesOrNo_Value v)) = (v, None)) /\
  (forall v old,
     match fst (yesOrNo_Value v) with
     | dv_string s => yesOrNo_Scan old (dv_bytes (list_byte_of_string s)) = (v, None)
     | _ => False
     end) /\
  (forall old i, yesOrNo_Scan old (dv_int64 i)
                 = (old, Some (errors_New "yesOrNo: incompatible type"))) /\
  (forall old, snd (yesOrNo_Scan old (dv_string "Yes")) <> None).
Proof.
  split_and!.
  - intros s b. unfold parseYesOrNo. split.
    + repeat case_decide; intros [= <-]; tauto.
    + intros [[-> [-> | ->]] | [-> [-> | ->]]]; reflexivity.
  - intros [] old; reflexivity.
  - intros [] old; reflexivity.
  - reflexivity.
  - intros old. cbn. discriminate.
Qed.

Lemma strings_Split_no_separator (s : string) (sep : ascii) :
  (forall c, c ∈ list_ascii_of_string s -> c <> sep) ->
  strings_Split s sep = [s].
Proof.
  induction s as [| c s IH]; intros Hno; [reflexivity |].
  cbn [strings_Split].
  destruct (decide (c = sep)) as [-> | _].
  - exfalso. apply (Hno sep); [left | reflexivity].
  - rewrite IH; [reflexivity |].
    intros c' Hc'. apply Hno. cbn. now right.
Qed.

Lemma strings_Split_prefix (p s : string) (sep : ascii) :
  (forall c, c ∈ list_ascii_of_string p -> c <> sep) ->
  strings_Split (p +:+ String sep s) sep = p :: strings_Split s sep.
Proof.
  induction p as [| c p IH]; intros Hno.
  - change ("" +:+ String sep s) with (String sep s). cbn [strings_Split].
    destruct (decide (sep = sep)); [reflexivity | congruence].
  - change (String c p +:+ String sep s) with (String c (p +:+ String sep s)).
    cbn [strings_Split].
    destruct (decide (c = sep)) as [-> | _].
    + exfalso. apply (Hno sep); [left | reflexivity].
    + rewrite IH; [reflexivity |].
      intros c' Hc'. apply Hno. cbn. now right.
Qed.

Section Describe.

Variable W : Type.
Variable sys : Sys W.

(** X7.  A table name without a dot is looked up in the schema public:
    DescribeTable of [t] and of [public.t] send the same query with the same
    arguments and return the same result, in both revisions of meta.go. *)
Theorem DescribeTable_default_schema (m : metaQuerier) (t : string)
    (st : State W) :
  (forall c, c ∈ list_ascii_of_string t -> c <> "."%char) ->
  DescribeTable_names t = Some ("public", t) /\
  dbMeta_DescribeTable W sys m ("public." +:+ t) st
    = dbMeta_DescribeTable W sys m t st /\
  dbMeta_DescribeTable_rev W sys m ("public." +:+ t) st
    = dbMeta_DescribeTable_rev W sys m t st.
Proof.
  intros Hno.
  assert (H1 : DescribeTable_names t = Some ("public", t)).
  { unfold DescribeTable_names. now rewrite strings_Split_no_separator. }
  assert (H2 : DescribeTable_names ("public." +:+ t) = Some ("public", t)).
  { unfold DescribeTable_names.
    change ("public." +:+ t) with ("public" +:+ String "."%char t).
    rewrite strings_Split_prefix.
    - now rewrite strings_Split_no_separator.
    - intros c Hc. cbn in Hc.
      repeat (apply elem_of_cons in Hc; destruct Hc as [-> | Hc];
              [discriminate |]).
      inversion Hc. }
  unfold dbMeta_DescribeTable, dbMeta_DescribeTable_rev.
  now rewrite H1, H2.
Qed.

Lemma DescribeTable_row_shape (row : list driverValue) (col : ColumnSchema) :
  DescribeTable_row W sys row = (col, None) -> attrs_shape (cs_Attrs col).
Proof.
  unfold DescribeTable_row.
  destruct row as [| c1 [| c2 [| c3 [| c4 [| c5 [| c6 [| c7 row]]]]]]];
    try discriminate.
  destruct (conv_string W sys c1) as [colName [e |]]; [discriminate |].
  destruct (Null_Scan "" (conv_string W sys) "" c2)
    as [[defaultVal defaultValid] [e |]]; [discriminate |].
  destruct (yesOrNo_Scan false c3) as [nullable [e |]]; [discriminate |].
  destruct (conv_string W sys c4) as [colType [e |]]; [discriminate |].
  destruct (Null_Scan "" (conv_string W sys) "" c5)
    as [[userTypeSchema v5] [e |]]; [discriminate |].
  destruct (Null_Scan "" (conv_string W sys) "" c6)
    as [[userType v6] [e |]]; [discriminate |].
  intros [= <-]. cbn [cs_Attrs].
  destruct defaultValid, nullable; cbn [app].
  - exists "NULL". split; [now left | right; eauto].
  - exists "NOT NULL". split; [now right | right; eauto].
  - exists "NULL". split; [now left | now left].
  - exists "NOT NULL". split; [now right | now left].
Qed.

Lemma DescribeTable_rows_shape (data : list (list driverValue))
    (acc cols : list ColumnSchema) :
  DescribeTable_rows W sys data acc = (cols, None) ->
  exists new,
    cols = acc ++ new /\ length new = length data /\
    Forall (fun col => attrs_shape (cs_Attrs col)) new.
Proof.
  revert acc. induction data as [| row data IH]; intros acc.
  - cbn. intros [= <-]. exists []. rewrite app_nil_r. auto.
  - cbn [DescribeTable_rows].
    destruct (DescribeTable_row W sys row) as [col [e |]] eqn:Hrow;
      [discriminate |].
    intros Hrest. destruct (IH _ Hrest) as (new & -> & Hlen & Hall).
    exists (col :: new). rewrite <- app_assoc. split_and!; [reflexivity | |].
    + cbn. now rewrite Hlen.
    + constructor; [now apply (DescribeTable_row_shape row) | exact Hall].
Qed.

(** X8.  When DescribeTable returns a schema, the schema carries the table
    part of the name and one column for every row that the query returned,
    in their order; the attributes of each column are the tag of the
    default, if the column has one, followed by exactly one of NULL and
    NOT NULL. *)
Theorem DescribeTable_columns (m : metaQuerier) (tablename : string)
    (st : State W) (schema : TableSchema) (err : option error) :
  fst (dbMeta_DescribeTable W sys m tablename st) = Ret (Some schema, err) ->
  exists db schemaName rows w,
    m = dbMeta db /\
    DescribeTable_names tablename = Some (schemaName, ts_Name schema) /\
    db_Query W sys db DescribeTable_query [schemaName; ts_Name schema] (world st)
      = ((rows, None), w) /\
    err = rows_Err rows /\
    length (ts_Columns schema) = length (rows_data rows) /\
    Forall (fun col => attrs_shape (cs_Attrs col)) (ts_Columns schema).
Proof.
  destruct st as [d h w tr]. destruct m as [db].
  unfold dbMeta_DescribeTable.
  destruct (DescribeTable_names tablename) as [[schemaName table] |];
    [| discriminate].
  unfold dbMeta_Query, defer_, Rows_Close, log.
  cbv beta iota zeta delta [bind ret call reg heap world trace fst snd].
  destruct (db_Query W sys db DescribeTable_query [schemaName; table] w)
    as [[rows [e |]] w1] eqn:Hq; [discriminate |].
  destruct (DescribeTable_rows W sys (rows_data rows) []) as [cols [e |]] eqn:Hrows;
    [discriminate |].
  intros [= <- <-]. cbn [ts_Name ts_Columns].
  destruct (DescribeTable_rows_shape _ _ _ Hrows) as (new & -> & Hlen & Hall).
  exists db, schemaName, rows, w1. split_and!; auto.
Qed.

End Describe.

Lemma DescribeTable_default_schema_witness :
  (forall c, c ∈ list_ascii_of_string "orders" -> c <> "."%char) /\
  DescribeTable_names "orders" = Some ("public", "orders") /\
  dbMeta_DescribeTable Script.World Script.sys (dbMeta (sqlDB_handle 0))
    ("public." +:+ "orders") (connected (world_answering select_rows))
  = dbMeta_DescribeTable Script.World Script.sys (dbMeta (sqlDB_handle 0))
      "orders" (connected (world_answering select_rows)).
Proof.
  assert (Hno : forall c, c ∈ list_ascii_of_string "orders" -> c <> "."%char).
  { intros c Hc. cbn in Hc.
    repeat (apply elem_of_cons in Hc; destruct Hc as [-> | Hc];
            [discriminate |]).
    inversion Hc. }
  split; [exact Hno |].
  pose proof (DescribeTable_default_schema Script.World Script.sys
                (dbMeta (sqlDB_handle 0)) "orders"
                (connected (world_answering select_rows)) Hno) as (H1 & H2 & _).
  split; [exact H1 | exact H2].
Defined.

Lemma DescribeTable_columns_witness :
  let schema :=
    mk_TableSchema "orders"
      [mk_ColumnSchema "id" "integer" ["NOT NULL"];
       mk_ColumnSchema "state" "public.order_state"
         ["DEFAULT 'new'::text"; "NULL"]] in
  fst (dbMeta_DescribeTable Script.World Script.sys (dbMeta (sqlDB_handle 0))
         "orders" (connected (world_answering columns_rows)))
  = Ret (Some schema, None) /\
  length (ts_Columns schema) = 2 /\
  Forall (fun col => attrs_shape (cs_Attrs col)) (ts_Columns schema).
Proof.
  intros schema.
  assert (Hrun : fst (dbMeta_DescribeTable Script.World Script.sys
                        (dbMeta (sqlDB_handle 0)) "orders"
                        (connected (world_answering columns_rows)))
                 = Ret (Some schema, None)) by (vm_compute; reflexivity).
  split; [exact Hrun |].
  destruct (DescribeTable_columns Script.World Script.sys _ _ _ _ _ Hrun)
    as (db & schemaName & rows & w & _ & _ & _ & _ & _ & Hall).
  split; [reflexivity | exact Hall].
Defined.

(** ** The other revision of meta.go: ignored schemas *)

Lemma strings_HasPrefix_spec (s p : string) :
  strings_HasPrefix s p = true <-> exists rest, s = p +:+ rest.
Proof.
  revert s. induction p as [| c p IH]; intros s.
  - cbn. destruct s; split; eauto.
  - destruct s as [| c' s]; cbn [strings_HasPrefix].
    + split; [discriminate | intros [rest H]; discriminate].
    + destruct (decide (c = c')) as [-> | Hne].
      * rewrite IH. split; intros [rest H]; exists rest.
        -- change (String c' p +:+ rest) with (String c' (p +:+ rest)).
           now rewrite H.
        -- change (String c' p +:+ rest) with (String c' (p +:+ rest)) in H.
           now injection H.
      * split; [discriminate |]. intros [rest H].
        change (String c p +:+ rest) with (String c (p +:+ rest)) in H.
        injection H as Hc _. congruence.
Qed.

Lemma isIgnoredSchema_spec (name : string) :
  isIgnoredSchema name = true <->
  name = "information_schema" \/ exists rest, name = "pg_" +:+ rest.
Proof.
  unfold isIgnoredSchema, ignoreSchemas. cbn [isIgnoredSchema_loop].
  change (strings_HasSuffix "pg_*" "*") with true.
  change (strings_HasSuffix "information_schema" "*") with false.
  change (substring 0 (String.length "pg_*" - 1) "pg_*") with "pg_".
  cbv iota.
  destruct (decide ("pg_*" = name)) as [<- | H1].
  { split; [| reflexivity]. intros _. right. now exists "*". }
  destruct (strings_HasPrefix name "pg_") eqn:Hp.
  { split; [| reflexivity]. intros _. right.
    now apply strings_HasPrefix_spec. }
  destruct (decide ("information_schema" = name)) as [<- | H2].
  { split; [| reflexivity]. intros _. now left. }
  split; [discriminate |].
  intros [-> | Hpre]; [congruence |].
  apply strings_HasPrefix_spec in Hpre. congruence.
Qed.

Section Schemas.

Variable W : Type.
Variable sys : Sys W.

Lemma scan_names_acc (data : list (list driverValue)) (acc : list string) :
  scan_names W sys data acc =
  match scan_names W sys data [] with
  | (names, None) => (acc ++ names, None)
  | (_, Some e) => ([], Some e)
  end.
Proof.
  revert acc. induction data as [| row data IH]; intros acc.
  - cbn. now rewrite app_nil_r.
  - cbn [scan_names]. destruct row as [| src [| ? ?]]; try reflexivity.
    destruct (conv_string W sys src) as [name [e |]]; [reflexivity |].
    rewrite (IH (acc ++ [name])), (IH ([] ++ [name])).
    destruct (scan_names W sys data []) as [names [e |]]; [reflexivity |].
    now rewrite <- app_assoc.
Qed.

Lemma scan_schemas_acc (data : list (list driverValue)) (acc : list string) :
  scan_schemas W sys data acc =
  match scan_names W sys data [] with
  | (names, None) => (acc ++ kept names, None)
  | (_, Some e) => ([], Some e)
  end.
Proof.
  revert acc. induction data as [| row data IH]; intros acc.
  - cbn. now rewrite app_nil_r.
  - cbn [scan_schemas scan_names].
    destruct row as [| src [| ? ?]]; try reflexivity.
    destruct (conv_string W sys src) as [name [e |]]; [reflexivity |].
    rewrite (scan_names_acc data ([] ++ [name])).
    destruct (isIgnoredSchema name) eqn:Hign; cbn [negb]; rewrite IH;
      destruct (scan_names W sys data []) as [names [e |]]; try reflexivity;
      unfold kept; cbn [app List.filter]; rewrite Hign; cbn [negb];
      [reflexivity | now rewrite <- app_assoc].
Qed.

(** X9.  In the revision of meta.go that filters in Go, a schema is ignored
    exactly when it is information_schema or its name starts with pg_; when
    ListSchemas succeeds, its result is the names the query returned, in
    their order, without the ignored ones, so no returned schema is
    ignored; ListTables of that revision is ListTablesInSchema of public. *)
Theorem ListSchemas_rev_filters (m : metaQuerier) (st : State W) :
  (forall name,
     isIgnoredSchema name = true <->
     name = "information_schema" \/ exists rest, name = "pg_" +:+ rest) /\
  (forall schemas,
     fst (dbMeta_ListSchemas_rev W sys m st) = Ret (schemas, None) ->
     exists db rows w names,
       m = dbMeta db /\
       db_Query W sys db ListSchemas_query_rev [] (world st) = ((rows, None), w) /\
       scan_names W sys (rows_data rows) [] = (names, None) /\
       schemas = kept names /\
       Forall (fun n => isIgnoredSchema n = false) schemas) /\
  dbMeta_ListTables_rev W sys m st
    = dbMeta_ListTablesInSchema_rev W sys m "public" st.
Proof.
  split_and!; [apply isIgnoredSchema_spec | | reflexivity].
  intros schemas. destruct st as [d h w tr]. destruct m as [db].
  unfold dbMeta_ListSchemas_rev, dbMeta_Query, defer_, Rows_Close, log.
  cbv beta iota zeta delta [bind ret call reg heap world trace fst snd].
  destruct (db_Query W sys db ListSchemas_query_rev [] w)
    as [[rows [e |]] w1] eqn:Hq.
  { discriminate. }
  rewrite scan_schemas_acc.
  destruct (scan_names W sys (rows_data rows) []) as [names [e |]] eqn:Hn.
  { discriminate. }
  cbn [app]. intros [= <-].
  exists db, rows, w1, names. split_and!; auto.
  unfold kept. apply List.Forall_forall. intros n Hin.
  apply filter_In in Hin. destruct Hin as [_ Hin].
  now destruct (isIgnoredSchema n).
Qed.

End Schemas.

Lemma ListSchemas_rev_filters_witness :
  fst (dbMeta_ListSchemas_rev Script.World Script.sys (dbMeta (sqlDB_handle 0))
         (connected (world_answering schemata_rows)))
  = Ret (["public"; "sales"], None) /\
  Forall (fun n => isIgnoredSchema n = false) ["public"; "sales"].
Proof.
  assert (Hrun : fst (dbMeta_ListSchemas_rev Script.World Script.sys
                        (dbMeta (sqlDB_handle 0))
                        (connected (world_answering schemata_rows)))
                 = Ret (["public"; "sales"], None)) by (vm_compute; reflexivity).
  split; [exact Hrun |].
  destruct (ListSchemas_rev_filters Script.World Script.sys
              (dbMeta (sqlDB_handle 0))
              (connected (world_answering schemata_rows)))
    as (_ & Hfilter & _).
  destruct (Hfilter _ Hrun) as (db & rows & w & names & _ & _ & _ & _ & Hall).
  exact Hall.
Defined.

(** ** meta.go: the error of the iteration *)

Section Listings.

Variable W : Type.
Variable sys : Sys W.

(** X10.  ListTables and ListSchemas do not look at rows.Err(): when the
    iteration over the result stops on an error, they return the names read
    so far and no error, where ListTablesInSchema on the same answer returns
    the names together with the error.  Each of them sends one query and
    closes the rows once. *)
Theorem listings_drop_iteration_error (db : sqlDB) (st : State W)
    (rows : Rows) (w : W) (names : list string) :
  scan_names W sys (rows_data rows) [] = (names, None) ->
  (db_Query W sys db ListTables_query [] (world st) = ((rows, None), w) ->
   dbMeta_ListTables W sys (dbMeta db) st
   = (Ret (names, None),
      after st w [ev_Query db ListTables_query [] None; ev_Rows_Close])) /\
  (db_Query W sys db ListSchemas_query [] (world st) = ((rows, None), w) ->
   dbMeta_ListSchemas W sys (dbMeta db) st
   = (Ret (names, None),
      after st w [ev_Query db ListSchemas_query [] None; ev_Rows_Close])) /\
  (forall schema,
     db_Query W sys db ListTablesInSchema_query [schema] (world st)
       = ((rows, None), w) ->
     dbMeta_ListTablesInSchema W sys (dbMeta db) schema st
     = (Ret (names, rows_Err rows),
        after st w [ev_Query db ListTablesInSchema_query [schema] None;
                    ev_Rows_Close])).
Proof.
  intros Hscan. destruct st as [d h w0 tr]. unfold after.
  cbn [reg heap world trace].
  split_and!; [intros Hq | intros Hq | intros schema Hq];
    unfold dbMeta_ListTables, dbMeta_ListSchemas, dbMeta_ListTablesInSchema,
      dbMeta_Query, defer_, Rows_Close, log;
    cbv beta iota zeta delta [bind ret call reg heap world trace fst snd];
    rewrite Hq; cbv beta iota zeta delta [fst snd]; rewrite Hscan;
    cbv beta iota zeta delta [reg heap world trace fst snd];
    now rewrite <- app_assoc.
Qed.

End Listings.

Lemma listings_drop_iteration_error_witness :
  dbMeta_ListTables Script.World Script.sys (dbMeta (sqlDB_handle 0))
    (connected (world_answering interrupted_rows))
  = (Ret (["orders"; "users"], None),
     after (connected (world_answering interrupted_rows)) (Script.mk_World [] [] [] [] [] [] 1)
       [ev_Query (sqlDB_handle 0) ListTables_query [] None; ev_Rows_Close]).
Proof.
  apply (proj1 (listings_drop_iteration_error Script.World Script.sys
                  (sqlDB_handle 0) (connected (world_answering interrupted_rows))
                  interrupted_rows _ ["orders"; "users"] eq_refl)).
  reflexivity.
Defined.

(** ** Query: the shape of a result *)

Section QueryShape.

Variable W : Type.
Variable sys : Sys W.

Lemma newScanner_is_Some (col : ColumnType) : exists t, newScanner col = Some t.
Proof. unfold newScanner. repeat case_match; eauto. Qed.

Lemma convertAssign_kind (d : scanTarget) (src : driverValue) :
  kind_of (fst (convertAssign W sys d src)) = kind_of d.
Proof.
  destruct d; cbn [convertAssign];
    repeat match goal with
           | |- context [match ?x with (_, _) => _ end] => destruct x
           end;
    reflexivity.
Qed.

Lemma scanners_for_new (cols : list ColumnType) :
  scanners_for cols (map newScanner cols).
Proof.
  induction cols as [| col cols IH]; constructor; [| exact IH].
  destruct (newScanner_is_Some col) as [t Ht]. exists t. now rewrite Ht.
Qed.

Lemma scan_columns_kinds (row : list driverValue) (cols : list ColumnType)
    (dest dest' : list (option scanTarget)) (err : option error) :
  scanners_for cols dest ->
  scan_columns W sys row dest = (dest', err) ->
  scanners_for cols dest'.
Proof.
  revert cols dest dest' err.
  induction row as [| src row IH]; intros cols dest dest' err Hinv.
  - destruct dest; cbn; intros [= <- <-]; exact Hinv.
  - destruct Hinv as [| col d cols dest (t & -> & Hk) Hrest].
    + cbn. intros [= <- <-]. constructor.
    + cbn [scan_columns].
      pose proof (convertAssign_kind t src) as Hkind.
      destruct (convertAssign W sys t src) as [t' [e |]]; cbn [fst] in Hkind.
      * intros [= <- <-]. constructor; [| exact Hrest].
        exists t'. split; [reflexivity | congruence].
      * destruct (scan_columns W sys row dest) as [dest'' err''] eqn:Hrec.
        intros [= <- <-]. constructor; [| exact (IH _ _ _ _ Hrest Hrec)].
        exists t'. split; [reflexivity | congruence].
Qed.

Lemma row_of_scanners_typed (cols : list ColumnType)
    (dest : list (option scanTarget)) :
  scanners_for cols dest -> Forall2 typed_as cols (row_of_scanners dest).
Proof.
  induction 1 as [| col d cols dest (t & -> & Hk) Hrest IH]; cbn.
  - constructor.
  - constructor; [| exact IH]. exists t. auto.
Qed.

Lemma Query_rows_shape (cols : list ColumnType) (data : list (list driverValue))
    (scanners : list (option scanTarget)) (acc res : list (list rowValue)) :
  scanners_for cols scanners ->
  Query_rows W sys data scanners acc = inl res ->
  exists new,
    res = acc ++ new /\ length new = length data /\
    Forall (Forall2 typed_as cols) new.
Proof.
  revert scanners acc.
  induction data as [| row data IH]; intros scanners acc Hinv.
  - cbn. intros [= <-]. exists []. rewrite app_nil_r. auto.
  - cbn [Query_rows].
    destruct (Rows_Scan W sys row scanners) as [scanners' [e |]] eqn:Hscan;
      [discriminate |].
    assert (Hinv' : scanners_for cols scanners').
    { unfold Rows_Scan in Hscan. case_decide; [discriminate |].
      exact (scan_columns_kinds _ _ _ _ _ Hinv Hscan). }
    intros Hrest. destruct (IH _ _ Hinv' Hrest) as (new & -> & Hlen & Hall).
    exists (row_of_scanners scanners' :: new). rewrite <- app_assoc.
    split_and!; [reflexivity | cbn; now rewrite Hlen |].
    constructor; [now apply row_of_scanners_typed | exact Hall].
Qed.

Lemma typed_row (cols : list ColumnType) (row : list rowValue) :
  Forall2 typed_as cols row -> length row = length cols /\ nullValue ∉ row.
Proof.
  induction 1 as [| col v cols row (t & -> & _) Hrest [IHlen IHnot]].
  - split; [reflexivity |]. intros Hin. inversion Hin.
  - split; [cbn; now rewrite IHlen |].
    intros Hin. apply elem_of_cons in Hin. destruct Hin as [Hin | Hin];
      [discriminate | contradiction].
Qed.

(** X11.  When Query returns a result, the statement reported at least one
    column; the result names the columns in their order and has one row for
    every row of the answer; every row has one value per column, and each
    value is of the scanner type that Query chose from the column's database
    type, so the nullValue placeholder never occurs in a row.  The error
    returned beside the result is rows.Err(), and the call made one query
    and closed the rows once. *)
Theorem Query_result_shape (st : State W) (script : string)
    (result : QueryResult) (err : option error) :
  fst (DBMan_Query sys script st) = Ret (Some result, err) ->
  exists db rows w columns,
    current (reg st) = Some (dbMeta db) /\
    db_Query W sys db script [] (world st) = ((rows, None), w) /\
    rows_ColumnTypes rows = (columns, None) /\ columns <> [] /\
    err = rows_Err rows /\
    Columns result = map ct_Name columns /\
    length (Rows_ result) = length (rows_data rows) /\
    Forall (fun row => Forall2 typed_as columns row /\
                       length row = length columns /\ nullValue ∉ row)
           (Rows_ result) /\
    snd (DBMan_Query sys script st)
      = after st w [ev_Query db script [] None; ev_Rows_Close].
Proof.
  destruct st as [d h w0 tr]. unfold after. cbn [reg heap world trace].
  unfold DBMan_Query, dbMeta_Query, defer_, Rows_Close, log, get_reg.
  cbv beta iota zeta delta [bind ret call reg heap world trace fst snd].
  destruct (current d) as [[db] |]; [| discriminate].
  destruct (db_Query W sys db script [] w0) as [[rows [e |]] w] eqn:Hq;
    [discriminate |].
  destruct (rows_ColumnTypes rows) as [columns [e |]] eqn:Hcols;
    [discriminate |].
  case_decide as Hlen; [discriminate |].
  destruct (Query_rows W sys (rows_data rows) (map newScanner columns) [])
    as [res | e] eqn:Hrows; [| discriminate].
  intros [= <- <-]. cbn [Columns Rows_].
  destruct (Query_rows_shape columns _ _ _ _ (scanners_for_new columns) Hrows)
    as (new & -> & Hn & Hall).
  exists db, rows, w, columns. split_and!; auto.
  - intros ->. apply Hlen. reflexivity.
  - cbn [app]. eapply Forall_impl; [exact Hall |].
    intros row Hrow. split; [exact Hrow | now apply typed_row].
  - now rewrite <- app_assoc.
Qed.

End QueryShape.

Lemma Query_result_shape_witness :
  exists result,
    fst (DBMan_Query Script.sys "SELECT id, name FROM people"
           (connected (world_answering people_rows)))
      = Ret (Some result, None) /\
    Columns result = ["id"; "name"] /\
    length (Rows_ result) = 3.
Proof.
  eexists.
  assert (Hrun : fst (DBMan_Query Script.sys "SELECT id, name FROM people"
                        (connected (world_answering people_rows)))
                 = Ret (Some (mk_QueryResult ["id"; "name"]
                          [[rowValue_of (t_nullInt32 1 true);
                            rowValue_of (t_nullString "ada" true)];
                           [rowValue_of (t_nullInt32 2 true);
                            rowValue_of (t_nullString "grace" true)];
                           [rowValue_of (t_nullInt32 3 true);
                            rowValue_of (t_nullString "" false)]]), None)).
  2: { split; [exact Hrun |].
       destruct (Query_result_shape Script.World Script.sys _ _ _ _ Hrun)
         as (db & rows & w & columns & _ & Hq & Hc & _ & _ & Hcol & Hlen & _).
       split; reflexivity. }
  vm_compute. reflexivity.
Defined.

(** ** The registry between calls *)

Section Registry.

Variable W : Type.
Variable sys : Sys W.

Lemma SwitchConnection_registry_ok (name : string) (prompter : Prompter W)
    (st : State W) :
  registry_ok (reg st) ->
  registry_ok (reg (snd (DBMan_SwitchConnection sys name prompter st))).
Proof.
  intros (Hcur & Hnone & Hq & Ht).
  destruct (Connections (cfg (reg st)) !! name) as [conn |] eqn:Hconn.
  2: { rewrite (SwitchConnection_unconfigured W sys name prompter st Hconn).
       cbn [snd]. unfold registry_ok. auto. }
  destruct (activeQueriers (reg st) !! name) as [q |] eqn:Hcached.
  { rewrite (SwitchConnection_cached W sys name prompter st conn q Hconn Hcached).
    cbn [snd reg]. unfold registry_ok, set_currentName, set_current.
    cbn [current currentName activeQueriers activeTunnels cfg].
    split_and!; auto. discriminate. }
  destruct (SwitchConnection_uncached W sys name prompter st conn Hconn Hcached)
    as (r & d' & h & w & seg & E & Hcfg & _ & _ & _ & _ & _ & _ & Hcase & Hr).
  rewrite E. cbn [snd reg].
  assert (Htun : forall tn, is_Some (activeTunnels d' !! tn) ->
                 tn <> "" /\
                 exists n conn, Connections (cfg (reg st)) !! n = Some conn /\
                                Connection.Tunnel conn = tn).
  { intros tn Hsome.
    destruct Hcase as [(Hsame & _) | (t & tun & Hne & _ & _ & _ & Hins & _)].
    - rewrite Hsame in Hsome. auto.
    - rewrite Hins in Hsome.
      destruct (decide (Connection.Tunnel conn = tn)) as [<- | Hother].
      + split; [assumption |]. eauto.
      + rewrite lookup_insert_ne in Hsome by assumption. auto. }
  unfold registry_ok.
  destruct r as [[e |] | p].
  - destruct Hr as (Eq & Ec & En). rewrite Eq, Ec, En, Hcfg. split_and!; auto.
  - destruct Hr as (db & timeout & seg0 & _ & _ & _ & _ & Eq & Ec & En).
    rewrite Eq, Ec, En, Hcfg.
    split_and!; auto.
    + now rewrite lookup_insert_eq.
    + discriminate.
    + intros n Hsome.
      destruct (decide (name = n)) as [<- | Hother]; [eauto |].
      rewrite lookup_insert_ne in Hsome by assumption. auto.
  - destruct Hr as (Eq & Ec & En). rewrite Eq, Ec, En, Hcfg. split_and!; auto.
Qed.

(** X12.  On a registry made by New, after any sequence of SwitchConnection
    calls, whatever each of them returned: the current connection is the
    cached connection of CurrentName; while there is no current connection
    CurrentName is empty and nothing is cached; every cached connection
    belongs to a configured name, and every cached tunnel is the tunnel that
    some configured connection names. *)
Theorem registry_stays_consistent (c : Config)
    (calls : list (string * Prompter W)) (st : State W) :
  reg st = New c ->
  registry_ok (reg (switch_all sys calls st)).
Proof.
  intros Hnew.
  assert (Hok : registry_ok (reg st)).
  { rewrite Hnew. unfold registry_ok, New.
    cbn [current currentName activeQueriers activeTunnels cfg].
    split_and!; auto.
    - intros n [q Hq]. rewrite lookup_empty in Hq. discriminate.
    - intros tn [t Ht]. rewrite lookup_empty in Ht. discriminate. }
  clear Hnew. revert st Hok.
  induction calls as [| [name prompter] calls IH]; intros st Hok.
  - exact Hok.
  - cbn [switch_all]. apply IH. now apply SwitchConnection_registry_ok.
Qed.

End Registry.

Lemma registry_stays_consistent_witness :
  registry_ok
    (reg (switch_all Script.sys
            [("a", Script.prompter); ("nowhere", Script.prompter);
             ("c", Script.prompter); ("a", Script.prompter)]
            (Script.init ex_dial_fails_once))).
Proof.
  apply (registry_stays_consistent Script.World Script.sys Script.config).
  reflexivity.
Defined.

(** ** ListConnections *)

Section Listing.

Variable W : Type.
Variable sys : Sys W.

Lemma flags_lookup {A : Type} (f : string -> bool) (ks : list (string * A))
    (i : nat) (n : string) (b : bool) :
  map fst ks !! i = Some n ->
  map (fun k => f (fst k)) ks !! i = Some b ->
  b = f n.
Proof.
  revert i. induction ks as [| k ks IH]; intros i; [discriminate |].
  destruct i as [| i]; cbn.
  - intros [= <-] [= <-]. reflexivity.
  - apply IH.
Qed.

(** X13.  When a range over a map visits every entry once, ListConnections
    returns two lists of the same length: every configured connection name
    exactly once and nothing else, and at each position the flag that tells
    whether the name at that position is in the connection cache.  The call
    changes nothing. *)
Theorem ListConnections_flags (st : State W) :
  (forall (A : Type) (m : gmap string A) (w : W),
     map_range W sys A m w ≡ₚ map_to_list m) ->
  exists names active,
    DBMan_ListConnections W sys st = (Ret (names, active), st) /\
    length names = length active /\
    NoDup names /\
    (forall n, n ∈ names <-> is_Some (Connections (cfg (reg st)) !! n)) /\
    (forall i n b,
       names !! i = Some n -> active !! i = Some b ->
       (b = true <-> is_Some (activeQueriers (reg st) !! n))).
Proof.
  intros Hrange. destruct st as [d h w tr].
  unfold DBMan_ListConnections, range_over, get_reg.
  cbv beta iota zeta delta [bind ret reg heap world trace fst snd].
  pose proof (Hrange _ (Connections (cfg d)) w) as Hperm.
  set (ks := map_range W sys Connection.t (Connections (cfg d)) w) in *.
  eexists _, _. split; [reflexivity |].
  assert (Hnames : map fst ks ≡ₚ (map_to_list (Connections (cfg d))).*1).
  { change (map fst ks) with (ks.*1). now rewrite Hperm. }
  split_and!.
  - now rewrite !length_map.
  - rewrite Hnames. apply NoDup_fst_map_to_list.
  - intros n. rewrite Hnames, list_elem_of_fmap. split.
    + intros ([n' conn] & -> & Hin). cbn [fst].
      apply elem_of_map_to_list in Hin. eauto.
    + intros [conn Hconn]. exists (n, conn). split; [reflexivity |].
      now apply elem_of_map_to_list.
  - intros i n b Hn Hb.
    rewrite (flags_lookup
               (fun k => bool_decide (is_Some (activeQueriers d !! k)))
               ks i n b Hn Hb).
    apply bool_decide_eq_true.
Qed.

End Listing.

Lemma ListConnections_flags_witness :
  exists names active,
    DBMan_ListConnections Script.World Script.sys
      (connected Script.quiet) = (Ret (names, active), connected Script.quiet) /\
    length names = length active.
Proof.
  destruct (ListConnections_flags Script.World Script.sys
              (connected Script.quiet)) as (names & active & E & Hlen & _).
  - intros A m w. reflexivity.
  - exists names, active. split; assumption.
Defined.

(** ** SwitchConnection: the driver is looked at last *)

Section Driver.

Variable W : Type.
Variable sys : Sys W.

Lemma SwitchConnection_resolve_driver (conn conn' : Connection.t)
    (prompter : Prompter W) (st : State W) :
  fst (SwitchConnection_resolve W sys conn prompter st) = Ret (inl conn') ->
  Connection.Driver conn' = Connection.Driver conn.
Proof.
  unfold SwitchConnection_resolve, bind at 1.
  assert (Hpw : forall c s,
             Connection.Driver c = Connection.Driver conn ->
             fst ((if decide (Connection.Password c = "")
                   then SwitchConnection_password W sys c prompter
                   else ret (inl c)) s) = Ret (inl conn') ->
             Connection.Driver conn' = Connection.Driver conn).
  { intros c s Hc. destruct (decide _).
    - destruct (SwitchConnection_password_spec W sys c prompter s)
        as (r & w & seg & E & _ & Hr).
      rewrite E. cbn [fst]. intros ->.
      destruct (Hr conn' eq_refl) as [pw ->]. exact Hc.
    - unfold ret. cbn [fst]. intros [= <-]. exact Hc. }
  destruct (decide (Connection.Tunnel conn <> "")).
  - destruct (SwitchConnection_tunnel_spec W sys conn prompter st)
      as (r & d1 & h1 & w1 & seg1 & E & _ & _ & _ & _ & _ & _ & _ & _ & _ & _ &
          _ & Hr).
    rewrite E. destruct r as [[conn1 | e] | p]; try discriminate.
    destruct (Hr conn1 eq_refl) as (host & port & ->).
    apply Hpw. reflexivity.
  - unfold ret at 1. apply Hpw. reflexivity.
Qed.

(** X14.  The driver of a connection is looked at only after its tunnel and
    its password: a switch to a configured connection that is not cached and
    whose driver is not postgres never succeeds and never opens or pings a
    database, and it leaves the connection cache, the current connection
    and its name alone; but a tunnel that it established on the way stays
    in the tunnel cache.  When the connection has no tunnel and has a
    password, the error is the one about the driver and nothing outside is
    called. *)
Theorem unsupported_driver_checked_last (name : string) (prompter : Prompter W)
    (st : State W) (conn : Connection.t) :
  Connections (cfg (reg st)) !! name = Some conn ->
  activeQueriers (reg st) !! name = None ->
  Connection.Driver conn <> "postgres" ->
  exists r d' h w seg,
    DBMan_SwitchConnection sys name prompter st
      = (r, mk_State d' h w (trace st ++ seg)) /\
    r <> Ret None /\
    count is_OpenDB seg = 0 /\ count is_PingContext seg = 0 /\
    activeQueriers d' = activeQueriers (reg st) /\
    current d' = current (reg st) /\
    currentName d' = currentName (reg st) /\
    (0 < count is_ssh_Dial_ok seg ->
     is_Some (activeTunnels d' !! Connection.Tunnel conn)) /\
    (Connection.Tunnel conn = "" -> Connection.Password conn <> "" ->
     r = Ret (Some (errors_New "unsupported database driver")) /\ seg = []).
Proof.
  intros Hconn Hnone Hdriver.
  unfold DBMan_SwitchConnection, bind at 1, get_reg.
  rewrite Hconn, Hnone. unfold bind at 1.
  pose proof (SwitchConnection_resolve_driver conn) as Hkeep.
  specialize (fun c => Hkeep c prompter st).
  destruct (SwitchConnection_resolve_spec W sys conn prompter st)
    as (r1 & d1 & h1 & w1 & seg1 & E1 & Hcfg & Hq & Hcur & Hname & Hheap &
        Hopen & Hping & Hdial & Hlisten & Hquiet & Hcase).
  assert (Hshort :
    Connection.Tunnel conn = "" -> Connection.Password conn <> "" ->
    r1 = Ret (inl conn) /\ seg1 = []).
  { intros Htun Hpw. revert E1.
    unfold SwitchConnection_resolve, bind at 1.
    destruct (decide (Connection.Tunnel conn <> "")); [contradiction |].
    unfold ret at 1.
    destruct (decide (Connection.Password conn = "")); [contradiction |].
    unfold ret. destruct st as [d h w tr]. cbn [trace].
    intros [= <- _ _ _ Htr].
    split; [reflexivity |].
    apply (f_equal (@length Event)) in Htr. rewrite length_app in Htr.
    destruct seg1; [reflexivity | cbn in Htr; lia]. }
  rewrite E1 in *. cbn [fst] in Hkeep.
  assert (Hcache : 0 < count is_ssh_Dial_ok seg1 ->
                   is_Some (activeTunnels d1 !! Connection.Tunnel conn)).
  { destruct Hcase as [(_ & _ & Hzero) | (t & tun & _ & _ & _ & _ & -> & _)].
    - rewrite Hzero. lia.
    - intros _. rewrite lookup_insert_eq. eauto. }
  destruct r1 as [[conn1 | e] | p].
  - unfold SwitchConnection_connect.
    destruct (decide (Connection.Driver conn1 = "postgres")) as [Hd | _].
    { rewrite (Hkeep conn1 eq_refl) in Hd. contradiction. }
    unfold ret. eexists _, d1, h1, w1, seg1. split; [reflexivity |].
    split_and!; try assumption; try discriminate.
    intros Htun Hpw. destruct (Hshort Htun Hpw) as [_ ->]. auto.
  - unfold ret. eexists _, d1, h1, w1, seg1. split; [reflexivity |].
    split_and!; try assumption; try discriminate.
    intros Htun Hpw. destruct (Hshort Htun Hpw) as [[=] _].
  - eexists _, d1, h1, w1, seg1. split; [reflexivity |].
    split_and!; try assumption; try discriminate.
    intros Htun Hpw. destruct (Hshort Htun Hpw) as [[=] _].
Qed.

End Driver.

Lemma unsupported_driver_checked_last_witness :
  let st := mk_State (New config_mysql) ∅ Script.quiet [] in
  fst (DBMan_SwitchConnection Script.sys "m" Script.prompter st)
    = Ret (Some (errors_New "unsupported database driver")) /\
  count is_ssh_Dial_ok
    (events_of (DBMan_SwitchConnection Script.sys "m" Script.prompter) st) = 1 /\
  exists r d' h w seg,
    DBMan_SwitchConnection Script.sys "m" Script.prompter st
      = (r, mk_State d' h w (trace st ++ seg)) /\
    r <> Ret None /\
    count is_OpenDB seg = 0 /\ count is_PingContext seg = 0 /\
    activeQueriers d' = activeQueriers (reg st) /\
    current d' = current (reg st) /\
    currentName d' = currentName (reg st) /\
    (0 < count is_ssh_Dial_ok seg ->
     is_Some (activeTunnels d' !! Connection.Tunnel conn_mysql)) /\
    (Connection.Tunnel conn_mysql = "" -> Connection.Password conn_mysql <> "" ->
     r = Ret (Some (errors_New "unsupported database driver")) /\ seg = []).
Proof.
  intros st. split; [vm_compute; reflexivity |].
  split; [vm_compute; reflexivity |].
  apply (unsupported_driver_checked_last Script.World Script.sys "m"
           Script.prompter st conn_mysql).
  - reflexivity.
  - reflexivity.
  - discriminate.
Defined.

(** * The command line *)

Section CommandLine.

Variable W : Type.
Variable sys : Sys W.
Variable con : Console W.

Lemma Query_without_result_set (st : State W) (db : sqlDB) (script : string)
    (rows : Rows) (w : W) :
  current (reg st) = Some (dbMeta db) ->
  db_Query W sys db script [] (world st) = ((rows, None), w) ->
  rows_ColumnTypes rows = ([], None) ->
  DBMan_Query sys script st
  = (Ret (None, None), after st w [ev_Query db script [] None; ev_Rows_Close]).
Proof.
  destruct st as [d h w0 tr]. unfold after. cbn [reg heap world trace].
  intros Hcur Hq Hcols.
  unfold DBMan_Query, bind, get_reg, dbMeta_Query, call, defer_, Rows_Close, log.
  cbn [reg heap world trace]. rewrite Hcur. cbn. rewrite Hq. cbn.
  rewrite Hcols. cbn. destruct (decide (0 = 0)); [| congruence].
  unfold ret. cbn. now rewrite <- app_assoc.
Qed.

(** X15.  The command line dereferences the result of Query without
    looking whether it is nil: a statement that the current connection runs
    and that reports no columns, such as an INSERT or a CREATE, makes query
    panic with a nil dereference after the rows were closed, and so does the
    loop of run for every input line that trims to such a statement.  An
    error of Query is returned as it is, with or without a result. *)
Theorem cli_query_without_result_set_panics (st : State W) (db : sqlDB)
    (line : string) (rows : Rows) (w : W) :
  current (reg st) = Some (dbMeta db) ->
  db_Query W sys db line [] (world st) = ((rows, None), w) ->
  rows_ColumnTypes rows = ([], None) ->
  cli_query W sys con line st
  = (Panicked nil_dereference,
     after st w [ev_Query db line [] None; ev_Rows_Close]) /\
  (forall hs input running c rest,
     strings_TrimSpace con input = line -> line = String c rest ->
     c <> "\"%char ->
     cli_line W sys con hs input running st
     = (Panicked nil_dereference,
        after st w [ev_Query db line [] None; ev_Rows_Close])) /\
  (forall st0 script result e,
     fst (DBMan_Query sys script st0) = Ret (result, Some e) ->
     fst (cli_query W sys con script st0) = Ret (Some e)).
Proof.
  intros Hcur Hq Hcols.
  pose proof (Query_without_result_set st db line rows w Hcur Hq Hcols) as HQ.
  assert (Hquery : cli_query W sys con line st
                   = (Panicked nil_dereference,
                      after st w [ev_Query db line [] None; ev_Rows_Close])).
  { unfold cli_query, bind. rewrite HQ. reflexivity. }
  split_and!.
  - exact Hquery.
  - intros hs input running c rest Htrim Hline Hc.
    unfold cli_line. rewrite Htrim. rewrite Hline in *.
    destruct (decide (c = "\"%char)); [contradiction |].
    unfold bind at 1. now rewrite Hquery.
  - intros st0 script result e. unfold cli_query, bind.
    destruct (DBMan_Query sys script st0) as [[[res err] | p] st1]; cbn [fst].
    + intros [= -> ->]. reflexivity.
    + discriminate.
Qed.

Lemma cli_args_loop_spec (trim : string -> string) (fuel : nat)
    (args : list string) (i : nat) :
  length args - i <= fuel ->
  cli_args_loop trim fuel args i
  = take i args
      ++ List.filter (fun a => negb (bool_decide (a = ""))) (map trim (drop i args)).
Proof.
  revert args i. induction fuel as [| fuel IH]; intros args i Hfuel.
  - cbn [cli_args_loop]. rewrite drop_ge by lia. cbn.
    rewrite take_ge by lia. now rewrite app_nil_r.
  - cbn [cli_args_loop]. destruct (args !! i) as [a |] eqn:Ha.
    + pose proof (lookup_lt_Some _ _ _ Ha) as Hlt.
      rewrite (drop_S _ _ _ Ha). cbn [map List.filter].
      destruct (decide (trim a = "")) as [He | Hne].
      * rewrite bool_decide_eq_true_2 by assumption. cbn [negb].
        rewrite IH.
        -- rewrite take_app_le by (rewrite length_take; lia).
           rewrite take_take, Nat.min_id.
           rewrite drop_app_ge by (rewrite length_take; lia).
           rewrite length_take, Nat.min_l by lia.
           now rewrite Nat.sub_diag.
        -- rewrite length_app, length_take, length_drop. lia.
      * rewrite bool_decide_eq_false_2 by assumption. cbn [negb].
        rewrite IH by (rewrite length_insert; lia).
        rewrite (insert_take_drop args i (trim a)) by lia.
        rewrite (cons_middle (trim a)), app_assoc.
        assert (Hlen : S i = length (take i args ++ [trim a])).
        { rewrite length_app, length_take. cbn. lia. }
        rewrite (take_app_length' _ _ _ Hlen), (drop_app_length' _ _ _ Hlen).
        now rewrite <- app_assoc.
    + apply lookup_ge_None in Ha.
      rewrite drop_ge by lia. cbn. rewrite take_ge by lia.
      now rewrite app_nil_r.
Qed.

(** X16.  The loop of run indexes the trimmed line and command indexes its
    arguments without looking at their lengths: an input line that trims to
    the empty string panics at line[0], and a line that trims to a lone
    backslash, or to a backslash followed only by pieces that trim to
    nothing, panics at args[0], whatever the subcommands are.  The loop
    that tidies the arguments in place leaves exactly the trimmed pieces
    that are not empty, in their order. *)
Theorem cli_line_index_panics (hs : Handlers W) (running : bool)
    (st : State W) :
  (forall input,
     strings_TrimSpace con input = "" ->
     cli_line W sys con hs input running st
     = (Panicked (index_out_of_range 0 0), st)) /\
  (forall rest,
     cli_args (strings_TrimSpace con) rest
     = List.filter (fun a => negb (bool_decide (a = "")))
         (map (strings_TrimSpace con) (strings_Split rest " "%char))) /\
  (forall input rest,
     strings_TrimSpace con input = String "\"%char rest ->
     Forall (fun piece => strings_TrimSpace con piece = "")
            (strings_Split rest " "%char) ->
     cli_line W sys con hs input running st
     = (Panicked (index_out_of_range 0 0), st)) /\
  (forall input,
     strings_TrimSpace con input = "\" ->
     strings_TrimSpace con "" = "" ->
     cli_line W sys con hs input running st
     = (Panicked (index_out_of_range 0 0), st)) /\
  (forall fuel input err w,
     term_ReadLine con (world st) = ((input, err), w) ->
     match err with
     | Some e => errors_Is_EOF con e = false /\ is_ErrPasteIndicator con e = true
     | None => True
     end ->
     strings_TrimSpace con input = "" ->
     cli_loop W sys con hs (S fuel) true st
     = (Panicked (index_out_of_range 0 0),
        mk_State (reg st) (heap st) w (trace st))).
Proof.
  assert (Hargs : forall rest,
     cli_args (strings_TrimSpace con) rest
     = List.filter (fun a => negb (bool_decide (a = "")))
         (map (strings_TrimSpace con) (strings_Split rest " "%char))).
  { intros rest. unfold cli_args.
    rewrite cli_args_loop_spec by lia. now rewrite drop_0. }
  assert (Hempty : forall input rest,
     strings_TrimSpace con input = String "\"%char rest ->
     Forall (fun piece => strings_TrimSpace con piece = "")
            (strings_Split rest " "%char) ->
     cli_line W sys con hs input running st
     = (Panicked (index_out_of_range 0 0), st)).
  { intros input rest Htrim Hall. unfold cli_line. rewrite Htrim.
    destruct (decide ("\"%char = "\"%char)); [| congruence].
    rewrite Hargs.
    assert (List.filter (fun a => negb (bool_decide (a = "")))
              (map (strings_TrimSpace con) (strings_Split rest " "%char)) = [])
      as ->.
    { induction Hall as [| piece pieces Hpiece _ IH]; [reflexivity |].
      cbn [map List.filter]. rewrite Hpiece. cbn. exact IH. }
    reflexivity. }
  split_and!.
  - intros input Htrim. unfold cli_line. now rewrite Htrim.
  - exact Hargs.
  - exact Hempty.
  - intros input Htrim Htrim0. apply (Hempty input ""); [exact Htrim |].
    cbn. constructor; [exact Htrim0 | constructor].
  - intros fuel input err w Hread Herr Htrim.
    cbn [cli_loop]. unfold cli_iteration, console, bind at 1 2.
    rewrite Hread.
    assert (Hline : forall s, cli_line W sys con hs input true s
                              = (Panicked (index_out_of_range 0 0), s)).
    { intros s. unfold cli_line. now rewrite Htrim. }
    destruct err as [e |].
    + destruct Herr as [-> ->]. cbn [negb]. now rewrite Hline.
    + now rewrite Hline.
Qed.

End CommandLine.

Lemma cli_query_without_result_set_panics_witness :
  fst (cli_line Script.World Script.sys ex_console ex_handlers
         "  CREATE TABLE t (id int, name text) " true
         (connected (world_answering ddl_rows)))
  = Panicked nil_dereference.
Proof.
  pose proof (cli_query_without_result_set_panics Script.World Script.sys
                ex_console (connected (world_answering ddl_rows))
                (sqlDB_handle 0) "CREATE TABLE t (id int, name text)" ddl_rows
                (Script.mk_World [] [] [] [] [] [] 1)
                eq_refl eq_refl eq_refl) as (_ & Hline & _).
  rewrite (Hline ex_handlers "  CREATE TABLE t (id int, name text) " true
             "C"%char "REATE TABLE t (id int, name text)");
    [reflexivity | reflexivity | reflexivity | discriminate].
Defined.

Lemma cli_line_index_panics_witness :
  cli_line Script.World Script.sys ex_console ex_handlers "   " true
    (connected Script.quiet)
  = (Panicked (index_out_of_range 0 0), connected Script.quiet) /\
  cli_line Script.World Script.sys ex_console ex_handlers " \   " true
    (connected Script.quiet)
  = (Panicked (index_out_of_range 0 0), connected Script.quiet) /\
  cli_args ascii_TrimSpace "switch   a " = ["switch"; "a"].
Proof.
  pose proof (cli_line_index_panics Script.World Script.sys ex_console
                ex_handlers true (connected Script.quiet))
    as (Hblank & Hargs & _ & Hlone & _).
  split_and!.
  - apply Hblank. reflexivity.
  - apply Hlone; reflexivity.
  - exact (Hargs "switch   a ").
Defined.

(** * Validation of the configuration *)

Lemma stringsContains_spec (l : list string) (s : string) :
  stringsContains l s = true <-> s ∈ l.
Proof.
  induction l as [| x l IH]; cbn.
  - split; [discriminate | intros H; inversion H].
  - destruct (decide (x = s)) as [-> | Hne].
    + split; [intros _; left | reflexivity].
    + rewrite IH. split; [intros H; now right |].
      intros H. apply elem_of_cons in H. destruct H as [-> | H];
        [contradiction | assumption].
Qed.

Lemma errorList_result_None (errs : list cfg_error) :
  errorList_result errs = None <-> errs = [].
Proof.
  unfold errorList_result. case_decide as Hlen.
  - split; [discriminate | intros ->; contradiction].
  - split; [intros _ | reflexivity].
    destruct errs; [reflexivity | cbn in Hlen; lia].
Qed.

Lemma Connection_validate_None (drivers : list string) (c : Connection.t)
    (prefix : string) :
  Connection_validate drivers c prefix = None <-> connection_ok drivers c.
Proof.
  unfold Connection_validate, connection_ok.
  rewrite errorList_result_None.
  pose proof (stringsContains_spec drivers (Connection.Driver c)) as Hd.
  destruct (stringsContains drivers (Connection.Driver c));
    destruct (decide (Connection.Host c = "")) as [H1 | H1];
    destruct (decide (Connection.Port c = 0%Z)) as [H2 | H2];
    destruct (decide (Connection.Database c = "")) as [H3 | H3];
    destruct (decide (Connection.Username c = "")) as [H4 | H4];
    destruct (decide (Connection.Driver c = "")) as [H5 | H5];
    destruct (decide (Connection.ConnectTimeoutSec c < 0)%Z) as [H6 | H6];
    cbn [negb app];
    (split; [intros Hnil | intros (G1 & G2 & G3 & G4 & G5 & G6 & G7)]);
    try discriminate Hnil; try contradiction; try lia; try reflexivity;
    try (apply Hd in G6; discriminate G6);
    split_and!; first [assumption | lia | now apply Hd].
Qed.

Lemma AuthMethod_validate_None (a : AuthMethod) :
  AuthMethod_validate a = None <->
  a ∈ [PasswordAuth; PublicKeyAuth; AgentAuth].
Proof.
  unfold AuthMethod_validate. case_bool_decide as Hin.
  - tauto.
  - case_decide; split; (discriminate || contradiction).
Qed.

Lemma SSHTunnel_validate_None (s : SSHTunnel.t) (prefix : string) :
  SSHTunnel_validate s prefix = None <-> tunnel_ok s.
Proof.
  unfold SSHTunnel_validate, tunnel_ok.
  rewrite errorList_result_None.
  pose proof (AuthMethod_validate_None (SSHTunnel.AuthMethod s)) as Ha.
  destruct (AuthMethod_validate (SSHTunnel.AuthMethod s));
    destruct (decide (SSHTunnel.Host s = "")) as [H1 | H1];
    destruct (decide (SSHTunnel.Port s = 0%Z)) as [H2 | H2];
    destruct (decide (SSHTunnel.User s = "")) as [H3 | H3];
    destruct (decide (SSHTunnel.ConnectTimeoutSec s < 0)%Z) as [H4 | H4];
    cbn [app];
    (split; [intros Hnil | intros (G1 & G2 & G3 & G4 & G5)]);
    try discriminate Hnil; try contradiction; try lia; try reflexivity;
    try (apply Ha in G4; discriminate G4);
    split_and!; first [assumption | lia | now apply Ha].
Qed.

Lemma validate_connections_nil (drivers : list string) (c : Config)
    (conns : list (string * Connection.t)) (errs : list cfg_error) :
  validate_connections drivers c conns errs = [] <->
  errs = [] /\
  Forall (fun kv => connection_ok drivers kv.2 /\
                    (Connection.Tunnel kv.2 = "" \/
                     is_Some (Tunnels c !! Connection.Tunnel kv.2))) conns.
Proof.
  revert errs. induction conns as [| [k v] conns IH]; intros errs.
  - cbn. split; [intros ->; auto | tauto].
  - cbn [validate_connections]. rewrite IH, Forall_cons. cbn [snd].
    pose proof (Connection_validate_None drivers v k) as Hv.
    destruct (Connection_validate drivers v k) as [err |].
    + split.
      * intros [Hnil _]. destruct (decide _); [destruct (Tunnels c !! _) |];
          destruct errs; discriminate Hnil.
      * intros (_ & (Hok & _) & _). apply Hv in Hok. discriminate.
    + assert (Hok : connection_ok drivers v) by now apply Hv.
      destruct (decide (Connection.Tunnel v <> "")) as [Hne | He].
      * destruct (Tunnels c !! Connection.Tunnel v) as [t |] eqn:Ht.
        -- split; [intros [-> Hall] | intros (-> & _ & Hall)]; split_and!;
             eauto.
        -- split.
           ++ intros [Hnil _]. destruct errs; discriminate Hnil.
           ++ intros (_ & (_ & [Hc | [t Hc]]) & _);
                [contradiction | discriminate].
      * assert (Connection.Tunnel v = "") as Hnone.
        { destruct (decide (Connection.Tunnel v = "")); [assumption |].
          contradiction. }
        split; [intros [-> Hall] | intros (-> & _ & Hall)]; split_and!; auto.
Qed.

Lemma validate_tunnels_nil (tunnels : list (string * SSHTunnel.t))
    (errs : list cfg_error) :
  validate_tunnels tunnels errs = [] <->
  errs = [] /\ Forall (fun kv => tunnel_ok kv.2) tunnels.
Proof.
  revert errs. induction tunnels as [| [k v] tunnels IH]; intros errs.
  - cbn. split; [intros ->; auto | tauto].
  - cbn [validate_tunnels]. rewrite IH, Forall_cons. cbn [snd].
    pose proof (SSHTunnel_validate_None v k) as Hv.
    destruct (SSHTunnel_validate v k) as [err |].
    + split.
      * intros [Hnil _]. destruct errs; discriminate Hnil.
      * intros (_ & Hok & _). apply Hv in Hok. discriminate.
    + assert (Hok : tunnel_ok v) by now apply Hv.
      split; [intros [-> Hall] | intros (-> & _ & Hall)]; split_and!; auto.
Qed.

(** X17.  Config.validate returns nil exactly for the configurations in
    which every connection has a host, a port, a database, a user name, a
    driver that is registered with database/sql and a timeout that is not
    negative, names no tunnel or a tunnel that is configured, and every
    tunnel has a host, a port, a user, one of the three authentication
    methods and a timeout that is not negative; the order in which the maps
    are ranged over does not matter.  A password, the driver options and
    max_open_conns are not looked at, and the driver need not be postgres. *)
Theorem Config_validate_nil_iff (drivers : list string) (c : Config)
    (conns : list (string * Connection.t))
    (tunnels : list (string * SSHTunnel.t)) :
  conns ≡ₚ map_to_list (Connections c) ->
  tunnels ≡ₚ map_to_list (Tunnels c) ->
  (Config_validate drivers c conns tunnels = None <-> config_ok drivers c) /\
  (Config_validate drivers c conns tunnels = None ->
   forall name conn,
     Connections c !! name = Some conn ->
     Connection.Tunnel conn <> "" ->
     exists tunnel, Tunnels c !! Connection.Tunnel conn = Some tunnel /\
                    tunnel_ok tunnel).
Proof.
  intros Hconns Htunnels.
  assert (Hiff : Config_validate drivers c conns tunnels = None <->
                 config_ok drivers c).
  { unfold Config_validate, config_ok.
    rewrite errorList_result_None, validate_tunnels_nil,
      validate_connections_nil.
    rewrite Hconns, Htunnels, !Forall_forall.
    split.
    - intros ((_ & Hc) & Ht). split.
      + intros k v Hk. apply (Hc (k, v)). now apply elem_of_map_to_list.
      + intros k s Hk. apply (Ht (k, s)). now apply elem_of_map_to_list.
    - intros (Hc & Ht). split_and!; [reflexivity | |].
      + intros [k v] Hin. apply elem_of_map_to_list in Hin.
        exact (Hc k v Hin).
      + intros [k s] Hin. apply elem_of_map_to_list in Hin.
        exact (Ht k s Hin). }
  split; [exact Hiff |].
  intros Hnil name conn Hconn Hne.
  apply Hiff in Hnil. destruct Hnil as (Hc & Ht).
  destruct (Hc name conn Hconn) as (_ & [He | [tunnel Htun]]);
    [contradiction |].
  exists tunnel. split; [exact Htun | exact (Ht _ _ Htun)].
Qed.

Lemma Config_validate_nil_iff_witness :
  Config_validate ["postgres"] Script.config
    (map_to_list (Connections Script.config))
    (map_to_list (Tunnels Script.config)) = None /\
  config_ok ["postgres"] Script.config.
Proof.
  assert (Hrun : Config_validate ["postgres"] Script.config
                   (map_to_list (Connections Script.config))
                   (map_to_list (Tunnels Script.config)) = None)
    by (vm_compute; reflexivity).
  split; [exact Hrun |].
  apply (proj1 (Config_validate_nil_iff ["postgres"] Script.config
                  (map_to_list (Connections Script.config))
                  (map_to_list (Tunnels Script.config))
                  (reflexivity _) (reflexivity _))).
  exact Hrun.
Defined.

(** * util.go: the check against known_hosts *)






(** * The accept loop of a tunnel *)

Section Accept.

Variable W : Type.
Variable sys : Sys W.

Lemma add_connections_nil (tun : Tunnel) : add_connections tun [] = tun.
Proof. destruct tun. unfold add_connections. cbn. now rewrite app_nil_r. Qed.

Lemma add_connections_app (tun : Tunnel) (c : Closer) (conns : list Closer) :
  add_connections (add_connections tun [c]) conns
  = add_connections tun (c :: conns).
Proof. unfold add_connections. cbn. now rewrite <- app_assoc. Qed.

Lemma Tunnel_forward_spec (t : nat) (tun : Tunnel) (conn : Closer)
    (st : State W) :
  heap st !! t = Some tun ->
  exists w seg,
    Tunnel_forward W sys t conn st = (Ret tt, after st w seg) /\
    (forall l r, ev_Accept l r ∉ seg).
Proof.
  destruct st as [d h w tr]. cbn [heap]. intros Ht.
  unfold Tunnel_forward, after.
  cbv beta iota zeta delta [bind ret deref get_heap call log reg heap world
                            trace fst snd].
  rewrite Ht.
  destruct (client_Dial W sys (client tun) (remoteHost tun) w)
    as [[remoteConn [e |]] w1].
  - eexists w1, [_]. split; [reflexivity |].
    intros l r Hin. apply list_elem_of_singleton in Hin. discriminate.
  - eexists w1, [_; _; _]. split; [now rewrite <- !app_assoc |].
    intros l r Hin.
    repeat (apply elem_of_cons in Hin; destruct Hin as [Hin | Hin];
            [discriminate |]).
    inversion Hin.
Qed.

Lemma Tunnel_acceptLoop_spec (n t : nat) (tun : Tunnel) (st : State W) :
  heap st !! t = Some tun ->
  exists w seg conns,
    Tunnel_acceptLoop W sys n t st
    = (Ret tt,
       mk_State (reg st) (<[t := add_connections tun conns]> (heap st)) w
                (trace st ++ seg)) /\
    (forall c, c ∈ conns <-> ev_Accept (localConn tun) (accepted c) ∈ seg).
Proof.
  revert tun st. induction n as [| n IH]; intros tun st Ht.
  - destruct st as [d h w tr]. cbn [heap] in Ht.
    exists w, [], []. cbn. rewrite app_nil_r, add_connections_nil.
    rewrite insert_id by assumption. split; [reflexivity |].
    intros c. split; intros H; inversion H.
  - destruct st as [d h w tr]. cbn [heap] in Ht. cbn [Tunnel_acceptLoop].
    cbv beta iota zeta delta [bind ret deref get_heap put_heap call reg heap
                              world trace fst snd].
    rewrite Ht.
    destruct (listener_Accept W sys (localConn tun) w) as [[conn | err op tmp] w1].
    + match goal with
      | |- context [Tunnel_forward W sys t conn ?s] =>
          destruct (Tunnel_forward_spec t (add_connections tun [conn]) conn s)
            as (w2 & seg2 & E2 & Hno); [apply lookup_insert_eq |];
          rewrite E2; clear E2
      end.
      unfold after. cbn [reg heap world trace].
      match goal with
      | |- context [Tunnel_acceptLoop W sys n t ?s] =>
          destruct (IH (add_connections tun [conn]) s)
            as (w3 & seg3 & conns & E3 & Hconns); [apply lookup_insert_eq |];
          rewrite E3; clear E3
      end.
      cbn [reg heap world trace].
      exists w3, (ev_Accept (localConn tun) (accepted conn) :: seg2 ++ seg3),
        (conn :: conns).
      split.
      * rewrite insert_insert_eq, add_connections_app, <- !app_assoc.
        reflexivity.
      * intros c. rewrite !elem_of_cons, elem_of_app, Hconns.
        change (localConn (add_connections tun [conn])) with (localConn tun).
        split.
        -- intros [-> | Hin]; auto.
        -- intros [[= ->] | [Hin | Hin]]; auto.
           exfalso. exact (Hno _ _ Hin).
    + destruct (op && negb tmp).
      * exists w1, [ev_Accept (localConn tun) (accept_failed err op tmp)], [].
        rewrite add_connections_nil, insert_id by assumption.
        split; [reflexivity |].
        intros c. split; intros H; [inversion H |].
        apply list_elem_of_singleton in H. discriminate.
      * destruct (IH tun (mk_State d h w1
                            (tr ++ [ev_Accept (localConn tun)
                                      (accept_failed err op tmp)])) Ht)
          as (w3 & seg3 & conns & E3 & Hconns).
        rewrite E3. cbn [reg heap world trace].
        exists w3,
          (ev_Accept (localConn tun) (accept_failed err op tmp) :: seg3), conns.
        split; [now rewrite <- app_assoc |].
        intros c. rewrite elem_of_cons, Hconns.
        split; [auto | intros [[=] | Hin]; assumption].
Qed.

(** X19.  The accept loop of a tunnel never panics while the tunnel exists,
    leaves the registry and the other tunnels alone, and changes nothing of
    its own tunnel but the list of forwarded connections, to which it
    appends exactly the connections that the listener accepted.  Tunnel.Close
    afterwards closes each of them, and each connection that was on the list
    before, and then the listener, whatever the close calls return. *)
Theorem accepted_connections_are_closed (n t : nat) (tun : Tunnel)
    (st : State W) :
  heap st !! t = Some tun ->
  exists w seg conns st1,
    Tunnel_acceptLoop W sys n t st = (Ret tt, st1) /\
    st1 = mk_State (reg st) (<[t := add_connections tun conns]> (heap st)) w
                   (trace st ++ seg) /\
    (forall c, c ∈ conns <-> ev_Accept (localConn tun) (accepted c) ∈ seg) /\
    exists w' closes err,
      Tunnel_Close sys t st1
      = (Ret err,
         mk_State (reg st1) (heap st1) w'
           (trace st1 ++ closes ++ [ev_Listener_Close (localConn tun) err])) /\
      (forall c, c ∈ connections tun \/ c ∈ conns ->
                 exists err', ev_Closer_Close c err' ∈ closes).
Proof.
  intros Ht.
  destruct (Tunnel_acceptLoop_spec n t tun st Ht)
    as (w & seg & conns & E & Hconns).
  eexists w, seg, conns, _. split; [exact E |].
  split; [reflexivity |]. split; [exact Hconns |].
  match goal with
  | |- context [Tunnel_Close sys t ?s] =>
      destruct (Tunnel_Close_spec W sys t (add_connections tun conns) s)
        as (w' & closes & err & E' & Hall)
  end.
  { apply lookup_insert_eq. }
  exists w', closes, err. split; [exact E' |].
  intros c Hc. apply Hall. unfold add_connections. cbn [connections].
  rewrite elem_of_app. exact Hc.
Qed.

End Accept.

Lemma accepted_connections_are_closed_witness :
  exists w seg conns st1,
    Tunnel_acceptLoop Script.World Script.sys 2 0 ex_open_registry
      = (Ret tt, st1) /\
    st1 = mk_State (reg ex_open_registry)
            (<[0 := add_connections ex_tunnel conns]> (heap ex_open_registry))
            w (trace ex_open_registry ++ seg) /\
    (forall c, c ∈ conns <->
               ev_Accept (localConn ex_tunnel) (accepted c) ∈ seg) /\
    exists w' closes err,
      Tunnel_Close Script.sys 0 st1
      = (Ret err,
         mk_State (reg st1) (heap st1) w'
           (trace st1 ++ closes
              ++ [ev_Listener_Close (localConn ex_tunnel) err])) /\
      (forall c, c ∈ connections ex_tunnel \/ c ∈ conns ->
                 exists err', ev_Closer_Close c err' ∈ closes).
Proof.
  apply (accepted_connections_are_closed Script.World Script.sys 2 0 ex_tunnel
           ex_open_registry).
  vm_compute. reflexivity.
Defined.

(** * The passphrase of a private key *)

Section Passphrase.

Variable W : Type.
Variable sys : Sys W.

Lemma passphrase_loop_spec (prompter : Prompter W) (tunnel : SSHTunnel.t)
    (buf : list byte) (n : nat) (signer : Signer) (err : option error)
    (st : State W) :
  exists r w k,
    passphrase_loop W sys prompter tunnel buf n signer err st
      = (r, after st w (repeat (passphrase_prompt tunnel) k)) /\
    k <= n /\
    match r with
    | Ret (_, Some _) => k = n
    | Ret (_, None) => 0 < k \/ (n = 0 /\ err = None)
    | Panicked p => p = index_out_of_range 0 0 /\ 0 < k
    end.
Proof.
  revert signer err st. induction n as [| n IH]; intros signer err st.
  - destruct st as [d h w tr]. exists (Ret (signer, err)), w, 0.
    unfold after. cbn. rewrite app_nil_r. split; [reflexivity |].
    split; [lia |]. destruct err; auto.
  - destruct st as [d h w tr]. cbn [passphrase_loop].
    unfold run_prompter, index0, after.
    cbv beta iota zeta delta [bind ret raise call reg heap world trace fst snd].
    destruct (prompter (SSHTunnel.Host tunnel) "private key is encrypted"
                ["private key passphrase: "] [false] w)
      as [[answers [e |]] w1].
    + match goal with
      | |- context [passphrase_loop W sys prompter tunnel buf n ?s ?e ?st] =>
          destruct (IH s e st) as (r & w2 & k & E & Hk & Hr); rewrite E
      end.
      unfold after. cbn [reg heap world trace].
      exists r, w2, (S k). split; [now rewrite <- app_assoc |].
      split; [lia |].
      destruct r as [[s' [e' |]] | p]; [lia | lia |].
      destruct Hr as [-> _]. split; [reflexivity | lia].
    + destruct answers as [| a answers].
      * exists (Panicked (index_out_of_range 0 0)), w1, 1.
        split; [reflexivity |]. split; [lia | split; [reflexivity | lia]].
      * destruct (ssh_ParsePrivateKeyWithPassphrase W sys buf
                    (list_byte_of_string a)) as [signer' [e |]].
        -- match goal with
           | |- context [passphrase_loop W sys prompter tunnel buf n ?s ?e ?st] =>
               destruct (IH s e st) as (r & w2 & k & E & Hk & Hr); rewrite E
           end.
           unfold after. cbn [reg heap world trace].
           exists r, w2, (S k). split; [now rewrite <- app_assoc |].
           split; [lia |].
           destruct r as [[s' [e' |]] | p]; [lia | lia |].
           destruct Hr as [-> _]. split; [reflexivity | lia].
        -- exists (Ret (signer', None)), w1, 1.
           split; [reflexivity |]. split; [lia | left; lia].
Qed.

(** X20.  The private-key callback of a tunnel does nothing but prompt: it
    makes at most three prompts for the passphrase, all for the host of the
    tunnel, and none when the key parses without a passphrase or when the
    configuration has a passphrase.  It returns one signer and no error, or
    no signer and an error, and the only panic is the index into an empty
    list of answers.  When the key is encrypted, no passphrase is configured
    and the callback returns an error, all three prompts were made: a failed
    prompt counts as a try. *)
Theorem passphrase_prompts_bounded (prompter : Prompter W)
    (tunnel : SSHTunnel.t) (buf : list byte) (st : State W) :
  exists r w k,
    privateKeySigners W sys prompter tunnel buf st
      = (r, after st w (repeat (passphrase_prompt tunnel) k)) /\
    k <= promptNumRetries /\
    (snd (ssh_ParsePrivateKey W sys buf) = None ->
     k = 0 /\ r = Ret ([fst (ssh_ParsePrivateKey W sys buf)], None)) /\
    (SSHTunnel.PrivateKeyPassphrase tunnel <> "" -> k = 0) /\
    match r with
    | Ret (signers, None) => length signers = 1
    | Ret (signers, Some e) =>
        signers = [] /\
        (SSHTunnel.PrivateKeyPassphrase tunnel = "" ->
         (exists e0, snd (ssh_ParsePrivateKey W sys buf) = Some e0 /\
                     errors_As_PassphraseMissing e0 = true) ->
         k = promptNumRetries)
    | Panicked p => p = index_out_of_range 0 0
    end.
Proof.
  destruct st as [d h w tr]. unfold privateKeySigners, promptNumRetries.
  destruct (ssh_ParsePrivateKey W sys buf) as [signer [e |]] eqn:Hparse;
    cbn [fst snd].
  2: { exists (Ret ([signer], None)), w, 0. unfold after, ret. cbn.
       rewrite app_nil_r. split_and!; auto. }
  destruct (errors_As_PassphraseMissing e) eqn:Has; cbn [negb].
  2: { eexists (Ret ([], Some _)), w, 0. unfold after, ret. cbn.
       rewrite app_nil_r. split_and!; auto; try lia; try discriminate.
       intros _ (e0 & [= <-] & Hc). congruence. }
  unfold bind at 1.
  destruct (decide (SSHTunnel.PrivateKeyPassphrase tunnel <> "")) as [Hpass | Hpass].
  - unfold ret at 1.
    destruct (ssh_ParsePrivateKeyWithPassphrase W sys buf _) as [signer' [e' |]].
    + eexists (Ret ([], Some _)), w, 0. unfold after, ret. cbn.
      rewrite app_nil_r. split_and!; auto; try lia; try discriminate.
      intros Hc. contradiction.
    + exists (Ret ([signer'], None)), w, 0. unfold after, ret. cbn.
      rewrite app_nil_r. split_and!; auto; try lia; discriminate.
  - destruct (passphrase_loop_spec prompter tunnel buf 3 signer (Some e)
                (mk_State d h w tr)) as (r & w1 & k & E & Hk & Hr).
    rewrite E. unfold after in *. cbn [reg heap world trace] in *.
    destruct r as [[signer' [e' |]] | p].
    + eexists (Ret ([], Some _)), w1, k. unfold ret.
      split_and!; auto; try discriminate. contradiction.
    + exists (Ret ([signer'], None)), w1, k. unfold ret.
      split_and!; auto; try discriminate. contradiction.
    + exists (Panicked p), w1, k.
      split_and!; auto; try discriminate; [contradiction | tauto].
Qed.

End Passphrase.

Lemma passphrase_prompts_bounded_witness :
  privateKeySigners Script.World sys_encrypted_key Script.prompter
    Script.bastion [] (Script.init ex_passphrases)
  = (Ret ([Signer_of 1], None),
     after (Script.init ex_passphrases) Script.quiet
       (repeat (passphrase_prompt Script.bastion) 3)) /\
  exists r w k,
    privateKeySigners Script.World sys_encrypted_key Script.prompter
      Script.bastion [] (Script.init ex_passphrases)
      = (r, after (Script.init ex_passphrases) w
              (repeat (passphrase_prompt Script.bastion) k)) /\
    k <= promptNumRetries.
Proof.
  split; [vm_compute; reflexivity |].
  destruct (passphrase_prompts_bounded Script.World sys_encrypted_key
              Script.prompter Script.bastion [] (Script.init ex_passphrases))
    as (r & w & k & E & Hk & _).
  exists r, w, k. split; assumption.
Defined.

(** * The registry after Close *)

Section AfterClose.

Variable W : Type.
Variable sys : Sys W.

Lemma DBMan_Close_spec (st : State W) :
  (forall (A : Type) (m : gmap string A) (w : W),
     map_range W sys A m w ≡ₚ map_to_list m) ->
  tunnels_allocated st ->
  exists w seg,
    DBMan_Close sys st
      = (Ret None, mk_State (reg st) (heap st) w (trace st ++ seg)) /\
    (forall name db,
       activeQueriers (reg st) !! name = Some (dbMeta db) ->
       exists err, ev_DB_Close db err ∈ seg).
Proof.
  intros Hrange Halloc.
  unfold DBMan_Close, bind at 1, get_reg.
  unfold bind at 1, range_over. unfold bind at 1.
  destruct (close_queriers_spec W sys
              (map_range W sys metaQuerier (activeQueriers (reg st)) (world st)) st)
    as (w1 & seg1 & E1 & Hq).
  rewrite E1. clear E1.
  unfold bind at 1. cbn [reg heap world trace].
  unfold bind at 1.
  match goal with
  | |- context [close_tunnels W sys ?ts ?s] =>
      destruct (close_tunnels_spec W sys ts s) as (w2 & seg2 & E2 & Ht)
  end.
  { cbn [heap]. intros n t Hin. rewrite (Hrange _ _ _) in Hin.
    apply elem_of_map_to_list in Hin. exact (Halloc n t Hin). }
  rewrite E2. clear E2. cbn [reg heap world trace] in *.
  exists w2, (seg1 ++ seg2). split; [unfold ret; now rewrite <- app_assoc |].
  intros name db Hl. destruct (Hq name db) as [err Hin].
  { rewrite (Hrange _ _ _). now apply elem_of_map_to_list. }
  exists err. rewrite elem_of_app. now left.
Qed.

(** X21.  Close does not forget what it closed: after Close, a switch to a
    connection that was cached succeeds without opening, pinging or dialing
    anything and makes the handle that Close closed the current connection,
    and a Query then goes to that closed handle. *)
Theorem switch_after_Close_reuses_closed_handle (name : string)
    (prompter : Prompter W) (st : State W) (conn : Connection.t) (db : sqlDB) :
  (forall (A : Type) (m : gmap string A) (w : W),
     map_range W sys A m w ≡ₚ map_to_list m) ->
  tunnels_allocated st ->
  Connections (cfg (reg st)) !! name = Some conn ->
  activeQueriers (reg st) !! name = Some (dbMeta db) ->
  exists w closes st1 st2,
    DBMan_Close sys st = (Ret None, st1) /\
    st1 = mk_State (reg st) (heap st) w (trace st ++ closes) /\
    (exists err, ev_DB_Close db err ∈ closes) /\
    DBMan_SwitchConnection sys name prompter st1 = (Ret None, st2) /\
    st2 = mk_State (set_currentName name (set_current (Some (dbMeta db)) (reg st)))
                   (heap st) w (trace st ++ closes) /\
    forall script,
      exists r w',
        DBMan_Query sys script st2
        = (r, mk_State (reg st2) (heap st2) w'
                (trace st2
                   ++ ev_Query db script []
                        (snd (fst (db_Query W sys db script [] w)))
                   :: match snd (fst (db_Query W sys db script [] w)) with
                      | None => [ev_Rows_Close]
                      | Some _ => []
                      end)).
Proof.
  intros Hrange Halloc Hconn Hq.
  destruct (DBMan_Close_spec st Hrange Halloc) as (w & closes & E & Hclosed).
  eexists w, closes, _, _. split; [exact E |]. split; [reflexivity |].
  split; [exact (Hclosed name db Hq) |].
  split.
  { apply (SwitchConnection_cached W sys name prompter _ conn (dbMeta db));
      assumption. }
  split; [reflexivity |].
  intros script. cbn [reg heap world trace].
  unfold DBMan_Query, bind, get_reg, dbMeta_Query, call, defer_, Rows_Close, log.
  cbn [reg heap world trace current set_currentName set_current].
  destruct (db_Query W sys db script [] w) as [[rows [e |]] w1]; cbn.
  - eexists _, w1. reflexivity.
  - destruct (rows_ColumnTypes rows) as [columns [e |]]; cbn.
    + eexists _, w1. now rewrite <- app_assoc.
    + destruct (decide (length columns = 0)); cbn.
      * eexists _, w1. now rewrite <- app_assoc.
      * destruct (Query_rows W sys _ _ _); cbn; eexists _, w1;
          now rewrite <- app_assoc.
Qed.

End AfterClose.

Lemma switch_after_Close_reuses_closed_handle_witness :
  exists w closes st1 st2,
    DBMan_Close Script.sys ex_open_registry = (Ret None, st1) /\
    st1 = mk_State (reg ex_open_registry) (heap ex_open_registry) w
                   (trace ex_open_registry ++ closes) /\
    (exists err, ev_DB_Close (sqlDB_handle 2) err ∈ closes) /\
    DBMan_SwitchConnection Script.sys "a" Script.prompter st1 = (Ret None, st2) /\
    st2 = mk_State (set_currentName "a"
                      (set_current (Some (dbMeta (sqlDB_handle 2)))
                         (reg ex_open_registry)))
                   (heap ex_open_registry) w (trace ex_open_registry ++ closes).
Proof.
  destruct (switch_after_Close_reuses_closed_handle Script.World Script.sys
              "a" Script.prompter ex_open_registry Script.conn_a (sqlDB_handle 2))
    as (w & closes & st1 & st2 & E1 & Hst1 & Hclosed & E2 & Hst2 & _).
  - intros A m w. reflexivity.
  - exact ex_open_registry_allocated.
  - vm_compute. reflexivity.
  - vm_compute. reflexivity.
  - exists w, closes, st1, st2. split_and!; assumption.
Defined.

(** * Connections that share a tunnel *)

Section SharedTunnel.

Variable W : Type.
Variable sys : Sys W.

(** X22.  Once the tunnel that a connection names is cached, the host and
    the port of the connection are not used any more: a switch to a
    connection that is not cached behaves in the same way, call for call and
    with the same result, whatever host and port the configuration gives
    the connection, because the connection is pointed at the local end of
    the tunnel, and the tunnel keeps forwarding to the host it was created
    for. *)
Theorem cached_tunnel_ignores_host (name : string) (prompter : Prompter W)
    (st : State W) (conn : Connection.t) (t : nat) (host' : string)
    (port' : Z) :
  Connections (cfg (reg st)) !! name = Some conn ->
  activeQueriers (reg st) !! name = None ->
  Connection.Tunnel conn <> "" ->
  activeTunnels (reg st) !! Connection.Tunnel conn = Some t ->
  let conn' := Connection.set_Port port' (Connection.set_Host host' conn) in
  let st' := mk_State (with_connection name conn' (reg st)) (heap st)
                      (world st) (trace st) in
  exists r d1 d2 w tr,
    DBMan_SwitchConnection sys name prompter st
      = (r, mk_State d1 (heap st) w tr) /\
    DBMan_SwitchConnection sys name prompter st'
      = (r, mk_State d2 (heap st) w tr) /\
    d2 = with_connection name conn' d1 /\
    cfg d1 = cfg (reg st).
Proof.
  intros Hconn Hnone Htun Hcached conn' st'.
  destruct st as [d h w tr]. cbn [reg heap world trace] in *.
  subst st'. unfold DBMan_SwitchConnection.
  cbv beta iota zeta delta [bind get_reg reg heap world trace].
  unfold with_connection at 1 2. cbn [cfg Connections activeQueriers].
  rewrite lookup_insert_eq, Hconn, Hnone.
  unfold SwitchConnection_resolve.
  cbv beta iota zeta delta [bind get_reg reg heap world trace].
  assert (Htun' : Connection.Tunnel conn' <> "") by exact Htun.
  destruct (decide (Connection.Tunnel conn <> "")); [| contradiction].
  destruct (decide (Connection.Tunnel conn' <> "")); [| contradiction].
  unfold SwitchConnection_tunnel.
  cbv beta iota zeta delta [bind ret raise get_reg deref get_heap reg heap
                            world trace].
  unfold with_connection at 1. cbn [activeTunnels].
  change (Connection.Tunnel conn') with (Connection.Tunnel conn).
  rewrite Hcached.
  destruct (h !! t) as [tun |].
  2: { eexists _, d, _, w, tr. split; [reflexivity |].
       split; [reflexivity |]. split; reflexivity. }
  destruct (net_SplitHostPort W sys (listener_Addr (localConn tun)))
    as [[localHost localPort] e0].
  assert (Hsame :
    Connection.set_Port (fst (strconv_Atoi W sys localPort))
      (Connection.set_Host localHost conn')
    = Connection.set_Port (fst (strconv_Atoi W sys localPort))
        (Connection.set_Host localHost conn)).
  { destruct conn. reflexivity. }
  rewrite Hsame. clear Hsame.
  set (conn1 := Connection.set_Port _ (Connection.set_Host localHost conn)).
  cbv beta iota zeta delta [ret].
  assert (Hpw : forall (c : Connection.t) (_ : unit),
    exists r w1 tr1,
      forall d0 : DBMan,
        (if decide (Connection.Password c = "")
         then SwitchConnection_password W sys c prompter
         else ret (inl c)) (mk_State d0 h w tr)
        = (r, mk_State d0 h w1 tr1)).
  { intros c _. destruct (decide (Connection.Password c = "")).
    - unfold SwitchConnection_password, run_prompter, index0.
      cbv beta iota zeta delta [bind ret raise peek call reg heap world trace
                                fst snd].
      destruct (decide (os_Getenv W sys "PGPASSWORD" w <> "")).
      + eexists _, _, _. intros d0. reflexivity.
      + destruct (prompter "" "" ["database password: "] [false] w)
          as [[answers [err |]] w1].
        * eexists _, _, _. intros d0. reflexivity.
        * destruct answers; eexists _, _, _; intros d0; reflexivity.
    - eexists _, _, _. intros d0. reflexivity. }
  destruct (Hpw conn1 tt) as (r1 & w1 & tr1 & Epw). clear Hpw.
  unfold ret in Epw.
  setoid_rewrite (Epw d). setoid_rewrite (Epw (with_connection name conn' d)).
  clear Epw.
  destruct r1 as [[conn2 | err] | p].
  - unfold SwitchConnection_connect.
    destruct (decide (Connection.Driver conn2 = "postgres")).
    2: { eexists _, d, _, w1, tr1. split; [reflexivity |].
         split; [reflexivity |]. split; reflexivity. }
    unfold postgresOpen.
    cbv beta iota zeta delta [bind ret peek call update_reg get_reg put_reg
                              reg heap world trace fst snd].
    destruct (pq_NewConnector W sys _ w1) as [connector [err |]].
    { eexists _, d, _, w1, _. split; [reflexivity |].
      split; [reflexivity |]. split; reflexivity. }
    destruct (sql_OpenDB W sys connector w1) as [db w2].
    destruct (db_PingContext W sys db _ _) as [[err |] w3].
    + eexists _, d, _, w3, _. split; [reflexivity |].
      split; [reflexivity |]. split; reflexivity.
    + eexists _, _, _, w3, _. split; [reflexivity |].
      split; [reflexivity |]. split; reflexivity.
  - eexists _, d, _, w1, tr1. split; [reflexivity |].
    split; [reflexivity |]. split; reflexivity.
  - eexists _, d, _, w1, tr1. split; [reflexivity |].
    split; [reflexivity |]. split; reflexivity.
Qed.

End SharedTunnel.

Lemma cached_tunnel_ignores_host_witness :
  let conn' :=
    Connection.set_Port 1 (Connection.set_Host "elsewhere.example" Script.conn_b) in
  let st' :=
    mk_State (with_connection "b" conn' (reg ex_tunnel_cached))
             (heap ex_tunnel_cached) (world ex_tunnel_cached)
             (trace ex_tunnel_cached) in
  exists r d1 d2 w tr,
    DBMan_SwitchConnection Script.sys "b" Script.prompter ex_tunnel_cached
      = (r, mk_State d1 (heap ex_tunnel_cached) w tr) /\
    DBMan_SwitchConnection Script.sys "b" Script.prompter st'
      = (r, mk_State d2 (heap ex_tunnel_cached) w tr) /\
    d2 = with_connection "b" conn' d1 /\
    cfg d1 = cfg (reg ex_tunnel_cached).
Proof.
  apply (cached_tunnel_ignores_host Script.World Script.sys "b" Script.prompter
           ex_tunnel_cached Script.conn_b 0 "elsewhere.example" 1).
  - vm_compute. reflexivity.
  - vm_compute. reflexivity.
  - discriminate.
  - vm_compute. reflexivity.
Defined.

(** * util.go: the prompt on the terminal *)

Section PromptAnswers.

Variable W : Type.
Variable sys : Sys W.
Variable tty : PromptTerminal W.

Lemma PasswordPrompt_loop_spec (questions : list string) (i : nat)
    (echos : list bool) (answers : list string) (w : W) :
  i + length questions <= length echos ->
  exists r w',
    PasswordPrompt_loop W tty questions i echos answers w = (Ret r, w') /\
    match r with
    | (got, None) => length got = length answers + length questions
    | (got, Some e) => got = [] /\ pt_is_ErrPasteIndicator tty e = false
    end.
Proof.
  revert i answers w. induction questions as [| q rest IH];
    intros i answers w Hlen.
  - exists (answers, None), w. cbn. split; [reflexivity | lia].
  - cbn [PasswordPrompt_loop length] in *.
    destruct (echos !! i) as [echo |] eqn:Hecho.
    2: { apply lookup_ge_None in Hecho. lia. }
    destruct (if echo then pt_ReadLine tty (pt_SetPrompt tty q w)
              else pt_ReadPassword tty q w) as [[a err] w1].
    assert (Hrest : exists r w',
              PasswordPrompt_loop W tty rest (S i) echos (answers ++ [a]) w1
                = (Ret r, w') /\
              match r with
              | (got, None) => length got = length answers + S (length rest)
              | (got, Some e) =>
                  got = [] /\ pt_is_ErrPasteIndicator tty e = false
              end).
    { destruct (IH (S i) (answers ++ [a]) w1) as (r & w' & E & Hr); [lia |].
      exists r, w'. split; [exact E |].
      destruct r as [got [e |]]; [exact Hr |].
      rewrite length_app in Hr. cbn in Hr. lia. }
    destruct err as [e |]; [| exact Hrest].
    destruct (pt_is_ErrPasteIndicator tty e) eqn:Hpaste; cbn [negb];
      [exact Hrest |].
    exists ([], Some e), w1. auto.
Qed.

(** X23.  When there is an echo flag for every question, the prompt of
    util.go does not panic and returns either one answer for every
    question and no error, or no answers and the error of the terminal,
    which is never the paste indicator; with a question and no flag at all
    it panics at the first index.  As the prompter of the registry, which
    asks one question with one flag, it therefore always has a
    first answer: the part of SwitchConnection that asks for the database
    password cannot panic with it. *)
Theorem PasswordPrompt_answers (user instruction : string)
    (questions : list string) (echos : list bool) (w : W) :
  (length questions <= length echos ->
   exists r w',
     PasswordPrompt W tty user instruction questions echos w = (Ret r, w') /\
     match r with
     | (answers, None) => length answers = length questions
     | (answers, Some e) =>
         answers = [] /\ pt_is_ErrPasteIndicator tty e = false
     end) /\
  (echos = [] -> questions <> [] ->
   fst (PasswordPrompt W tty user instruction questions echos w)
   = Panicked (index_out_of_range 0 0)) /\
  (forall conn st,
     exists r st',
       SwitchConnection_password W sys conn (PasswordPrompt_prompter W tty) st
       = (Ret r, st')).
Proof.
  split_and!.
  - intros Hlen. unfold PasswordPrompt.
    match goal with
    | |- context [PasswordPrompt_loop W tty questions 0 echos [] ?w0] =>
        destruct (PasswordPrompt_loop_spec questions 0 echos [] w0)
          as (r & w' & E & Hr); [cbn; lia |]
    end.
    eexists r, _. rewrite E. split; [reflexivity |].
    destruct r as [got [e |]]; [exact Hr | exact Hr].
  - intros -> Hq. unfold PasswordPrompt.
    destruct questions as [| q rest]; [contradiction |]. reflexivity.
  - intros conn [d h w0 tr].
    unfold SwitchConnection_password, run_prompter, index0.
    cbv beta iota zeta delta [bind ret raise peek call reg heap world trace
                              fst snd].
    destruct (decide (os_Getenv W sys "PGPASSWORD" w0 <> "")).
    { eexists _, _. reflexivity. }
    unfold PasswordPrompt_prompter, PasswordPrompt.
    match goal with
    | |- context [PasswordPrompt_loop W tty ?qs 0 ?es [] ?w1] =>
        destruct (PasswordPrompt_loop_spec qs 0 es [] w1)
          as (r & w' & E & Hr); [cbn; lia |]
    end.
    rewrite E. destruct r as [got [e |]].
    + eexists _, _. reflexivity.
    + destruct got as [| a got]; [cbn in Hr; lia |].
      eexists _, _. reflexivity.
Qed.

End PromptAnswers.

Lemma PasswordPrompt_answers_witness :
  exists r w',
    PasswordPrompt Script.World ex_tty "" "" ["database password: "] [false]
      Script.quiet = (Ret r, w') /\
    match r with
    | (answers, None) => length answers = length ["database password: "]
    | (answers, Some e) =>
        answers = [] /\ pt_is_ErrPasteIndicator ex_tty e = false
    end.
Proof.
  apply (proj1 (PasswordPrompt_answers Script.World Script.sys ex_tty "" ""
                  ["database password: "] [false] Script.quiet)).
  cbn. lia.
Defined.

(** * SwitchConnection closes nothing *)

Section NoClose.

Variable W : Type.
Variable sys : Sys W.

(** The innermost test of the goal is decided, and the computation goes
    on. *)
Ltac decide_next :=
  cbv beta iota zeta delta [fst snd];
  match goal with
  | |- context [match ?x with _ => _ end] =>
      lazymatch x with
      | context [match _ with _ => _ end] => fail
      | _ => destruct x
      end
  end.

Ltac no_close_leaf :=
  cbv beta iota zeta delta [fst snd];
  first
    [ exists []; split; [now rewrite app_nil_r | constructor]
    | eexists; split; [rewrite <- ?app_assoc; reflexivity | repeat constructor] ].

Lemma SwitchConnection_events (name : string) (prompter : Prompter W)
    (st : State W) :
  exists seg,
    trace (snd (DBMan_SwitchConnection sys name prompter st)) = trace st ++ seg /\
    Forall (fun e => is_close e = false) seg.
Proof.
  destruct st as [d h w tr].
  unfold DBMan_SwitchConnection, SwitchConnection_resolve,
    SwitchConnection_tunnel, NewTunnel, NewTunnel_hostKeyCB, NewTunnel_auth,
    alloc, SwitchConnection_password, run_prompter, index0,
    SwitchConnection_connect, postgresOpen.
  cbv beta iota zeta delta [bind ret raise get_reg put_reg get_heap put_heap
                            log peek call call_outcome update_reg deref reg
                            heap world trace].
  repeat decide_next; no_close_leaf.
Qed.

(** X24.  SwitchConnection never closes anything, however it ends: none of
    its calls is a Close of a database handle, of a forwarded connection or
    of a listener.  So the listener that NewTunnel opened before a dial
    that failed is not closed by the call, and neither is the database
    handle whose ping failed. *)
Theorem SwitchConnection_never_closes (name : string) (prompter : Prompter W)
    (st : State W) :
  let seg := events_of (DBMan_SwitchConnection sys name prompter) st in
  trace (snd (DBMan_SwitchConnection sys name prompter st)) = trace st ++ seg /\
  Forall (fun e => is_close e = false) seg /\
  (forall l err0 err, ev_net_Listen l err0 ∈ seg ->
                      ev_Listener_Close l err ∉ seg) /\
  (forall c db err, ev_OpenDB c db ∈ seg -> ev_DB_Close db err ∉ seg).
Proof.
  intros seg. subst seg. unfold events_of.
  destruct (SwitchConnection_events name prompter st) as (seg & E & Hall).
  rewrite E, drop_app_length.
  split; [reflexivity |]. split; [exact Hall |].
  rewrite Forall_forall in Hall.
  split; intros; intros Hin; apply Hall in Hin; discriminate.
Qed.

End NoClose.

Lemma SwitchConnection_never_closes_witness :
  let seg :=
    events_of (DBMan_SwitchConnection Script.sys "a" Script.prompter)
              (Script.init ex_dial_fails_once) in
  fst (DBMan_SwitchConnection Script.sys "a" Script.prompter
         (Script.init ex_dial_fails_once)) <> Ret None /\
  ev_net_Listen (mk_Listener 0 "127.0.0.1:40000") None ∈ seg /\
  forall err, ev_Listener_Close (mk_Listener 0 "127.0.0.1:40000") err ∉ seg.
Proof.
  intros seg. split; [vm_compute; discriminate |].
  assert (Hin : ev_net_Listen (mk_Listener 0 "127.0.0.1:40000") None ∈ seg).
  { vm_compute. repeat first [left | right]. }
  split; [exact Hin |].
  intros err.
  exact (proj1 (proj2 (proj2 (SwitchConnection_never_closes Script.World
                  Script.sys "a" Script.prompter
                  (Script.init ex_dial_fails_once)))) _ None err Hin).
Defined.

(** * Lists of errors *)

Lemma makeErrorList_loop_spec (errs : list (option cfg_error))
    (acc : list cfg_error) :
  makeErrorList_loop errs acc = acc ++ flat_map error_lines errs.
Proof.
  revert acc. induction errs as [| err errs IH]; intros acc; cbn.
  - now rewrite app_nil_r.
  - destruct err as [[text | v] |]; rewrite IH; cbn [error_lines];
      now rewrite <- ?app_assoc.
Qed.

Lemma append_cons_assoc (a b d : string) (c : ascii) :
  (a +:+ String c b) +:+ d = a +:+ String c (b +:+ d).
Proof.
  induction a as [| x a IH]; [reflexivity |].
  change ((String x a +:+ String c b) +:+ d)
    with (String x ((a +:+ String c b) +:+ d)).
  now rewrite IH.
Qed.

Lemma errorList_Error_cons (e : cfg_error) (l : list cfg_error) :
  cfg_error_Error (cfg_list (e :: l))
  = cfg_error_Error e +:+ String "010"%char (cfg_error_Error (cfg_list l)).
Proof. reflexivity. Qed.

Lemma errorList_Error_app (l1 l2 : list cfg_error) :
  cfg_error_Error (cfg_list (l1 ++ l2))
  = cfg_error_Error (cfg_list l1) +:+ cfg_error_Error (cfg_list l2).
Proof.
  induction l1 as [| e l1 IH]; [reflexivity |].
  cbn [app]. rewrite !errorList_Error_cons, IH.
  now rewrite append_cons_assoc.
Qed.

(** X25.  makeErrorList flattens its arguments by one level and drops the
    nil ones: it returns nil exactly when every argument is nil or an empty
    list, never an empty list, and otherwise the list of the entries of the
    lists and of the single errors among the arguments, in their order; its
    text ends every entry with a new line, and the text of two lists one
    after the other is the text of their concatenation. *)
Theorem makeErrorList_flattens (errs : list (option cfg_error)) :
  (makeErrorList errs = None <-> Forall (fun err => error_lines err = []) errs) /\
  (forall e, makeErrorList errs = Some e ->
     e = cfg_list (flat_map error_lines errs) /\ flat_map error_lines errs <> []) /\
  (forall l1 l2,
     cfg_error_Error (cfg_list (l1 ++ l2))
     = cfg_error_Error (cfg_list l1) +:+ cfg_error_Error (cfg_list l2)) /\
  (forall text,
     cfg_error_Error (cfg_list [cfg_msg text]) = text +:+ String "010"%char "").
Proof.
  unfold makeErrorList. rewrite makeErrorList_loop_spec. cbn [app].
  split_and!.
  - rewrite errorList_result_None. induction errs as [| err errs IH]; cbn.
    + split; [constructor | reflexivity].
    + rewrite Forall_cons. split.
      * intros Happ. apply app_eq_nil in Happ. destruct Happ as [H1 H2].
        split; [exact H1 | now apply IH].
      * intros [H1 H2]. rewrite H1. now apply IH.
  - intros e. unfold errorList_result. case_decide as Hlen; [| discriminate].
    intros [= <-]. split; [reflexivity |].
    intros Hnil. rewrite Hnil in Hlen. contradiction.
  - apply errorList_Error_app.
  - reflexivity.
Qed.

Lemma makeErrorList_flattens_witness :
  makeErrorList [None; Some (cfg_msg "a.host: required");
                 Some (cfg_list [cfg_msg "b.port: required";
                                 cfg_msg "b.user: required"]);
                 Some (cfg_list [])]
  = Some (cfg_list [cfg_msg "a.host: required"; cfg_msg "b.port: required";
                    cfg_msg "b.user: required"]) /\
  cfg_list [cfg_msg "a.host: required"; cfg_msg "b.port: required";
            cfg_msg "b.user: required"]
  = cfg_list (flat_map error_lines
                [None; Some (cfg_msg "a.host: required");
                 Some (cfg_list [cfg_msg "b.port: required";
                                 cfg_msg "b.user: required"]);
                 Some (cfg_list [])]).
Proof.
  assert (Hrun : makeErrorList
                   [None; Some (cfg_msg "a.host: required");
                    Some (cfg_list [cfg_msg "b.port: required";
                                    cfg_msg "b.user: required"]);
                    Some (cfg_list [])]
                 = Some (cfg_list [cfg_msg "a.host: required";
                                   cfg_msg "b.port: required";
                                   cfg_msg "b.user: required"]))
    by reflexivity.
  split; [exact Hrun |].
  exact (proj1 (proj1 (proj2 (makeErrorList_flattens _)) _ Hrun)).
Defined.

(** * A tunnel that is not configured *)

Section ZeroTunnel.

Variable W : Type.
Variable sys : Sys W.

Ltac tunnel_next :=
  cbv beta iota zeta delta [fst snd];
  match goal with
  | |- context [match ?x with _ => _ end] =>
      lazymatch x with
      | context [match _ with _ => _ end] => fail
      | _ => destruct x
      end
  end.

Ltac tunnel_leaf :=
  cbv beta iota zeta delta [fst snd];
  eexists; split_and!;
  [ rewrite <- ?app_assoc, drop_app_length; cbn [app]; reflexivity
  | intros ? ? Heq;
    first [discriminate Heq | injection Heq as <- <-; split; reflexivity]
  | intros ? Heq;
    first [ discriminate Heq
          | cbn [activeTunnels set_currentName set_current set_activeQueriers
                 set_activeTunnels reg];
            rewrite lookup_insert_eq; eauto ] ].

(** X26.  SwitchConnection does not check that the tunnel of a connection
    is configured: for a connection that names a tunnel which is neither
    cached nor in the configuration, and once the home directory is known
    and the local listener is open, it dials the address [:0] with an empty
    user, a nil authentication method and the known_hosts check.  When that
    dial fails the call stops there and returns the error of the dial,
    wrapped twice; when it succeeds the tunnel is cached under the name that
    is not configured. *)
Theorem unconfigured_tunnel_is_dialed (name : string) (prompter : Prompter W)
    (st : State W) (conn : Connection.t) (homedir : string) (l : Listener)
    (w1 : W) :
  Connections (cfg (reg st)) !! name = Some conn ->
  activeQueriers (reg st) !! name = None ->
  Connection.Tunnel conn <> "" ->
  activeTunnels (reg st) !! Connection.Tunnel conn = None ->
  Tunnels (cfg (reg st)) !! Connection.Tunnel conn = None ->
  os_UserHomeDir W sys (world st) = (homedir, None) ->
  net_Listen W sys (world st) = ((l, None), w1) ->
  let config :=
    mk_ClientConfig "" [auth_nil]
      (knownHostsCallback (filepath_Join W sys homedir ".ssh/known_hosts")) 0 in
  let dial := ssh_Dial W sys ":0" config prompter w1 in
  exists rest,
    events_of (DBMan_SwitchConnection sys name prompter) st
    = [ev_UserHomeDir; ev_net_Listen l None; ev_ssh_Dial ":0" (fst dial)]
        ++ rest /\
    (forall client e,
       fst dial = Ret (client, Some e) ->
       rest = [] /\
       fst (DBMan_SwitchConnection sys name prompter st)
       = Ret (Some (fmt_Errorf_w "could not establish tunnel"
                      (fmt_Errorf_w "failed to connect to tunnel" e)))) /\
    (forall client,
       fst dial = Ret (client, None) ->
       is_Some (activeTunnels
                  (reg (snd (DBMan_SwitchConnection sys name prompter st)))
                  !! Connection.Tunnel conn)).
Proof.
  intros Hconn Hnone Htun Hcache Hcfg Hhome Hlisten config dial.
  destruct st as [d h w tr]. cbn [reg heap world trace] in *.
  unfold events_of. cbn [trace].
  unfold DBMan_SwitchConnection, SwitchConnection_resolve,
    SwitchConnection_tunnel, NewTunnel, NewTunnel_hostKeyCB, NewTunnel_auth,
    alloc, SwitchConnection_password, run_prompter, index0,
    SwitchConnection_connect, postgresOpen.
  cbv beta iota zeta delta [bind ret raise get_reg put_reg get_heap put_heap
                            log peek call call_outcome update_reg deref reg
                            heap world trace].
  rewrite Hconn, Hnone.
  destruct (decide (Connection.Tunnel conn <> "")); [| contradiction].
  cbv beta iota zeta. rewrite Hcache, Hcfg. cbn [default].
  rewrite Hhome. cbv beta iota zeta.
  destruct (decide (SSHTunnel.HostPublicKeyFile SSHTunnel.zero <> ""))
    as [Hc | _]; [exfalso; apply Hc; reflexivity |].
  cbn [negb SSHTunnel.DisableVerifyKnownHost SSHTunnel.zero].
  cbv beta iota zeta.
  destruct (decide (SSHTunnel.AuthMethod SSHTunnel.zero = PasswordAuth))
    as [Hc | _]; [discriminate Hc |].
  destruct (decide (SSHTunnel.AuthMethod SSHTunnel.zero = PublicKeyAuth))
    as [Hc | _]; [discriminate Hc |].
  destruct (decide (SSHTunnel.AuthMethod SSHTunnel.zero = AgentAuth))
    as [Hc | _]; [discriminate Hc |].
  cbv beta iota zeta. rewrite Hlisten. cbv beta iota zeta delta [fst snd].
  change (SSHTunnel.Host SSHTunnel.zero +:+ ":" +:+
          pretty (SSHTunnel.Port SSHTunnel.zero)) with ":0".
  change (SSHTunnel.User SSHTunnel.zero) with "".
  change (SSHTunnel.ConnectTimeoutSec SSHTunnel.zero) with 0%Z.
  fold config. fold dial.
  destruct dial as [[[client [e |]] | p] w2]; cbn [fst];
    repeat tunnel_next; tunnel_leaf.
Qed.
End ZeroTunnel.

Lemma unconfigured_tunnel_is_dialed_witness :
  let st := mk_State (New config_orphan) ∅ Script.quiet [] in
  exists rest,
    events_of (DBMan_SwitchConnection Script.sys "o" Script.prompter) st
    = [ev_UserHomeDir; ev_net_Listen (mk_Listener 0 "127.0.0.1:40000") None;
       ev_ssh_Dial ":0" (Ret (sshClient_handle 1, None))] ++ rest /\
    is_Some (activeTunnels
               (reg (snd (DBMan_SwitchConnection Script.sys "o"
                            Script.prompter st))) !! "ghost").
Proof.
  intros st.
  destruct (unconfigured_tunnel_is_dialed Script.World Script.sys "o"
              Script.prompter st conn_orphan "/home/user"
              (mk_Listener 0 "127.0.0.1:40000")
              (Script.mk_World [] [] [] [] [] [] 1))
    as (rest & Hev & _ & Hok).
  - vm_compute. reflexivity.
  - vm_compute. reflexivity.
  - discriminate.
  - vm_compute. reflexivity.
  - vm_compute. reflexivity.
  - reflexivity.
  - reflexivity.
  - exists rest. split; [exact Hev |].
    exact (Hok (sshClient_handle 1) eq_refl).
Defined.
